(** * V50 automated calculation: the search controller and its collaborators

    A shallow embedding of [config.py], [lsdyna_runner.run_simulation],
    [v50_solver.py], [main.py] and the extractor of [result_parser.py], the
    properties of the V50 search that the design document states about them,
    and further properties of the code.

    Conventions of the embedding.
    - Python [float] velocities are exact rationals ([Q]); [float('inf')] is
      the missing value of an [option Q].  Rounding error, overflow and NaN of
      IEEE arithmetic are not modelled in the search controller.
    - The Lambert-Jonas law uses real powers and is embedded over [R].
    - Python [int] is [Z]; a [dict] literal is an association list in
      insertion order; a module is the association list of its global names.
    - The calls into LS-DYNA and LS-PrePost (the observation source) and into
      [scipy.optimize.curve_fit] are oracles: the n-th simulation of a solve
      yields [obs n], the fit yields a [fit_outcome].
    - [np.sqrt] and [np.mean] of the extractor are parameters: nothing is
      assumed of their rounding.
    - Directory creation, log handlers and the CSV file have no influence on
      the search state and are left out. *)

From Stdlib Require Import ZArith QArith Qround Lqa Lia List String Bool.
From Stdlib Require Import Qminmax DecimalString.
From Stdlib Require Import SetoidList SetoidPermutation Permutation Sorted.
From Stdlib Require Import Reals Lra R_Ifp.
From Stdlib Require Import Qpower.
Import ListNotations.

Set Warnings "-register-all".

Local Open Scope string_scope.
Local Open Scope Z_scope.

(** ** Python values *)

Module Py.

Inductive pyval : Type :=
| VNone
| VBool (b : bool)
| VInt (z : Z)
| VFloat (q : Q)
| VInf
| VStr (s : string)
| VTuple (l : list pyval)
| VList (l : list pyval)
| VDict (d : list (string * pyval)).

Definition pydict := list (string * pyval).

(** [d[key]] / [d.get(key)] on a dict literal. *)
Fixpoint dict_get (key : string) (d : pydict) : option pyval :=
  match d with
  | [] => None
  | (k, v) :: d' => if String.eqb k key then Some v else dict_get key d'
  end.

(** [d[key]] where the key is known to be there. *)
Definition item (key : string) (d : pydict) : pyval :=
  match dict_get key d with Some v => v | None => VNone end.

Definition keys (d : pydict) : list string := map fst d.

(** [str(n)] of an [int]. *)
Definition str_of_int (n : Z) : string := NilZero.string_of_int (Z.to_int n).

Definition has_key (key : string) (d : pydict) : bool :=
  match dict_get key d with Some _ => true | None => false end.

(** Truth value of a Python object, as [not x] and [if x] compute it. *)
Definition truthy (v : pyval) : bool :=
  match v with
  | VNone => false
  | VBool b => b
  | VInt z => negb (z =? 0)
  | VFloat q => negb (Qeq_bool q 0)
  | VInf => true
  | VStr s => negb (String.eqb s "")
  | VTuple l | VList l => match l with [] => false | _ => true end
  | VDict d => match d with [] => false | _ => true end
  end.

(** [needle in hay] on strings. *)
Fixpoint contains (needle hay : string) : bool :=
  if String.prefix needle hay then true
  else match hay with
       | EmptyString => false
       | String _ rest => contains needle rest
       end.

Inductive exn : Type :=
| AttributeError (name : string)
| ValueError (msg : string)
| OverflowError (msg : string).

(** All three are subclasses of [Exception]; [str(e)] is the message. *)
Definition str_of_exn (e : exn) : string :=
  match e with
  | AttributeError name => "module 'config' has no attribute '" ++ name ++ "'"
  | ValueError msg => msg
  | OverflowError msg => msg
  end.

(** [min(a, b)] and [max(a, b)] of the builtins: the first argument wins
    ties. *)
Definition py_min (a b : Q) : Q := if Qlt_le_dec b a then b else a.
Definition py_max (a b : Q) : Q := if Qlt_le_dec a b then b else a.

(** [round(x)] to the nearest integer, ties to even. *)
Definition round_half_even (x : Q) : Z :=
  let f := Qfloor x in
  match Qcompare (x - inject_Z f) (1 # 2) with
  | Lt => f
  | Gt => f + 1
  | Eq => if Z.even f then f else f + 1
  end.

(** [round(x, 6)]. *)
Definition round6 (x : Q) : Q :=
  (inject_Z (round_half_even (x * 1000000)) / 1000000)%Q.

End Py.
Import Py.

(** ** config.py *)

Module Config.

Definition thickness : Type := (Q * Q * Q * Q)%type.

Definition VThickness (t : thickness) : pyval :=
  let '(t1, t2, t3, t4) := t in VTuple [VFloat t1; VFloat t2; VFloat t3; VFloat t4].

Definition VPair (lo hi : Q) : pyval := VTuple [VFloat lo; VFloat hi].

(** The module object: every global name [config.py] assigns, in order. *)
Definition config_py : pydict :=
  [ ("LS_DYNA_PATH", VStr "C:\Application\lspp\dyna\program\ls-dyna_smp_d_R13_1_0_x64.exe");
    ("LSPREPOST_PATH", VStr "C:\Application\lspp\LS-PrePost 4.8\lsprepost4.8_x64.exe");
    ("LSPREPOST_PYTHON_PATH", VStr "C:\Application\lspp\LS-PrePost 4.8");
    ("TEMPLATE_DIR", VStr "C:\songkai\1");
    ("BASE_WORKDIR", VStr "C:\songkai\V50求解_results");
    ("RESULTS_CSV_FILE", VStr "C:\songkai\V50求解_results\v50_results.csv");
    ("K_FILE_TEMPLATES",
      VList (map VStr ["main.k"; "rigid.k"; "TC4.k"; "ball-127.k"; "contact.k";
                       "hourglass.k"; "match.k"; "pe.k"; "section.k"; "solution.k";
                       "target.k"; "TimeAndVel.k"]));
    ("PARAMETRIC_CONFIG",
      VDict [ ("velocity",
                VDict [ ("file", VStr "TimeAndVel.k");
                        ("pattern", VStr "(\s+1\s+2\s+0\.0\s+0\.0\s+0\.0\s+)([-+]?\d+\.?\d*)(\s+0\s+0)");
                        ("replacement", VStr "\1{velocity}\3") ]);
              ("sim_time",
                VDict [ ("file", VStr "TimeAndVel.k");
                        ("pattern", VStr "(\s*)([\d\.]+)(\s+0\s+0\.0\s+0\.0\s*1\.000000E8\s+0)");
                        ("replacement", VStr "\1{sim_time}\3") ]) ]);
    ("SIMULATION_TIME", VFloat (15 # 100000));
    ("OUTPUT_INTERVAL", VFloat (1 # 1000000));
    ("LSDYNA_NCPU", VInt 4);
    ("LSDYNA_MEMORY", VStr "500m");
    ("INITIAL_VELOCITY", VFloat 300);
    ("VELOCITY_STEP", VFloat 50);
    ("MAX_VELOCITY", VFloat 2000);
    ("MIN_VELOCITY", VFloat 100);
    ("CONVERGENCE_TOLERANCE", VFloat 5);
    ("THICKNESS_CONFIGS",
      VList (map VThickness
               [ (2, 2, 2, 2); (5 # 2, 5 # 2, 5 # 2, 5 # 2); (3, 3, 3, 3);
                 (7 # 2, 7 # 2, 7 # 2, 7 # 2); (4, 4, 4, 4) ]%Q));
    ("PROJECTILE_PART_ID", VInt 1);
    ("PROJECTILE_MATERIAL_ID", VInt 4);
    ("LAMBERT_JONAS_BOUNDS",
      VDict [ ("a", VPair (1 # 10) 2); ("p", VPair (11 # 10) 5); ("VBL", VPair 50 800) ]);
    ("LSPREPOST_CONFIG",
      VDict [ ("use_graphics", VBool false); ("timeout", VInt 300);
              ("extract_method", VStr "python"); ("velocity_threshold", VFloat 10) ]);
    ("OUTPUT_FILES",
      VDict [ ("d3plot", VStr "d3plot"); ("rbdout", VStr "rbdout");
              ("messag", VStr "messag"); ("d3hsp", VStr "d3hsp") ]);
    ("BINARY_SEARCH_MAX_ITER", VInt 20);
    ("MIN_DATA_POINTS", VInt 5);
    ("MAX_SIMULATION_FAILURES", VInt 3) ].

(** Static bounds of the fit: [FIT_BOUNDS[k] = (lower, upper)]. *)
Record fit_bounds : Type := {
  bounds_a : Q * Q;
  bounds_p : Q * Q;
  bounds_VBL : Q * Q
}.

(** The attributes of [config] that [v50_solver] and [main] read.  A field
    is [None] when the module does not define the name: reading it raises
    [AttributeError], and [getattr(config, name, default)] yields the
    default. *)
Record config : Type := {
  BASE_WORKDIR : option string;
  RESULTS_CSV_FILE : option string;
  LS_DYNA_PATH : option string;
  TEMPLATE_FILE : option string;
  THICKNESS_CONFIGS : option (list thickness);
  PROJECTILE_PART_ID : option Z;
  INITIAL_VELOCITY : option Q;
  GROWTH_FACTOR : option Q;
  EXPONENTIAL_STEP : option Q;
  MAX_TOTAL_RUNS : option Z;
  VR_FILTER_THRESHOLD : option Q;
  EXTRA_PENETRATION_SAMPLES : option Z;
  MAX_BISECTION_ITERATIONS : option Z;
  CONVERGENCE_TOLERANCE : option Q;
  MIN_DATAPOINTS_FOR_FIT : option Z;
  FIT_BOUNDS : option fit_bounds;
  INITIAL_GUESS : option (Q * Q * Q)
}.

Definition as_str (v : pyval) : option string :=
  match v with VStr s => Some s | _ => None end.
Definition as_int (v : pyval) : option Z :=
  match v with VInt z => Some z | _ => None end.
Definition as_float (v : pyval) : option Q :=
  match v with VFloat q => Some q | VInt z => Some (inject_Z z) | _ => None end.
Definition as_pair (v : pyval) : option (Q * Q) :=
  match v with
  | VTuple [x; y] =>
      match as_float x, as_float y with Some a, Some b => Some (a, b) | _, _ => None end
  | _ => None
  end.
Definition as_triple (v : pyval) : option (Q * Q * Q) :=
  match v with
  | VTuple [x; y; z] | VList [x; y; z] =>
      match as_float x, as_float y, as_float z with
      | Some a, Some b, Some c => Some (a, b, c)
      | _, _, _ => None
      end
  | _ => None
  end.
Definition as_thickness (v : pyval) : option thickness :=
  match v with
  | VTuple [a; b; c; d] =>
      match as_float a, as_float b, as_float c, as_float d with
      | Some t1, Some t2, Some t3, Some t4 => Some (t1, t2, t3, t4)
      | _, _, _, _ => None
      end
  | _ => None
  end.
Fixpoint all_some {A} (l : list (option A)) : option (list A) :=
  match l with
  | [] => Some []
  | Some x :: l' => option_map (cons x) (all_some l')
  | None :: _ => None
  end.
Definition as_thickness_list (v : pyval) : option (list thickness) :=
  match v with VList l => all_some (map as_thickness l) | _ => None end.
Definition as_fit_bounds (v : pyval) : option fit_bounds :=
  match v with
  | VDict d =>
      match option_map as_pair (dict_get "a" d),
            option_map as_pair (dict_get "p" d),
            option_map as_pair (dict_get "VBL" d) with
      | Some (Some a), Some (Some p), Some (Some b) =>
          Some {| bounds_a := a; bounds_p := p; bounds_VBL := b |}
      | _, _, _ => None
      end
  | _ => None
  end.

Definition field {A} (conv : pyval -> option A) (name : string) (m : pydict) : option A :=
  match dict_get name m with Some v => conv v | None => None end.

(** The typed view of a module object. *)
Definition load (m : pydict) : config :=
  {| BASE_WORKDIR := field as_str "BASE_WORKDIR" m;
     RESULTS_CSV_FILE := field as_str "RESULTS_CSV_FILE" m;
     LS_DYNA_PATH := field as_str "LS_DYNA_PATH" m;
     TEMPLATE_FILE := field as_str "TEMPLATE_FILE" m;
     THICKNESS_CONFIGS := field as_thickness_list "THICKNESS_CONFIGS" m;
     PROJECTILE_PART_ID := field as_int "PROJECTILE_PART_ID" m;
     INITIAL_VELOCITY := field as_float "INITIAL_VELOCITY" m;
     GROWTH_FACTOR := field as_float "GROWTH_FACTOR" m;
     EXPONENTIAL_STEP := field as_float "EXPONENTIAL_STEP" m;
     MAX_TOTAL_RUNS := field as_int "MAX_TOTAL_RUNS" m;
     VR_FILTER_THRESHOLD := field as_float "VR_FILTER_THRESHOLD" m;
     EXTRA_PENETRATION_SAMPLES := field as_int "EXTRA_PENETRATION_SAMPLES" m;
     MAX_BISECTION_ITERATIONS := field as_int "MAX_BISECTION_ITERATIONS" m;
     CONVERGENCE_TOLERANCE := field as_float "CONVERGENCE_TOLERANCE" m;
     MIN_DATAPOINTS_FOR_FIT := field as_int "MIN_DATAPOINTS_FOR_FIT" m;
     FIT_BOUNDS := field as_fit_bounds "FIT_BOUNDS" m;
     INITIAL_GUESS := field as_triple "INITIAL_GUESS" m |}.

(** The configuration as shipped. *)
Definition shipped : config := load config_py.

(** [config.NAME]. *)
Definition attr {A} (name : string) (value : option A) : exn + A :=
  match value with
  | Some v => inr v
  | None => inl (AttributeError name)
  end.

(** [getattr(config, NAME, default)]. *)
Definition getattr {A} (value : option A) (default : A) : A :=
  match value with Some v => v | None => default end.

End Config.
Import Config.

(** ** lsdyna_runner.run_simulation *)

Module Lsdyna_runner.

(** What [check_output_files] finds in the run directory: each flag says
    that the file exists and is not empty; [normal_termination] that
    [messag] contains the words NORMAL TERMINATION. *)
Record run_dir : Type := {
  has_messag : bool;
  has_rbdout : bool;
  has_d3hsp : bool;
  has_matsum : bool;
  normal_termination : bool
}.

Definition present (flag : bool) (name : string) : list string :=
  if flag then [name] else [].
Definition absent (flag : bool) (name : string) : list string :=
  if flag then [] else [name].

Definition check_output_files (d : run_dir) : pydict :=
  let found_files :=
    (present (has_messag d) "messag"
       ++ (present (has_rbdout d) "rbdout" ++ present (has_d3hsp d) "d3hsp")
       ++ present (has_matsum d) "matsum")%list in
  let missing_required := absent (has_messag d) "messag" in
  let missing_important :=
    (absent (has_rbdout d) "rbdout" ++ absent (has_d3hsp d) "d3hsp")%list in
  let is_complete :=
    (Nat.eqb (List.length missing_required) 0 && Nat.eqb (List.length missing_important) 0
       && normal_termination d)%bool in
  [ ("complete", VBool is_complete);
    ("files", VList (map VStr found_files));
    ("missing", VList (map VStr (app missing_required missing_important)));
    ("normal_termination", VBool (normal_termination d)) ].

(** What happens to the solver process inside the [try] block. *)
Inductive process : Type :=
| Faulted (msg : string)
    (** any [Exception] raised in the block: [chdir], [Popen],
        [communicate], [check_output_files] *)
| TimedOut (elapsed : Q)
| Exited (return_code : Z) (stderr : string) (elapsed : Q) (d : run_dir).

Record world : Type := {
  executable_exists : bool;
  proc : process
}.

Definition run_simulation (w : world) : pydict :=
  if negb (executable_exists w) then
    [ ("success", VBool false); ("reason", VStr "lsdyna_not_found"); ("duration", VInt 0) ]
  else
    match proc w with
    | TimedOut elapsed_time =>
        [ ("success", VBool false); ("reason", VStr "timeout");
          ("duration", VFloat elapsed_time) ]
    | Exited return_code stderr elapsed_time d =>
        if return_code =? 0 then
          let output_status := check_output_files d in
          if truthy (item "complete" output_status) then
            [ ("success", VBool true); ("duration", VFloat elapsed_time);
              ("return_code", VInt return_code);
              ("output_files", item "files" output_status) ]
          else
            [ ("success", VBool false); ("reason", VStr "incomplete_output");
              ("duration", VFloat elapsed_time);
              ("missing_files", item "missing" output_status) ]
        else
          [ ("success", VBool false); ("reason", VStr ("exit_code_" ++ str_of_int return_code));
            ("duration", VFloat elapsed_time); ("stderr", VStr stderr) ]
    | Faulted msg =>
        [ ("success", VBool false); ("reason", VStr ("exception: " ++ msg));
          ("duration", VInt 0) ]
    end.

End Lsdyna_runner.

(** ** v50_solver.find_v50_for_config *)

Module V50_solver.

(** One answer of the observation source, as the solver reads it:
    [sim_success] is the truth value of what [run_simulation] returned,
    [(is_penetrated, vr)] what [get_residual_velocity] returned. *)
Record Obs : Type := {
  sim_success : bool;
  is_penetrated : bool;
  vr : Q
}.

(** The three outcomes the design document distinguishes. *)
Inductive Outcome : Type :=
| Penetrated (residual_velocity : Q)
| NotPenetrated
| ExperimentFailed.

Definition outcome_of (o : Obs) : Outcome :=
  if sim_success o then
    if is_penetrated o then Penetrated (vr o) else NotPenetrated
  else ExperimentFailed.

(** Lines 79 and 92 (145 and 155, 200 and 211) with [lsdyna_runner] as the
    source: [sim_success] is whatever [run_simulation] returned, taken as a
    condition. *)
Definition observe (w : Lsdyna_runner.world) (verdict : bool * Q) : Obs :=
  {| sim_success := truthy (VDict (Lsdyna_runner.run_simulation w));
     is_penetrated := fst verdict;
     vr := snd verdict |}.

Definition point : Type := (Q * Q)%type.

(** The arguments [curve_fit] is called with, and what comes back.  On
    convergence the oracle also gives the RMSE that lines 270-271 evaluate
    from the optimum. *)
Record fit_call : Type := {
  Vi_data : list Q;
  Vr_data : list Q;
  p0 : Q * Q * Q;
  lower_bounds : Q * Q * Q;
  upper_bounds : Q * Q * Q
}.

Inductive fit_outcome : Type :=
| Converged (a p VBL rmse : Q)
| FitRuntimeError
| FitException (msg : string).

Inductive phase : Type :=
| Expanding
| Sampling
| Bisecting
| Done (result : pydict)
| Raised (e : exn).

(** Locals of the satellite-sampling loop (lines 101-112). *)
Record sampling : Type := {
  target_samples : Z;
  samples_collected : Z;
  sample_step : Q;
  up_v : Q;
  down_v : Q;
  tried : list Q;
  direction_toggle : Z
}.

Record state : Type := {
  pc : phase;
  v_low : Q;
  v_high : option Q;
  penetration_points : list point;
  run_count : Z;
  current_v : Q;
  multiplier : option Q;
  expansion_iter : Z;
  samp : sampling;
  bisection_iter : Z;
  failures_logged : Z
    (** number of "simulation failed" warnings written so far
        (lines 82, 147, 203) *)
}.

Definition set_pc (p : phase) (s : state) : state :=
  {| pc := p; v_low := v_low s; v_high := v_high s;
     penetration_points := penetration_points s; run_count := run_count s;
     current_v := current_v s; multiplier := multiplier s;
     expansion_iter := expansion_iter s; samp := samp s;
     bisection_iter := bisection_iter s; failures_logged := failures_logged s |}.
Definition set_v_low (v : Q) (s : state) : state :=
  {| pc := pc s; v_low := v; v_high := v_high s;
     penetration_points := penetration_points s; run_count := run_count s;
     current_v := current_v s; multiplier := multiplier s;
     expansion_iter := expansion_iter s; samp := samp s;
     bisection_iter := bisection_iter s; failures_logged := failures_logged s |}.
Definition set_v_high (v : option Q) (s : state) : state :=
  {| pc := pc s; v_low := v_low s; v_high := v;
     penetration_points := penetration_points s; run_count := run_count s;
     current_v := current_v s; multiplier := multiplier s;
     expansion_iter := expansion_iter s; samp := samp s;
     bisection_iter := bisection_iter s; failures_logged := failures_logged s |}.
Definition set_points (l : list point) (s : state) : state :=
  {| pc := pc s; v_low := v_low s; v_high := v_high s;
     penetration_points := l; run_count := run_count s;
     current_v := current_v s; multiplier := multiplier s;
     expansion_iter := expansion_iter s; samp := samp s;
     bisection_iter := bisection_iter s; failures_logged := failures_logged s |}.
Definition set_run_count (n : Z) (s : state) : state :=
  {| pc := pc s; v_low := v_low s; v_high := v_high s;
     penetration_points := penetration_points s; run_count := n;
     current_v := current_v s; multiplier := multiplier s;
     expansion_iter := expansion_iter s; samp := samp s;
     bisection_iter := bisection_iter s; failures_logged := failures_logged s |}.
Definition set_current_v (v : Q) (s : state) : state :=
  {| pc := pc s; v_low := v_low s; v_high := v_high s;
     penetration_points := penetration_points s; run_count := run_count s;
     current_v := v; multiplier := multiplier s;
     expansion_iter := expansion_iter s; samp := samp s;
     bisection_iter := bisection_iter s; failures_logged := failures_logged s |}.
Definition set_multiplier (m : option Q) (s : state) : state :=
  {| pc := pc s; v_low := v_low s; v_high := v_high s;
     penetration_points := penetration_points s; run_count := run_count s;
     current_v := current_v s; multiplier := m;
     expansion_iter := expansion_iter s; samp := samp s;
     bisection_iter := bisection_iter s; failures_logged := failures_logged s |}.
Definition set_expansion_iter (n : Z) (s : state) : state :=
  {| pc := pc s; v_low := v_low s; v_high := v_high s;
     penetration_points := penetration_points s; run_count := run_count s;
     current_v := current_v s; multiplier := multiplier s;
     expansion_iter := n; samp := samp s;
     bisection_iter := bisection_iter s; failures_logged := failures_logged s |}.
Definition set_samp (sv : sampling) (s : state) : state :=
  {| pc := pc s; v_low := v_low s; v_high := v_high s;
     penetration_points := penetration_points s; run_count := run_count s;
     current_v := current_v s; multiplier := multiplier s;
     expansion_iter := expansion_iter s; samp := sv;
     bisection_iter := bisection_iter s; failures_logged := failures_logged s |}.
Definition set_bisection_iter (n : Z) (s : state) : state :=
  {| pc := pc s; v_low := v_low s; v_high := v_high s;
     penetration_points := penetration_points s; run_count := run_count s;
     current_v := current_v s; multiplier := multiplier s;
     expansion_iter := expansion_iter s; samp := samp s;
     bisection_iter := n; failures_logged := failures_logged s |}.
Definition log_failure (s : state) : state :=
  {| pc := pc s; v_low := v_low s; v_high := v_high s;
     penetration_points := penetration_points s; run_count := run_count s;
     current_v := current_v s; multiplier := multiplier s;
     expansion_iter := expansion_iter s; samp := samp s;
     bisection_iter := bisection_iter s; failures_logged := failures_logged s + 1 |}.

(** [penetration_points.append(p)]. *)
Definition append_point (p : point) (s : state) : state :=
  set_points (penetration_points s ++ [p])%list s.

(** An exception leaves the function with the state as it is. *)
Definition raise (s : state) (e : exn) : state := set_pc (Raised e) s.

Notation "x <-[ s ] a ;; k" :=
  (match a with inl e => raise s e | inr x => k end)
    (at level 100, s at level 0, a at level 99, right associativity, only parsing).

(** *** Points: the set, its order, the filter *)

(** Equality of two [(Vi, Vr)] tuples, as [set] and [==] decide it. *)
Definition point_eqb (p q : point) : bool :=
  (Qeq_bool (fst p) (fst q) && Qeq_bool (snd p) (snd q))%bool.

(** The same as a proposition: both components are the same numbers. *)
Definition same_point (p q : point) : Prop :=
  (fst p == fst q)%Q /\ (snd p == snd q)%Q.

(** Order of tuples: by the first component, then by the second. *)
Definition point_leb (p q : point) : bool :=
  if Qlt_le_dec (fst p) (fst q) then true
  else if Qeq_bool (fst p) (fst q) then Qle_bool (snd p) (snd q)
  else false.

(** [list(set(l))]: one representative of every tuple. *)
Fixpoint dedup (l : list point) : list point :=
  match l with
  | [] => []
  | p :: l' => if existsb (point_eqb p) l' then dedup l' else p :: dedup l'
  end.

Fixpoint insert_sorted (p : point) (l : list point) : list point :=
  match l with
  | [] => [p]
  | q :: l' => if point_leb p q then p :: q :: l' else q :: insert_sorted p l'
  end.

(** [sorted(l)]. *)
Fixpoint sorted (l : list point) : list point :=
  match l with
  | [] => []
  | p :: l' => insert_sorted p (sorted l')
  end.

(** Line 228: [sorted(list(set(penetration_points)))]. *)
Definition prepare_points (l : list point) : list point := sorted (dedup l).

(** [Vi_data.min()]; numpy refuses an empty array. *)
Definition array_min (l : list Q) : exn + Q :=
  match l with
  | [] => inl (ValueError "zero-size array to reduction operation minimum which has no identity")
  | x :: l' => inr (fold_left Qmin l' x)
  end.

(** Line 250: the upper bound of [VBL] handed to the fit. *)
Definition vbl_upper_bound (static_upper_bound : Q) (vi_min : Q) : Q :=
  py_min static_upper_bound (vi_min * (99 # 100))%Q.

Definition VPoints (l : list point) : pyval :=
  VList (map (fun p => VTuple [VFloat (fst p); VFloat (snd p)]) l).

Definition VBound (v : option Q) : pyval :=
  match v with Some q => VFloat q | None => VInf end.

(** The four [failed] records returned after the search (lines 236, 291
    and 301) share their shape. *)
Definition failed_after_search (reason : string) (s : state) : pydict :=
  [ ("status", VStr "failed");
    ("reason", VStr reason);
    ("v_low", VFloat (v_low s));
    ("v_high", VBound (v_high s));
    ("runs", VInt (run_count s));
    ("points_used", VPoints (penetration_points s)) ].

Section Solve.

Variable cfg : config.
Variable obs : Z -> Obs.
Variable fit : fit_call -> fit_outcome.

(** [0 < vr <= config.VR_FILTER_THRESHOLD]: the attribute is read only
    when the first comparison holds. *)
Definition vr_in_range (v : Q) : exn + bool :=
  if Qlt_le_dec 0 v then
    match attr "VR_FILTER_THRESHOLD" (VR_FILTER_THRESHOLD cfg) with
    | inl e => inl e
    | inr threshold => inr (Qle_bool v threshold)
    end
  else inr false.

(** [[p for p in l if (p[1] > 0 and p[1] <= config.VR_FILTER_THRESHOLD)]]. *)
Fixpoint filter_valid (l : list point) : exn + list point :=
  match l with
  | [] => inr []
  | p :: l' =>
      match vr_in_range (snd p) with
      | inl e => inl e
      | inr keep =>
          match filter_valid l' with
          | inl e => inl e
          | inr rest => inr (if keep then p :: rest else rest)
          end
      end
  end.

(** Lines 60-71. *)
Definition init : state :=
  let s0 :=
    {| pc := Expanding; v_low := 0; v_high := None; penetration_points := [];
       run_count := 0; current_v := 0; multiplier := None; expansion_iter := 0;
       samp := {| target_samples := 0; samples_collected := 0; sample_step := 0;
                  up_v := 0; down_v := 0; tried := []; direction_toggle := 0 |};
       bisection_iter := 0; failures_logged := 0 |} in
  _ <-[s0] attr "BASE_WORKDIR" (BASE_WORKDIR cfg) ;;
  initial_velocity <-[s0] attr "INITIAL_VELOCITY" (INITIAL_VELOCITY cfg) ;;
  let m :=
    if Qlt_le_dec 1 (getattr (GROWTH_FACTOR cfg) 1%Q) then GROWTH_FACTOR cfg else None in
  set_multiplier m (set_current_v initial_velocity s0).

(** Lines 180-186: after the expansion loop. *)
Definition after_expansion (s : state) : state :=
  match v_high s with
  | None =>
      set_pc (Done [ ("status", VStr "failed");
                     ("reason", VStr "No penetration found in exponential search");
                     ("runs", VInt (run_count s)) ]) s
  | Some _ => set_pc Bisecting (set_bisection_iter 0 s)
  end.

(** One turn of the expansion loop (lines 72-178). *)
Definition step_expanding (s : state) : state :=
  max_total_runs <-[s] attr "MAX_TOTAL_RUNS" (MAX_TOTAL_RUNS cfg) ;;
  if run_count s <? max_total_runs then
    let s := set_run_count (run_count s + 1)
               (set_expansion_iter (expansion_iter s + 1) s) in
    _ <-[s] attr "TEMPLATE_FILE" (TEMPLATE_FILE cfg) ;;
    _ <-[s] attr "LS_DYNA_PATH" (LS_DYNA_PATH cfg) ;;
    let o := obs (run_count s) in
    if negb (sim_success o) then
      let s := log_failure s in
      if run_count s =? 1 then
        exponential_step <-[s] attr "EXPONENTIAL_STEP" (EXPONENTIAL_STEP cfg) ;;
        set_current_v (current_v s + exponential_step)%Q s
      else after_expansion s
    else
      _ <-[s] attr "PROJECTILE_PART_ID" (PROJECTILE_PART_ID cfg) ;;
      if is_penetrated o then
        let s := set_v_high (Some (current_v s)) s in
        keep <-[s] vr_in_range (vr o) ;;
        let s := if keep then append_point (current_v s, vr o) s else s in
        let target := getattr (EXTRA_PENETRATION_SAMPLES cfg) 3 in
        valid <-[s] filter_valid (penetration_points s) ;;
        exponential_step <-[s] attr "EXPONENTIAL_STEP" (EXPONENTIAL_STEP cfg) ;;
        let step := py_max 1 (exponential_step / 5)%Q in
        set_pc Sampling
          (set_samp {| target_samples := target;
                       samples_collected := Z.of_nat (List.length valid);
                       sample_step := step;
                       up_v := (current_v s + step)%Q;
                       down_v := (current_v s - step)%Q;
                       tried := [round6 (current_v s)];
                       direction_toggle := 0 |} s)
      else
        let s := set_v_low (current_v s) s in
        match multiplier s with
        | Some m =>
            if (negb (Qeq_bool m 0) && (0 <? expansion_iter s))%bool then
              set_current_v (current_v s * m)%Q s
            else
              exponential_step <-[s] attr "EXPONENTIAL_STEP" (EXPONENTIAL_STEP cfg) ;;
              set_current_v (current_v s + exponential_step)%Q s
        | None =>
            exponential_step <-[s] attr "EXPONENTIAL_STEP" (EXPONENTIAL_STEP cfg) ;;
            set_current_v (current_v s + exponential_step)%Q s
        end
  else after_expansion s.

(** Lines 163-167 (and 134-137, 149-152): move on in one direction. *)
Definition advance (down : bool) (sv : sampling) : sampling :=
  {| target_samples := target_samples sv;
     samples_collected := samples_collected sv;
     sample_step := sample_step sv;
     up_v := if down then up_v sv else (up_v sv + sample_step sv)%Q;
     down_v := if down then (down_v sv - sample_step sv)%Q else down_v sv;
     tried := tried sv;
     direction_toggle := direction_toggle sv |}.

Definition set_toggle (n : Z) (sv : sampling) : sampling :=
  {| target_samples := target_samples sv;
     samples_collected := samples_collected sv;
     sample_step := sample_step sv;
     up_v := up_v sv; down_v := down_v sv; tried := tried sv;
     direction_toggle := n |}.

Definition add_tried (key : Q) (sv : sampling) : sampling :=
  {| target_samples := target_samples sv;
     samples_collected := samples_collected sv;
     sample_step := sample_step sv;
     up_v := up_v sv; down_v := down_v sv; tried := key :: tried sv;
     direction_toggle := direction_toggle sv |}.

Definition count_sample (sv : sampling) : sampling :=
  {| target_samples := target_samples sv;
     samples_collected := samples_collected sv + 1;
     sample_step := sample_step sv;
     up_v := up_v sv; down_v := down_v sv; tried := tried sv;
     direction_toggle := direction_toggle sv |}.

(** One turn of the sampling loop (lines 113-167); leaving it runs the
    [break] of line 170. *)
Definition step_sampling (s : state) : state :=
  let sv := samp s in
  if samples_collected sv <? target_samples sv then
    max_total_runs <-[s] attr "MAX_TOTAL_RUNS" (MAX_TOTAL_RUNS cfg) ;;
    if run_count s <? max_total_runs then
      let down := direction_toggle sv mod 2 =? 0 in
      let sample_v := if down then down_v sv else up_v sv in
      let sv := set_toggle (direction_toggle sv + 1) sv in
      if (down && Qle_bool sample_v (v_low s))%bool then
        set_samp (set_toggle (direction_toggle sv + 1) sv) s
      else
        let key := round6 sample_v in
        if existsb (Qeq_bool key) (tried sv) then
          set_samp (advance down sv) s
        else
          let sv := add_tried key sv in
          let s := set_run_count (run_count s + 1) (set_samp sv s) in
          _ <-[s] attr "TEMPLATE_FILE" (TEMPLATE_FILE cfg) ;;
          _ <-[s] attr "LS_DYNA_PATH" (LS_DYNA_PATH cfg) ;;
          let o := obs (run_count s) in
          if negb (sim_success o) then
            set_samp (advance down sv) (log_failure s)
          else
            _ <-[s] attr "PROJECTILE_PART_ID" (PROJECTILE_PART_ID cfg) ;;
            if is_penetrated o then
              keep <-[s] vr_in_range (vr o) ;;
              if keep then
                set_samp (advance down (count_sample sv))
                  (append_point (sample_v, vr o) s)
              else set_samp (advance down sv) s
            else set_samp (advance down sv) s
    else after_expansion s
  else after_expansion s.

(** Lines 266-308: the record made of what [curve_fit] did. *)
Definition after_fit (o : fit_outcome) (s : state) : state :=
  match o with
  | Converged a p VBL rmse =>
      set_pc (Done [ ("status", VStr "success");
                     ("V50", VFloat VBL);
                     ("param_a", VFloat a);
                     ("param_p", VFloat p);
                     ("rmse", VFloat rmse);
                     ("v_low", VFloat (v_low s));
                     ("v_high", VBound (v_high s));
                     ("runs", VInt (run_count s));
                     ("points_used", VPoints (penetration_points s)) ]) s
  | FitRuntimeError =>
      set_pc (Done (failed_after_search "Curve fitting failed" s)) s
  | FitException msg =>
      set_pc (Done (failed_after_search msg s)) s
  end.

(** Lines 222-264: preparation of the points and the call of the fit.
    [config.INITIAL_GUESS] is read inside the [try]: its AttributeError is
    caught by [except Exception]. *)
Definition fit_phase (s : state) : state :=
  let s := set_points (prepare_points (penetration_points s)) s in
  filtered_points <-[s] filter_valid (penetration_points s) ;;
  min_datapoints <-[s] attr "MIN_DATAPOINTS_FOR_FIT" (MIN_DATAPOINTS_FOR_FIT cfg) ;;
  if Z.of_nat (List.length filtered_points) <? min_datapoints then
    set_pc (Done (failed_after_search "Not enough data points for fitting" s)) s
  else
    let Vi := map fst filtered_points in
    let Vr := map snd filtered_points in
    fit_bounds <-[s] attr "FIT_BOUNDS" (FIT_BOUNDS cfg) ;;
    vi_min <-[s] array_min Vi ;;
    let upper := vbl_upper_bound (snd (bounds_VBL fit_bounds)) vi_min in
    match attr "INITIAL_GUESS" (INITIAL_GUESS cfg) with
    | inl e => after_fit (FitException (str_of_exn e)) s
    | inr guess =>
        after_fit
          (fit {| Vi_data := Vi; Vr_data := Vr; p0 := guess;
                  lower_bounds := (fst (bounds_a fit_bounds),
                                   fst (bounds_p fit_bounds),
                                   fst (bounds_VBL fit_bounds));
                  upper_bounds := (snd (bounds_a fit_bounds),
                                   snd (bounds_p fit_bounds),
                                   upper) |}) s
    end.

(** One turn of the bisection loop (lines 187-220); leaving it runs the
    fit. *)
Definition step_bisecting (s : state) : state :=
  max_bisection <-[s] attr "MAX_BISECTION_ITERATIONS" (MAX_BISECTION_ITERATIONS cfg) ;;
  if bisection_iter s <? max_bisection then
    max_total_runs <-[s] attr "MAX_TOTAL_RUNS" (MAX_TOTAL_RUNS cfg) ;;
    if run_count s <? max_total_runs then
      tolerance <-[s] attr "CONVERGENCE_TOLERANCE" (CONVERGENCE_TOLERANCE cfg) ;;
      match v_high s with
      | None =>
          (* inf - v_low < tolerance is false; int(mid_v) of line 197 fails *)
          raise (set_run_count (run_count s + 1)
                   (set_bisection_iter (bisection_iter s + 1) s))
            (OverflowError "cannot convert float infinity to integer")
      | Some high =>
          if Qlt_le_dec (high - v_low s) tolerance then fit_phase s
          else
            let s := set_run_count (run_count s + 1)
                       (set_bisection_iter (bisection_iter s + 1) s) in
            let mid_v := ((v_low s + high) / 2)%Q in
            _ <-[s] attr "TEMPLATE_FILE" (TEMPLATE_FILE cfg) ;;
            _ <-[s] attr "LS_DYNA_PATH" (LS_DYNA_PATH cfg) ;;
            let o := obs (run_count s) in
            if negb (sim_success o) then
              let s := log_failure s in
              if Qlt_le_dec ((v_low s + high) / 2)%Q mid_v
              then set_v_high (Some mid_v) s
              else set_v_low mid_v s
            else
              _ <-[s] attr "PROJECTILE_PART_ID" (PROJECTILE_PART_ID cfg) ;;
              if is_penetrated o then
                let s := set_v_high (Some mid_v) s in
                keep <-[s] vr_in_range (vr o) ;;
                if keep then append_point (mid_v, vr o) s else s
              else set_v_low mid_v s
      end
    else fit_phase s
  else fit_phase s.

Definition step (s : state) : state :=
  match pc s with
  | Expanding => step_expanding s
  | Sampling => step_sampling s
  | Bisecting => step_bisecting s
  | Done _ | Raised _ => s
  end.

Definition final (s : state) : bool :=
  match pc s with
  | Done _ | Raised _ => true
  | _ => false
  end.

(** [fuel] turns of whichever loop the control is in. *)
Fixpoint run (fuel : nat) (s : state) : state :=
  match fuel with
  | O => s
  | S n => run n (step s)
  end.

End Solve.

Inductive outcome : Type :=
| Returns (result : pydict)
| Raises (e : exn).

(** The observation source of a whole batch: the answers of the
    simulations of each configuration, in the order they are run. *)
Definition observation_source : Type := thickness -> Z -> Z -> Obs.

(** [find_v50_for_config(thickness_config, config_index)]; [None] when the
    call has not come back within [fuel] loop turns. *)
Definition find_v50_for_config (cfg : config) (source : observation_source)
    (fit : fit_call -> fit_outcome)
    (thickness_config : thickness) (config_index : Z) (fuel : nat) : option outcome :=
  let obs := source thickness_config config_index in
  match pc (run cfg obs fit fuel (init cfg)) with
  | Done result => Some (Returns result)
  | Raised e => Some (Raises e)
  | _ => None
  end.

End V50_solver.

(** ** main.py *)

Module Main.

Import V50_solver.

(** [d[k] = v]. *)
Fixpoint dict_set (k : string) (v : pyval) (d : pydict) : pydict :=
  match d with
  | [] => [(k, v)]
  | (k', v') :: d' =>
      if String.eqb k' k then (k, v) :: d' else (k', v') :: dict_set k v d'
  end.

(** [{**d, **extra}]. *)
Definition dict_update (d extra : pydict) : pydict :=
  fold_left (fun acc kv => dict_set (fst kv) (snd kv) acc) extra d.

(** The columns every row starts with (lines 66-70 and 81-82); [i] is the
    index [enumerate] gives. *)
Definition row_head (i : Z) (t : thickness) : pydict :=
  let '(t1, t2, t3, t4) := t in
  [ ("config_index", VInt (i + 1));
    ("t1", VFloat t1); ("t2", VFloat t2); ("t3", VFloat t3); ("t4", VFloat t4) ].

Section Batch.

Variable cfg : config.
Variable source : observation_source.
Variable fit : fit_call -> fit_outcome.
Variable fuel : nat.

(** The loop over [enumerate(config.THICKNESS_CONFIGS)] from index [i]
    on.  [None]: a solve has not come back.  [inl]: an exception leaves
    [main]. *)
Fixpoint process (i : Z) (configs : list thickness) (results_list : list pydict)
  : option (exn + list pydict) :=
  match configs with
  | [] => Some (inr results_list)
  | thickness :: rest =>
      match find_v50_for_config cfg source fit thickness (i + 1) fuel with
      | None => None
      | Some r =>
          let row :=
            match r with
            | Returns result => dict_update (row_head i thickness) result
            | Raises e =>
                (row_head i thickness
                   ++ [ ("status", VStr "critical_failure");
                        ("reason", VStr (str_of_exn e)) ])%list
            end in
          match attr "RESULTS_CSV_FILE" (RESULTS_CSV_FILE cfg) with
          | inl e => Some (inl e)
          | inr _ => process (i + 1) rest (results_list ++ [row])%list
          end
      end
  end.

(** [main()]: the rows of [results_list] when it ends. *)
Definition main : option (exn + list pydict) :=
  match attr "BASE_WORKDIR" (BASE_WORKDIR cfg) with
  | inl e => Some (inl e)
  | inr _ =>
      match attr "LS_DYNA_PATH" (LS_DYNA_PATH cfg) with
      | inl e => Some (inl e)
      | inr path =>
          if contains "path/to/your" path then Some (inr [])
          else
            match attr "THICKNESS_CONFIGS" (THICKNESS_CONFIGS cfg) with
            | inl e => Some (inl e)
            | inr configs => process 0 configs []
            end
      end
  end.

End Batch.

End Main.

(** ** The Lambert-Jonas law, over the reals *)

Module Lambert_jonas.

Local Open Scope R_scope.

Definition is_integer (y : R) : {y = IZR (Int_part y)} + {y <> IZR (Int_part y)} :=
  Req_dec_T y (IZR (Int_part y)).

(** [x ** y] of numpy for an exponent [y > 0]; [None] is nan, the power of
    a negative base to an exponent that is not an integer. *)
Definition power (x : R) (y : posreal) : option R :=
  match total_order_T 0 x with
  | inleft (left _) => Some (Rpower x y)
  | inleft (right _) => Some 0
  | inright _ =>
      if is_integer y then
        Some (if Z.even (Int_part y) then Rpower (- x) y else - Rpower (- x) y)
      else None
  end.

(** Lines 25-27.  [np.where(term > 0, .., 0)] takes the second branch when
    [term] is nan. *)
Definition lambert_jonas_func (Vi a : R) (p : posreal) (VBL : R) : R :=
  match power Vi p, power VBL p with
  | Some x, Some y =>
      let term := x - y in
      if Rlt_dec 0 term then a * Rpower term (1 / p) else 0
  | _, _ => 0
  end.

End Lambert_jonas.

(** ** Inputs used in the examples *)

Module Examples.

Import V50_solver.

(** [config.py] with the names the solver reads added to it: the step, the
    iteration cap, the minimum number of points and the bounds take the values
    [config.py] gives under their other names. *)
Definition completed : config :=
  {| BASE_WORKDIR := BASE_WORKDIR shipped;
     RESULTS_CSV_FILE := RESULTS_CSV_FILE shipped;
     LS_DYNA_PATH := LS_DYNA_PATH shipped;
     TEMPLATE_FILE := Some "main.k";
     THICKNESS_CONFIGS := THICKNESS_CONFIGS shipped;
     PROJECTILE_PART_ID := PROJECTILE_PART_ID shipped;
     INITIAL_VELOCITY := INITIAL_VELOCITY shipped;
     GROWTH_FACTOR := None;
     EXPONENTIAL_STEP := Some 50%Q;
     MAX_TOTAL_RUNS := Some 30;
     VR_FILTER_THRESHOLD := Some 100%Q;
     EXTRA_PENETRATION_SAMPLES := None;
     MAX_BISECTION_ITERATIONS := Some 20;
     CONVERGENCE_TOLERANCE := CONVERGENCE_TOLERANCE shipped;
     MIN_DATAPOINTS_FOR_FIT := Some 5;
     FIT_BOUNDS := Some {| bounds_a := (1 # 10, 2)%Q;
                           bounds_p := (11 # 10, 5)%Q;
                           bounds_VBL := (50, 800)%Q |};
     INITIAL_GUESS := Some (1, 2, 400)%Q |}.

Definition not_penetrated : Obs :=
  {| sim_success := true; is_penetrated := false; vr := 0 |}.

Definition penetrated (residual : Q) : Obs :=
  {| sim_success := true; is_penetrated := true; vr := residual |}.

(** A target no shot gets through. *)
Definition impenetrable : observation_source := fun _ _ _ => not_penetrated.

(** Runs 2, 4 and 6 (at 350, 360 and 370 m/s) penetrate with residual
    velocities 20, 40 and 60 m/s; no other run penetrates. *)
Definition three_hits : observation_source :=
  fun _ _ n =>
    if (n =? 2) || (n =? 4) || (n =? 6) then penetrated (inject_Z (10 * n))
    else not_penetrated.

(** A target with its ballistic limit between 340 and 350 m/s whose residual
    velocities grow fast: the first run (300 m/s) does not penetrate, the
    second (350 m/s) leaves 20 m/s, every later shot below 350 m/s (the odd
    runs: 340, 330, 320, 310) does not penetrate, every later shot above
    (the even runs: 360, 370, 380, 390) leaves 150 m/s, over the filter
    threshold of 100. *)
Definition steep : observation_source :=
  fun _ _ n =>
    if n =? 2 then penetrated 20
    else if Z.even n then penetrated 150
    else not_penetrated.

(** The search state [three_hits] leads to under [completed] when the
    bisection loop is left: ten runs, bracket (346.875, 350), three points. *)
Definition narrow_bracket : state :=
  {| pc := Bisecting;
     v_low := 2775 # 8;
     v_high := Some 350%Q;
     penetration_points := [ (350, 20); (360, 40); (370, 60) ]%Q;
     run_count := 10;
     current_v := 350;
     multiplier := None;
     expansion_iter := 2;
     samp := {| target_samples := 3; samples_collected := 3; sample_step := 10;
                up_v := 380; down_v := 330;
                tried := [ 370; 340; 360; 350 ]%Q; direction_toggle := 4 |};
     bisection_iter := 4;
     failures_logged := 0 |}.

(** [completed] with multiplicative growth, a wider step and six extra
    samples asked for. *)
Definition growing : config :=
  {| BASE_WORKDIR := BASE_WORKDIR completed;
     RESULTS_CSV_FILE := RESULTS_CSV_FILE completed;
     LS_DYNA_PATH := LS_DYNA_PATH completed;
     TEMPLATE_FILE := TEMPLATE_FILE completed;
     THICKNESS_CONFIGS := THICKNESS_CONFIGS completed;
     PROJECTILE_PART_ID := PROJECTILE_PART_ID completed;
     INITIAL_VELOCITY := INITIAL_VELOCITY completed;
     GROWTH_FACTOR := Some (3 # 2);
     EXPONENTIAL_STEP := Some 125%Q;
     MAX_TOTAL_RUNS := MAX_TOTAL_RUNS completed;
     VR_FILTER_THRESHOLD := VR_FILTER_THRESHOLD completed;
     EXTRA_PENETRATION_SAMPLES := Some 6;
     MAX_BISECTION_ITERATIONS := MAX_BISECTION_ITERATIONS completed;
     CONVERGENCE_TOLERANCE := CONVERGENCE_TOLERANCE completed;
     MIN_DATAPOINTS_FOR_FIT := MIN_DATAPOINTS_FOR_FIT completed;
     FIT_BOUNDS := FIT_BOUNDS completed;
     INITIAL_GUESS := INITIAL_GUESS completed |}.

(** A target with its ballistic limit between 356.25 and 375 m/s.  Under
    [growing] the runs are at 300, 450, then the samples 425, 475, 400, 500,
    375, then the midpoints 375, 337.5, 356.25, 365.625, 370.3125: the shot
    at 375 m/s is fired twice, as run 7 and as run 8, and the two simulations
    do not give the same residual velocity. *)
Definition shot_twice : observation_source :=
  fun _ _ n =>
    match n with
    | 1 => not_penetrated
    | 2 => penetrated 60
    | 3 => penetrated 50
    | 4 => penetrated 70
    | 5 => penetrated 30
    | 6 => penetrated 80
    | 7 => penetrated 10
    | 8 => penetrated 12
    | _ => not_penetrated
    end.

(** The state in which the bisection loop is entered with the bracket
    [(low, high)] after two runs. *)
Definition bracket (low high : Q) : state :=
  {| pc := Bisecting;
     v_low := low;
     v_high := Some high;
     penetration_points := [];
     run_count := 2;
     current_v := high;
     multiplier := None;
     expansion_iter := 2;
     samp := {| target_samples := 0; samples_collected := 0; sample_step := 10;
                up_v := (high + 10)%Q; down_v := (high - 10)%Q;
                tried := [ round6 high ]; direction_toggle := 0 |};
     bisection_iter := 0;
     failures_logged := 0 |}.

(** A configuration that starts the search at a negative velocity, asks for
    no extra sample and fits from one point on. *)
Definition backwards : config :=
  {| BASE_WORKDIR := BASE_WORKDIR completed;
     RESULTS_CSV_FILE := RESULTS_CSV_FILE completed;
     LS_DYNA_PATH := LS_DYNA_PATH completed;
     TEMPLATE_FILE := TEMPLATE_FILE completed;
     THICKNESS_CONFIGS := THICKNESS_CONFIGS completed;
     PROJECTILE_PART_ID := PROJECTILE_PART_ID completed;
     INITIAL_VELOCITY := Some (- (100))%Q;
     GROWTH_FACTOR := None;
     EXPONENTIAL_STEP := EXPONENTIAL_STEP completed;
     MAX_TOTAL_RUNS := MAX_TOTAL_RUNS completed;
     VR_FILTER_THRESHOLD := VR_FILTER_THRESHOLD completed;
     EXTRA_PENETRATION_SAMPLES := Some 0;
     MAX_BISECTION_ITERATIONS := MAX_BISECTION_ITERATIONS completed;
     CONVERGENCE_TOLERANCE := CONVERGENCE_TOLERANCE completed;
     MIN_DATAPOINTS_FOR_FIT := Some 1;
     FIT_BOUNDS := FIT_BOUNDS completed;
     INITIAL_GUESS := INITIAL_GUESS completed |}.

(** The exponent [p = 2]. *)
Definition two : posreal := mkposreal 2%R Rlt_0_2.

(** The same relation between the three components of two triples. *)
Definition each (f : Q -> Q -> bool) (x y : Q * Q * Q) : bool :=
  let '(x1, x2, x3) := x in
  let '(y1, y2, y3) := y in
  (f x1 y1 && f x2 y2 && f x3 y3)%bool.

(** [curve_fit] with an optimiser that does not converge.  The call is
    checked first, as scipy checks it: a lower bound that is not strictly
    below its upper bound and an initial guess outside the bounds are
    ValueErrors, which line 299 catches; failing to converge is the
    RuntimeError of line 289. *)
Definition not_converging (c : fit_call) : fit_outcome :=
  if negb (each (fun lower upper => negb (Qle_bool upper lower))
             (lower_bounds c) (upper_bounds c))
  then FitException "Each lower bound must be strictly less than each upper bound."
  else if negb (each Qle_bool (lower_bounds c) (p0 c)
                && each Qle_bool (p0 c) (upper_bounds c))
  then FitException "`x0` is infeasible."
  else FitRuntimeError.

End Examples.

(** ** result_parser.py *)

Module Result_parser.

(** The exceptions that leave [get_residual_velocity]. *)
Inductive raised : Type :=
| MissingAttribute (name : string)   (** AttributeError on [config.NAME] *)
| MissingKey (key : string).         (** KeyError on [LSPREPOST_CONFIG[key]] *)

Definition str_of_raised (e : raised) : string :=
  match e with
  | MissingAttribute name => "module 'config' has no attribute '" ++ name ++ "'"
  | MissingKey key => "'" ++ key ++ "'"
  end.

(** [config.LSPREPOST_CONFIG], the keys this module reads. *)
Record lsprepost_config : Type := {
  timeout : option Z;
  extract_method : option string;
  velocity_threshold : option Q
}.

(** The attributes of [config] that [result_parser] reads. *)
Record settings : Type := {
  LSPREPOST_PATH : option string;
  LSPREPOST_PYTHON_PATH : option string;
  LSPREPOST_CONFIG : option lsprepost_config;
  PART_ID : option Z;        (** [config.PROJECTILE_PART_ID] *)
  MATERIAL_ID : option Z     (** [config.PROJECTILE_MATERIAL_ID] *)
}.

Definition as_lsprepost_config (v : pyval) : option lsprepost_config :=
  match v with
  | VDict d =>
      Some {| timeout := field as_int "timeout" d;
              extract_method := field as_str "extract_method" d;
              velocity_threshold := field as_float "velocity_threshold" d |}
  | _ => None
  end.

Definition load_settings (m : pydict) : settings :=
  {| LSPREPOST_PATH := field as_str "LSPREPOST_PATH" m;
     LSPREPOST_PYTHON_PATH := field as_str "LSPREPOST_PYTHON_PATH" m;
     LSPREPOST_CONFIG := field as_lsprepost_config "LSPREPOST_CONFIG" m;
     PART_ID := field as_int "PROJECTILE_PART_ID" m;
     MATERIAL_ID := field as_int "PROJECTILE_MATERIAL_ID" m |}.

Definition shipped_settings : settings := load_settings config_py.

(** [config.LSPREPOST_CONFIG[key]]. *)
Definition config_item {A} (cfg : settings) (key : string)
    (get : lsprepost_config -> option A) : raised + A :=
  match LSPREPOST_CONFIG cfg with
  | None => inl (MissingAttribute "LSPREPOST_CONFIG")
  | Some c =>
      match get c with
      | None => inl (MissingKey key)
      | Some v => inr v
      end
  end.

(** What the LS-PrePost Python interface answers.  [None] is an exception
    raised by the call; for [get_node_velocity] it also stands for an answer
    that is not a vector. *)
Record lsprepost : Type := {
  open_database : option Z;
  get_time_array : option (list Q);
  set_current_time : Q -> bool;
  get_part_nodes : Z -> option (list Z);
  get_parts_by_material : Z -> option (list Z);
  get_node_ids : option (list Z);
  get_node_velocity : Z -> option (list Q);
  close_database : bool
}.

(** What one call finds outside the program. *)
Record world : Type := {
  importable : option lsprepost;
    (** what [import lsprepost] gives; [None] is ImportError *)
  d3plot_exists : bool;
  command_file_error : option string;
    (** [str(e)] of the exception writing [extract_velocity.cfile] raises,
        if it raises one *)
  chdir_ok : bool;
  lsprepost_exit : option Z;
    (** return code of the LS-PrePost process; [None] when [communicate]
        raises *)
  output_exists : bool;
  output_file : string + list (list string)
    (** [velocity_output.txt]: the message of the exception reading it
        raises, or its lines, each one stripped and split at white space *)
}.

(** The four-key record of every failure. *)
Definition failure (reason : string) : pydict :=
  [ ("success", VBool false);
    ("reason", VStr reason);
    ("residual_velocity", VNone);
    ("is_penetration", VNone) ].

(** [np.max(l)] of a list that is not empty. *)
Definition maximum (l : list Q) : Q :=
  match l with
  | [] => 0%Q
  | x :: l' => fold_left Qmax l' x
  end.

(** The parameters of [subprocess.Popen.__init__] after [args]. *)
Definition Popen_parameters : list string :=
  [ "bufsize"; "executable"; "stdin"; "stdout"; "stderr"; "preexec_fn"; "close_fds";
    "shell"; "cwd"; "env"; "universal_newlines"; "startupinfo"; "creationflags";
    "restore_signals"; "start_new_session"; "pass_fds"; "user"; "group";
    "extra_groups"; "encoding"; "errors"; "text"; "umask"; "pipesize";
    "process_group" ].

(** [subprocess.Popen(cmd, **keywords)]: a keyword that is no parameter is a
    TypeError ([None]); else the child process is started. *)
Definition Popen {A} (keywords : list string) (child : A) : option A :=
  if forallb (fun k => existsb (String.eqb k) Popen_parameters) keywords
  then Some child else None.

(** Line 92 of [v50_solver]: [is_penetrated, vr = <iterable>], on the items
    the iterable yields. *)
Definition unpack_pair (items : list pyval) : exn + pyval * pyval :=
  match items with
  | [a; b] => inr (a, b)
  | [] => inl (ValueError "not enough values to unpack (expected 2, got 0)")
  | [_] => inl (ValueError "not enough values to unpack (expected 2, got 1)")
  | _ => inl (ValueError "too many values to unpack (expected 2)")
  end.

(** Iterating over a dict yields its keys. *)
Definition iterate (d : pydict) : list pyval := map VStr (keys d).

Section Extractor.

(** [np.sqrt] and [np.mean], with whatever rounding they have, [int(text)]
    and [float(text)]; the two conversions give [None] for a ValueError. *)
Variable np_sqrt : Q -> Q.
Variable np_mean : list Q -> Q.
Variable parse_int : string -> option Z.
Variable parse_float : string -> option Q.

Variable cfg : settings.
Variable w : world.

Definition magnitude (vx vy vz : Q) : Q := np_sqrt (vx * vx + vy * vy + vz * vz)%Q.

(** Lines 283-329. *)
Definition parse_line (parts : list string) : option Q :=
  match parts with
  | p0 :: p1 :: p2 :: p3 :: _ =>
      match parse_int p0, parse_float p1, parse_float p2, parse_float p3 with
      | Some _, Some vx, Some vy, Some vz => Some (magnitude vx vy vz)
      | _, _, _, _ => None
      end
  | _ => None
  end.

Fixpoint parsed (lines : list (list string)) : list Q :=
  match lines with
  | [] => []
  | l :: rest =>
      match parse_line l with
      | Some v => v :: parsed rest
      | None => parsed rest
      end
  end.

Definition _parse_velocity_output_file : pydict :=
  match output_file w with
  | inl msg => failure ("parse_error: " ++ msg)
  | inr lines =>
      let velocities := parsed (tl lines) in
      match velocities with
      | [] => failure "no_velocity_data"
      | _ =>
          let avg_velocity := np_mean velocities in
          match config_item cfg "velocity_threshold" velocity_threshold with
          | inl e => failure ("parse_error: " ++ str_of_raised e)
          | inr threshold =>
              [ ("success", VBool true);
                ("residual_velocity", VFloat avg_velocity);
                ("is_penetration", VBool (negb (Qle_bool avg_velocity threshold)));
                ("node_count", VInt (Z.of_nat (List.length velocities)));
                ("source", VStr "lsprepost_batch") ]
          end
      end
  end.

(** Lines 237-281: every exception is answered with [False]. *)
Definition _run_lsprepost_batch : bool :=
  match LSPREPOST_PATH cfg with
  | None => false
  | Some _ =>
      if chdir_ok w then
        match config_item cfg "timeout" timeout with
        | inl _ => false
        | inr _ =>
            match Popen [ "stdout"; "stderr"; "text"; "timeout" ] (lsprepost_exit w) with
            | None => false
            | Some None => false
            | Some (Some return_code) => return_code =? 0
            end
        end
      else false
  end.

(** Lines 172-219. *)
Definition extract_residual_velocity_batch : pydict :=
  if negb (d3plot_exists w) then failure "no_d3plot_file"
  else
    match command_file_error w with
    | Some msg => failure ("batch_error: " ++ msg)
    | None =>
        let success := _run_lsprepost_batch in
        if (success && output_exists w)%bool then _parse_velocity_output_file
        else failure "lsprepost_batch_failed"
    end.

Definition nonempty {A} (l : list A) : bool :=
  match l with [] => false | _ => true end.

(** Lines 139-170: any exception gives the empty list. *)
Section Nodes.

Variable lspp : lsprepost.

Fixpoint nodes_of_parts (parts : list Z) : option (list Z) :=
  match parts with
  | [] => Some []
  | part_id :: rest =>
      match get_part_nodes lspp part_id with
      | None => None
      | Some nodes => option_map (app nodes) (nodes_of_parts rest)
      end
  end.

Definition _get_projectile_nodes : list Z :=
  match PART_ID cfg with
  | None => []
  | Some part_id =>
      match get_part_nodes lspp part_id with
      | None => []
      | Some part_nodes =>
          if nonempty part_nodes then part_nodes
          else
            match MATERIAL_ID cfg with
            | None => []
            | Some material_id =>
                match get_parts_by_material lspp material_id with
                | None => []
                | Some material_parts =>
                    let every_node :=
                      match get_node_ids lspp with
                      | None => []
                      | Some all_nodes => firstn 100 all_nodes
                      end in
                    if nonempty material_parts then
                      match nodes_of_parts material_parts with
                      | None => []
                      | Some all_nodes =>
                          if nonempty all_nodes then all_nodes else every_node
                      end
                    else every_node
                end
            end
      end
  end.

(** One entry of [velocities]. *)
Record node_velocity : Type := {
  node_id : Z;
  vx : Q;
  vy : Q;
  vz : Q;
  v_magnitude : Q
}.

Definition velocity_dict (v : node_velocity) : pyval :=
  VDict [ ("node_id", VInt (node_id v)); ("vx", VFloat (vx v)); ("vy", VFloat (vy v));
          ("vz", VFloat (vz v)); ("magnitude", VFloat (v_magnitude v)) ].

(** Lines 86-107. *)
Fixpoint node_velocities (nodes : list Z) : list node_velocity :=
  match nodes with
  | [] => []
  | n :: rest =>
      match get_node_velocity lspp n with
      | Some (x :: y :: z :: _) =>
          {| node_id := n; vx := x; vy := y; vz := z; v_magnitude := magnitude x y z |}
            :: node_velocities rest
      | _ => node_velocities rest
      end
  end.

(** The [try] block of lines 61-132; [None] is an exception raised in
    it. *)
Definition python_interface : option pydict :=
  match open_database lspp with
  | None => None
  | Some ret_code =>
      if negb (ret_code =? 0) then None
      else
        match get_time_array lspp with
        | None => None
        | Some time_steps =>
            match rev time_steps with
            | [] => None
            | last_time :: _ =>
                if negb (set_current_time lspp last_time) then None
                else
                  let projectile_nodes := _get_projectile_nodes in
                  if negb (nonempty projectile_nodes) then None
                  else
                    let velocities := node_velocities projectile_nodes in
                    if negb (close_database lspp) then None
                    else if negb (nonempty velocities) then None
                    else
                      let magnitudes := map v_magnitude velocities in
                      let avg_residual_velocity := np_mean magnitudes in
                      let max_residual_velocity := maximum magnitudes in
                      match config_item cfg "velocity_threshold" velocity_threshold with
                      | inl _ => None
                      | inr threshold =>
                          Some
                            [ ("success", VBool true);
                              ("residual_velocity", VFloat avg_residual_velocity);
                              ("max_residual_velocity", VFloat max_residual_velocity);
                              ("is_penetration",
                                VBool (negb (Qle_bool avg_residual_velocity threshold)));
                              ("node_count", VInt (Z.of_nat (List.length velocities)));
                              ("velocity_data", VList (map velocity_dict velocities));
                              ("source", VStr "lsprepost_python") ]
                      end
            end
        end
  end.

End Nodes.

(** Lines 38-137; [lspp] is [self.lspp]. *)
Definition extract_residual_velocity_python (lspp : option lsprepost) : pydict :=
  match lspp with
  | None => extract_residual_velocity_batch
  | Some interface =>
      if negb (d3plot_exists w) then failure "no_d3plot_file"
      else
        match python_interface interface with
        | Some result => result
        | None => extract_residual_velocity_batch
        end
  end.

(** Lines 334-355.  [_extractor] is the module's global: [None] before the
    first call, afterwards the extractor with its [lspp].  The result comes
    with the global's new value. *)
Definition get_residual_velocity (_extractor : option (option lsprepost))
  : (raised + pydict) * option (option lsprepost) :=
  let created :=
    match _extractor with
    | Some extractor => inr extractor
    | None =>
        match LSPREPOST_PYTHON_PATH cfg with
        | None => inl (MissingAttribute "LSPREPOST_PYTHON_PATH")
        | Some _ => inr (importable w)
        end
    end in
  match created with
  | inl e => (inl e, None)
  | inr extractor =>
      match config_item cfg "extract_method" extract_method with
      | inl e => (inl e, Some extractor)
      | inr method =>
          if String.eqb method "python"
          then (inr (extract_residual_velocity_python extractor), Some extractor)
          else (inr extract_residual_velocity_batch, Some extractor)
      end
  end.

End Extractor.

End Result_parser.

(** ** Further inputs used in the examples *)

Module Scenarios.

Import V50_solver Examples.

(** A solver installation on which every simulation fails. *)
Definition crashing : observation_source :=
  fun _ _ _ => {| sim_success := false; is_penetrated := false; vr := 0 |}.

(** [completed] with no extra sample asked for. *)
Definition no_extra_samples : config :=
  {| BASE_WORKDIR := BASE_WORKDIR completed;
     RESULTS_CSV_FILE := RESULTS_CSV_FILE completed;
     LS_DYNA_PATH := LS_DYNA_PATH completed;
     TEMPLATE_FILE := TEMPLATE_FILE completed;
     THICKNESS_CONFIGS := THICKNESS_CONFIGS completed;
     PROJECTILE_PART_ID := PROJECTILE_PART_ID completed;
     INITIAL_VELOCITY := INITIAL_VELOCITY completed;
     GROWTH_FACTOR := GROWTH_FACTOR completed;
     EXPONENTIAL_STEP := EXPONENTIAL_STEP completed;
     MAX_TOTAL_RUNS := MAX_TOTAL_RUNS completed;
     VR_FILTER_THRESHOLD := VR_FILTER_THRESHOLD completed;
     EXTRA_PENETRATION_SAMPLES := Some 0;
     MAX_BISECTION_ITERATIONS := MAX_BISECTION_ITERATIONS completed;
     CONVERGENCE_TOLERANCE := CONVERGENCE_TOLERANCE completed;
     MIN_DATAPOINTS_FOR_FIT := MIN_DATAPOINTS_FOR_FIT completed;
     FIT_BOUNDS := FIT_BOUNDS completed;
     INITIAL_GUESS := INITIAL_GUESS completed |}.

(** The square root, rounded down to a whole number. *)
Definition whole_sqrt (x : Q) : Q := inject_Z (Z.sqrt (Qfloor x)).

(** The mean without rounding. *)
Definition exact_mean (l : list Q) : Q :=
  (fold_left Qplus l 0 / inject_Z (Z.of_nat (List.length l)))%Q.

(** A reader of whole numbers in decimal notation. *)
Definition whole_int (text : string) : option Z :=
  option_map Z.of_int (NilZero.int_of_string text).
Definition whole_float (text : string) : option Q := option_map inject_Z (whole_int text).

(** A database with two time steps in which the projectile, part 1, has the
    nodes 7 and 8, moving along z at 70 and 80 m/s. *)
Definition two_nodes : Result_parser.lsprepost :=
  {| Result_parser.open_database := Some 0;
     Result_parser.get_time_array := Some [ 0; 15 # 100000 ]%Q;
     Result_parser.set_current_time := fun _ => true;
     Result_parser.get_part_nodes := fun part_id => if part_id =? 1 then Some [7; 8] else Some [];
     Result_parser.get_parts_by_material := fun _ => Some [];
     Result_parser.get_node_ids := Some [7; 8; 9];
     Result_parser.get_node_velocity := fun n => Some [ 0; 0; inject_Z (10 * n) ]%Q;
     Result_parser.close_database := true |}.

(** A run directory with its d3plot file, on a machine where the Python
    interface of LS-PrePost can be imported. *)
Definition with_interface : Result_parser.world :=
  {| Result_parser.importable := Some two_nodes;
     Result_parser.d3plot_exists := true;
     Result_parser.command_file_error := None;
     Result_parser.chdir_ok := true;
     Result_parser.lsprepost_exit := Some 0;
     Result_parser.output_exists := true;
     Result_parser.output_file := inr [] |}.

(** A run directory without d3plot file, on a machine without the Python
    interface. *)
Definition without_interface : Result_parser.world :=
  {| Result_parser.importable := None;
     Result_parser.d3plot_exists := false;
     Result_parser.command_file_error := None;
     Result_parser.chdir_ok := true;
     Result_parser.lsprepost_exit := Some 0;
     Result_parser.output_exists := false;
     Result_parser.output_file := inl "No such file or directory" |}.


End Scenarios.

(** * Properties *)

Import V50_solver Main Examples.

(** ceil(log2 x) of a positive rational. *)
Definition ceil_log2 (x : Q) : Z :=
  if Qle_bool 1 x then Z.log2_up (Qceiling x) else - Z.log2 (Qfloor (/ x)).

(** The number of midpoints it takes to bring a bracket of width [w] under
    the tolerance: none when [w < tolerance], else floor(log2 (w / tolerance))
    + 1. *)
Definition halvings (w tolerance : Q) : Z :=
  if Qlt_le_dec w tolerance then 0 else Z.log2 (Qfloor (w / tolerance)) + 1.

(** Width of the bracket once a penetration has been seen. *)
Definition width (s : state) : option Q :=
  option_map (fun high => (high - v_low s)%Q) (v_high s).

(** [a <= b] on upper bounds, where the missing value is [float('inf')]. *)
Definition high_le (a b : option Q) : Prop :=
  match a, b with
  | _, None => True
  | Some x, Some y => (x <= y)%Q
  | None, Some _ => False
  end.

(** The bracket invariant: once a penetration has been seen, [v_low] lies
    strictly below [v_high]. *)
Definition bracket_ok (s : state) : Prop :=
  match v_high s with
  | Some high => (v_low s < high)%Q
  | None => True
  end.

(** The search starts at a positive velocity and its linear step is
    positive, wherever the configuration defines them. *)
Definition forward (cfg : config) : Prop :=
  (forall v, INITIAL_VELOCITY cfg = Some v -> (0 < v)%Q)
  /\ (forall d, EXPONENTIAL_STEP cfg = Some d -> (0 < d)%Q).

(** What holds between the states before and after a loop turn: the bracket
    is not wider; if the turn's experiment was answered NotPenetrated,
    [v_high] is untouched; if it was answered Penetrated, [v_low] is. *)
Definition never_widens (obs : Z -> Obs) (s s' : state) : Prop :=
  (v_low s <= v_low s')%Q
  /\ high_le (v_high s') (v_high s)
  /\ (run_count s' = run_count s + 1 ->
      outcome_of (obs (run_count s')) = NotPenetrated ->
      v_high s' = v_high s)
  /\ (run_count s' = run_count s + 1 ->
      forall residual, outcome_of (obs (run_count s')) = Penetrated residual ->
      v_low s' = v_low s).

(** What the search keeps true of its state besides the bracket invariant. *)
Definition search_inv (s : state) : Prop :=
  bracket_ok s
  /\ (forall m, multiplier s = Some m -> (1 < m)%Q)
  /\ (pc s = Expanding ->
      v_high s = None /\ (v_low s < current_v s)%Q /\ (0 < current_v s)%Q)
  /\ (pc s = Sampling \/ pc s = Bisecting -> v_high s <> None).

(** A turn of the sampling loop that cannot make progress: the loop
    condition holds, it is the downward direction's turn, and the downward
    candidate is at or below [v_low]. *)
Definition sampling_blocked (max_total_runs : Z) (s : state) : Prop :=
  pc s = Sampling
  /\ samples_collected (samp s) < target_samples (samp s)
  /\ run_count s < max_total_runs
  /\ direction_toggle (samp s) mod 2 = 0
  /\ (down_v (samp s) <= v_low s)%Q.

(** The counters of a state lie within the budgets of the configuration
    (0 where the name is missing or negative). *)
Definition within_budgets (cfg : config) (s : state) : Prop :=
  0 <= run_count s <= Z.max 0 (getattr (MAX_TOTAL_RUNS cfg) 0)
  /\ 0 <= bisection_iter s <= Z.max 0 (getattr (MAX_BISECTION_ITERATIONS cfg) 0).

(** A point that passes the filter [0 < Vr <= VR_FILTER_THRESHOLD]. *)
Definition point_valid (cfg : config) (p : point) : Prop :=
  vr_in_range cfg (snd p) = inr true.

(** Nothing the search holds is negative: [v_low] is at least 0, every
    recorded impact velocity is positive, and the sampling loop steps upwards
    by a positive amount from a positive velocity. *)
Definition positive_search (s : state) : Prop :=
  (0 <= v_low s)%Q
  /\ Forall (fun p : point => (0 < fst p)%Q) (penetration_points s)
  /\ (pc s = Sampling -> (0 < sample_step (samp s))%Q /\ (0 < up_v (samp s))%Q).

(** The three shapes of the records [find_v50_for_config] returns. *)
Definition record_shape (r : pydict) : Prop :=
  (dict_get "status" r = Some (VStr "failed")
   /\ keys r = [ "status"; "reason"; "runs" ])
  \/ (dict_get "status" r = Some (VStr "failed")
      /\ keys r = [ "status"; "reason"; "v_low"; "v_high"; "runs"; "points_used" ])
  \/ (dict_get "status" r = Some (VStr "success")
      /\ keys r = [ "status"; "V50"; "param_a"; "param_p"; "rmse"; "v_low"; "v_high";
                    "runs"; "points_used" ]).

(** What the sampling loop keeps true of [tried]: no rounded velocity is in
    it twice, and it holds one key for the penetrating shot the loop started
    from and one for every shot the loop has fired. *)
Definition tried_inv (s : state) : Prop :=
  NoDupA Qeq (tried (samp s))
  /\ (pc s = Expanding -> run_count s = expansion_iter s)
  /\ (pc s = Sampling ->
      run_count s = expansion_iter s + Z.of_nat (List.length (tried (samp s))) - 1).

(** A success record of the Python interface. *)
Definition python_success (cfg : Result_parser.settings)
    (interface : Result_parser.lsprepost) (r : pydict) : Prop :=
  exists avg mx threshold data,
    r = [ ("success", VBool true);
          ("residual_velocity", VFloat avg);
          ("max_residual_velocity", VFloat mx);
          ("is_penetration", VBool (negb (Qle_bool avg threshold)));
          ("node_count", VInt (Z.of_nat (List.length data)));
          ("velocity_data", VList data);
          ("source", VStr "lsprepost_python") ]
    /\ Result_parser.config_item cfg "velocity_threshold"
         Result_parser.velocity_threshold = inr threshold
    /\ (1 <= List.length data
        <= List.length (Result_parser._get_projectile_nodes cfg interface))%nat
    /\ Result_parser.open_database interface = Some 0
    /\ Result_parser.close_database interface = true.

(** What [main] puts into the row of the configuration with index [i] of
    [enumerate]: the index counted from 1, the four thicknesses, and a
    status. *)
Definition row_ok (i : Z) (t : thickness) (row : pydict) : Prop :=
  let '(t1, t2, t3, t4) := t in
  dict_get "config_index" row = Some (VInt (i + 1))
  /\ dict_get "t1" row = Some (VFloat t1)
  /\ dict_get "t2" row = Some (VFloat t2)
  /\ dict_get "t3" row = Some (VFloat t3)
  /\ dict_get "t4" row = Some (VFloat t4)
  /\ (dict_get "status" row = Some (VStr "success")
      \/ dict_get "status" row = Some (VStr "failed")
      \/ dict_get "status" row = Some (VStr "critical_failure")
         /\ has_key "reason" row = true).

(** One row for every configuration, in the order of the configurations. *)
Fixpoint rows_ok (i : Z) (configs : list thickness) (rows : list pydict) : Prop :=
  match configs, rows with
  | [], [] => True
  | t :: configs', row :: rows' => row_ok i t row /\ rows_ok (i + 1) configs' rows'
  | _, _ => False
  end.

(** ** Running the loops *)

Section Run.

Variable cfg : config.
Variable obs : Z -> Obs.
Variable fit : fit_call -> fit_outcome.

Lemma step_final (s : state) : final s = true -> step cfg obs fit s = s.
Proof.
  unfold final, step. destruct (pc s); intros H; try discriminate H; reflexivity.
Qed.

Lemma run_final (n : nat) (s : state) : final s = true -> run cfg obs fit n s = s.
Proof.
  induction n as [|n IH]; intros H; simpl; [reflexivity|].
  rewrite step_final by exact H. apply IH, H.
Qed.

Lemma run_S (n : nat) (s : state) :
  run cfg obs fit (S n) s = step cfg obs fit (run cfg obs fit n s).
Proof.
  revert s. induction n as [|n IH]; intros s; [reflexivity|].
  change (run cfg obs fit (S (S n)) s) with (run cfg obs fit (S n) (step cfg obs fit s)).
  rewrite IH. reflexivity.
Qed.

Lemma run_add (n m : nat) (s : state) :
  run cfg obs fit (n + m) s = run cfg obs fit m (run cfg obs fit n s).
Proof.
  revert s. induction n as [|n IH]; intros s; simpl; [reflexivity|apply IH].
Qed.

End Run.

(** ** The configuration as shipped *)

Lemma shipped_solve_raises (source : observation_source) (fit : fit_call -> fit_outcome)
    (thickness_config : thickness) (config_index : Z) (fuel : nat) :
  run shipped (source thickness_config config_index) fit (S fuel) (init shipped)
  = raise (init shipped) (AttributeError "MAX_TOTAL_RUNS").
Proof.
  simpl run. apply run_final. reflexivity.
Qed.

Lemma process_all_raise (cfg : config) (source : observation_source)
    (fit : fit_call -> fit_outcome) (fuel : nat) (e : exn) (csv : string) :
  RESULTS_CSV_FILE cfg = Some csv ->
  (forall t i, find_v50_for_config cfg source fit t i fuel = Some (Raises e)) ->
  forall configs i acc,
    Forall (fun row => dict_get "status" row = Some (VStr "critical_failure")) acc ->
    exists rows,
      process cfg source fit fuel i configs acc = Some (inr rows)
      /\ List.length rows = (List.length acc + List.length configs)%nat
      /\ Forall (fun row => dict_get "status" row = Some (VStr "critical_failure")) rows.
Proof.
  intros Hcsv Hraise configs.
  induction configs as [|t rest IH]; intros i acc Hacc; simpl.
  - exists acc. rewrite Nat.add_0_r. auto.
  - rewrite Hraise, Hcsv. simpl.
    destruct (IH (i + 1) (acc ++ [(row_head i t
                 ++ [("status", VStr "critical_failure"); ("reason", VStr (str_of_exn e))])%list])%list)
      as (rows & Hrun & Hlen & Hall).
    + apply Forall_app. split; [exact Hacc|].
      constructor; [|constructor]. destruct t as [[[t1 t2] t3] t4]. reflexivity.
    + exists rows. split; [exact Hrun|]. split; [|exact Hall].
      rewrite Hlen, length_app. simpl. lia.
Qed.

(** C1.  [config.py] as shipped defines none of the names MAX_TOTAL_RUNS,
    EXPONENTIAL_STEP, VR_FILTER_THRESHOLD, MAX_BISECTION_ITERATIONS,
    MIN_DATAPOINTS_FOR_FIT, FIT_BOUNDS, INITIAL_GUESS and TEMPLATE_FILE (it
    defines BINARY_SEARCH_MAX_ITER, MIN_DATA_POINTS, LAMBERT_JONAS_BOUNDS and
    VELOCITY_STEP).  So, for every thickness configuration and whatever the
    simulations would answer, [find_v50_for_config] raises AttributeError on
    MAX_TOTAL_RUNS at the condition of the expansion loop, before any run
    (no loop turn, run counter 0), and [main] ends with one row per
    configuration, each with status 'critical_failure'. *)
Theorem C1_shipped_config_critical_failure
    (source : observation_source) (fit : fit_call -> fit_outcome) :
  Forall (fun name => dict_get name config_py = None)
    [ "MAX_TOTAL_RUNS"; "EXPONENTIAL_STEP"; "VR_FILTER_THRESHOLD";
      "MAX_BISECTION_ITERATIONS"; "MIN_DATAPOINTS_FOR_FIT"; "FIT_BOUNDS";
      "INITIAL_GUESS"; "TEMPLATE_FILE" ]
  /\ Forall (fun name => has_key name config_py = true)
       [ "BINARY_SEARCH_MAX_ITER"; "MIN_DATA_POINTS"; "LAMBERT_JONAS_BOUNDS";
         "VELOCITY_STEP" ]
  /\ (forall thickness_config config_index fuel,
        let s := run shipped (source thickness_config config_index) fit (S fuel)
                   (init shipped) in
        pc (init shipped) = Expanding
        /\ pc s = Raised (AttributeError "MAX_TOTAL_RUNS")
        /\ run_count s = 0 /\ expansion_iter s = 0
        /\ find_v50_for_config shipped source fit thickness_config config_index (S fuel)
           = Some (Raises (AttributeError "MAX_TOTAL_RUNS")))
  /\ (forall fuel, exists rows,
        main shipped source fit (S fuel) = Some (inr rows)
        /\ List.length rows = 5%nat
        /\ Forall (fun row => dict_get "status" row = Some (VStr "critical_failure")) rows).
Proof.
  split; [repeat constructor|].
  split; [repeat constructor|].
  split.
  - intros t i fuel s. subst s. unfold find_v50_for_config.
    rewrite shipped_solve_raises. repeat split; reflexivity.
  - intros fuel.
    destruct (process_all_raise shipped source fit (S fuel)
                (AttributeError "MAX_TOTAL_RUNS")
                "C:\songkai\V50求解_results\v50_results.csv" eq_refl
                (fun t i => f_equal (fun s => match pc s with
                                              | Done result => Some (Returns result)
                                              | Raised e => Some (Raises e)
                                              | _ => None
                                              end)
                              (shipped_solve_raises source fit t i fuel))
                [ (2, 2, 2, 2); (5 # 2, 5 # 2, 5 # 2, 5 # 2); (3, 3, 3, 3);
                  (7 # 2, 7 # 2, 7 # 2, 7 # 2); (4, 4, 4, 4) ]%Q 0 [] (Forall_nil _))
      as (rows & Hrun & Hlen & Hall).
    exists rows. split; [exact Hrun|]. split; [exact Hlen|exact Hall].
Qed.

(** ** Simulation failures and [run_simulation] *)

Ltac break_match :=
  match goal with
  | |- context [match ?x with _ => _ end] => destruct x eqn:?
  | |- context [if ?x then _ else _] => destruct x eqn:?
  end.

Lemma run_simulation_nonempty (w : Lsdyna_runner.world) :
  Lsdyna_runner.run_simulation w <> [].
Proof.
  unfold Lsdyna_runner.run_simulation.
  repeat break_match; discriminate.
Qed.

Section NoFailureSeen.

Variable cfg : config.
Variable obs : Z -> Obs.
Variable fit : fit_call -> fit_outcome.
Hypothesis always_truthy : forall n, sim_success (obs n) = true.

Lemma after_expansion_failures (s : state) :
  failures_logged (after_expansion s) = failures_logged s.
Proof. unfold after_expansion. destruct (v_high s); reflexivity. Qed.

Lemma fit_phase_failures (s : state) :
  failures_logged (fit_phase cfg fit s) = failures_logged s.
Proof. unfold fit_phase, after_fit. repeat break_match; reflexivity. Qed.

Lemma step_failures (s : state) :
  failures_logged (step cfg obs fit s) = failures_logged s.
Proof.
  unfold step, step_expanding, step_sampling, step_bisecting.
  repeat (rewrite always_truthy; cbn [negb]).
  repeat (break_match; cbn - [fit_phase after_expansion]);
    rewrite ?after_expansion_failures, ?fit_phase_failures; reflexivity.
Qed.

Lemma run_failures (n : nat) (s : state) :
  failures_logged (run cfg obs fit n s) = failures_logged s.
Proof.
  revert s. induction n as [|n IH]; intros s; simpl; [reflexivity|].
  rewrite IH. apply step_failures.
Qed.

End NoFailureSeen.

(** C10.  [run_simulation] returns a dict that is not empty on every path:
    executable missing, timeout, exit code not zero, incomplete output,
    success, or an exception.  Its truth value is therefore always true:
    with it as [sim_success], in every configuration and at every point of
    every solve no "simulation failed" branch has been taken (the count of
    their warnings stays 0), also where the dict says 'success': False. *)
Theorem C10_run_simulation_failure_never_seen :
  (forall w, Lsdyna_runner.run_simulation w <> []
             /\ truthy (VDict (Lsdyna_runner.run_simulation w)) = true)
  /\ (forall w verdict, outcome_of (observe w verdict) <> ExperimentFailed)
  /\ (forall cfg fit (worlds : Z -> Lsdyna_runner.world) (verdicts : Z -> bool * Q) n,
        failures_logged
          (run cfg (fun k => observe (worlds k) (verdicts k)) fit n (init cfg)) = 0)
  /\ (exists w, dict_get "success" (Lsdyna_runner.run_simulation w) = Some (VBool false)
                /\ sim_success (observe w (true, 0%Q)) = true).
Proof.
  assert (Htruthy : forall w, truthy (VDict (Lsdyna_runner.run_simulation w)) = true).
  { intros w. pose proof (run_simulation_nonempty w) as H.
    simpl. destruct (Lsdyna_runner.run_simulation w); [contradiction|reflexivity]. }
  split; [intros w; split; [apply run_simulation_nonempty|apply Htruthy]|].
  split.
  { intros w verdict. unfold outcome_of.
    replace (sim_success (observe w verdict)) with true by (symmetry; apply Htruthy).
    destruct (is_penetrated (observe w verdict)); discriminate. }
  split.
  { intros cfg fit worlds verdicts n.
    rewrite run_failures.
    - unfold init. repeat break_match; reflexivity.
    - intros k. apply Htruthy. }
  exists {| Lsdyna_runner.executable_exists := false;
            Lsdyna_runner.proc := Lsdyna_runner.TimedOut 3600 |}.
  split; reflexivity.
Qed.

(** ** The records of a failed solve *)

(** C6, on the code.  With the completed configuration and a target that is
    never penetrated, expansion uses up the 30 runs and the call returns a
    record with status 'failed' whose only other fields are reason and runs:
    v_low, v_high and points_used are not in it. *)
Theorem C6_no_penetration_record_lacks_bracket
    (fit : fit_call -> fit_outcome) (thickness_config : thickness) (config_index : Z) :
  exists result,
    find_v50_for_config completed impenetrable fit thickness_config config_index 31
    = Some (Returns result)
    /\ dict_get "status" result = Some (VStr "failed")
    /\ keys result = [ "status"; "reason"; "runs" ]
    /\ has_key "v_low" result = false
    /\ has_key "v_high" result = false
    /\ has_key "points_used" result = false.
Proof.
  eexists. split; [vm_compute; reflexivity|]. repeat split.
Qed.

(** The record of lines 180-182 has this shape whatever the state. *)
Lemma after_expansion_no_penetration (s : state) :
  v_high s = None ->
  exists result,
    pc (after_expansion s) = Done result
    /\ keys result = [ "status"; "reason"; "runs" ].
Proof.
  intros H. unfold after_expansion. rewrite H. eexists. split; reflexivity.
Qed.

(** C7, as the code has it.  When fewer points than MIN_DATAPOINTS_FOR_FIT
    remain after the filter, lines 222-243 return, whatever the fit would
    have answered, a record with status 'failed', reason 'Not enough data
    points for fitting', the bracket of the search under v_low and v_high,
    the run count and the prepared points. *)
Theorem C7_too_few_points_record (cfg : config) (fit : fit_call -> fit_outcome)
    (s : state) (filtered : list point) (minimum : Z) :
  filter_valid cfg (prepare_points (penetration_points s)) = inr filtered ->
  MIN_DATAPOINTS_FOR_FIT cfg = Some minimum ->
  Z.of_nat (List.length filtered) < minimum ->
  exists result,
    pc (fit_phase cfg fit s) = Done result
    /\ dict_get "status" result = Some (VStr "failed")
    /\ dict_get "reason" result = Some (VStr "Not enough data points for fitting")
    /\ dict_get "v_low" result = Some (VFloat (v_low s))
    /\ dict_get "v_high" result = Some (VBound (v_high s))
    /\ dict_get "runs" result = Some (VInt (run_count s))
    /\ dict_get "points_used" result
       = Some (VPoints (prepare_points (penetration_points s)))
    /\ (forall fit', fit_phase cfg fit' s = fit_phase cfg fit s).
Proof.
  intros Hfilter Hmin Hlt.
  assert (Hfit : forall f,
             fit_phase cfg f s
             = set_pc (Done (failed_after_search "Not enough data points for fitting"
                               (set_points (prepare_points (penetration_points s)) s)))
                 (set_points (prepare_points (penetration_points s)) s)).
  { intros f. unfold fit_phase. cbn [penetration_points set_points].
    rewrite Hfilter, Hmin. simpl attr. cbv iota.
    apply Z.ltb_lt in Hlt. rewrite Hlt. reflexivity. }
  eexists. split; [rewrite Hfit; reflexivity|].
  repeat split. intros fit'. rewrite !Hfit. reflexivity.
Qed.

Lemma C7_too_few_points_witness :
  filter_valid completed (prepare_points (penetration_points narrow_bracket))
  = inr [ (350, 20); (360, 40); (370, 60) ]%Q
  /\ MIN_DATAPOINTS_FOR_FIT completed = Some 5
  /\ exists result,
       pc (fit_phase completed (fun _ => FitRuntimeError) narrow_bracket) = Done result
       /\ dict_get "status" result = Some (VStr "failed")
       /\ dict_get "reason" result = Some (VStr "Not enough data points for fitting")
       /\ dict_get "v_low" result = Some (VFloat (v_low narrow_bracket))
       /\ dict_get "v_high" result = Some (VBound (v_high narrow_bracket))
       /\ dict_get "runs" result = Some (VInt (run_count narrow_bracket))
       /\ dict_get "points_used" result
          = Some (VPoints (prepare_points (penetration_points narrow_bracket)))
       /\ (forall fit', fit_phase completed fit' narrow_bracket
                        = fit_phase completed (fun _ => FitRuntimeError) narrow_bracket).
Proof.
  split; [reflexivity|]. split; [reflexivity|].
  apply (C7_too_few_points_record completed (fun _ => FitRuntimeError) narrow_bracket
           [ (350, 20); (360, 40); (370, 60) ]%Q 5);
    [reflexivity | reflexivity | reflexivity].
Defined.

(** The claim asks for the reason 'insufficient_data': the solve of
    [three_hits] ends with three points where five are required, and its
    record carries another reason. *)
Lemma C7_reason_is_not_insufficient_data :
  let s := run completed (three_hits (2, 2, 2, 2)%Q 1) (fun _ => FitRuntimeError) 11
             (init completed) in
  exists filtered result,
    pc s = Bisecting
    /\ filter_valid completed (prepare_points (penetration_points s)) = inr filtered
    /\ MIN_DATAPOINTS_FOR_FIT completed = Some 5
    /\ Z.of_nat (List.length filtered) < 5
    /\ find_v50_for_config completed three_hits (fun _ => FitRuntimeError)
         (2, 2, 2, 2)%Q 1 12 = Some (Returns result)
    /\ dict_get "status" result = Some (VStr "failed")
    /\ dict_get "reason" result <> Some (VStr "insufficient_data").
Proof.
  eexists. eexists.
  split; [vm_compute; reflexivity|].
  split; [vm_compute; reflexivity|].
  split; [reflexivity|].
  split; [vm_compute; reflexivity|].
  split; [vm_compute; reflexivity|].
  split; [reflexivity|].
  discriminate.
Qed.

(** ** The points handed to the fit *)

Lemma same_point_refl (p : point) : same_point p p.
Proof. split; reflexivity. Qed.

Lemma same_point_sym (p q : point) : same_point p q -> same_point q p.
Proof. intros [H1 H2]. split; symmetry; assumption. Qed.

Lemma same_point_trans (p q r : point) :
  same_point p q -> same_point q r -> same_point p r.
Proof. intros [H1 H2] [H3 H4]. split; etransitivity; eassumption. Qed.

#[local] Instance same_point_equiv : Equivalence same_point :=
  {| Equivalence_Reflexive := same_point_refl;
     Equivalence_Symmetric := same_point_sym;
     Equivalence_Transitive := same_point_trans |}.

Lemma point_eqb_iff (p q : point) : point_eqb p q = true <-> same_point p q.
Proof.
  unfold point_eqb, same_point. rewrite andb_true_iff, !Qeq_bool_iff. reflexivity.
Qed.

Lemma existsb_point_eqb (p : point) (l : list point) :
  existsb (point_eqb p) l = true <-> InA same_point p l.
Proof.
  rewrite existsb_exists, InA_alt. split.
  - intros (q & Hin & Heq). exists q. split; [apply point_eqb_iff|]; assumption.
  - intros (q & Heq & Hin). exists q. split; [|apply point_eqb_iff]; assumption.
Qed.

Lemma dedup_InA (p : point) (l : list point) :
  InA same_point p (dedup l) <-> InA same_point p l.
Proof.
  induction l as [|q l IH]; simpl; [reflexivity|].
  destruct (existsb (point_eqb q) l) eqn:Hq.
  - rewrite IH. split; [intros H; right; exact H|].
    intros H. inversion H as [? ? Heq|? ? Hin]; subst; [|exact Hin].
    apply existsb_point_eqb in Hq.
    eapply InA_eqA; [apply same_point_equiv|symmetry; exact Heq|exact Hq].
  - split; intros H; inversion H; subst; try (left; assumption);
      right; apply IH; assumption.
Qed.

Lemma dedup_NoDupA (l : list point) : NoDupA same_point (dedup l).
Proof.
  induction l as [|q l IH]; simpl; [constructor|].
  destruct (existsb (point_eqb q) l) eqn:Hq; [exact IH|].
  constructor; [|exact IH].
  rewrite dedup_InA, <- existsb_point_eqb, Hq. discriminate.
Qed.

Lemma point_leb_total (p q : point) : point_leb p q = false -> point_leb q p = true.
Proof.
  unfold point_leb.
  destruct (Qlt_le_dec (fst p) (fst q)) as [|Hqp]; [discriminate|].
  destruct (Qlt_le_dec (fst q) (fst p)) as [|Hpq]; [reflexivity|].
  assert (Heq : (fst p == fst q)%Q) by (apply Qle_antisym; assumption).
  assert (Hb : Qeq_bool (fst p) (fst q) = true) by (apply Qeq_bool_iff; exact Heq).
  assert (Hb' : Qeq_bool (fst q) (fst p) = true)
    by (apply Qeq_bool_iff; symmetry; exact Heq).
  rewrite Hb, Hb'. intros Hle.
  apply Qle_bool_iff. apply Qlt_le_weak. apply Qnot_le_lt.
  intros Hc. apply Qle_bool_iff in Hc. congruence.
Qed.

Lemma insert_sorted_perm (p : point) (l : list point) :
  Permutation (insert_sorted p l) (p :: l).
Proof.
  induction l as [|q l IH]; simpl; [reflexivity|].
  destruct (point_leb p q); [reflexivity|].
  rewrite IH. apply perm_swap.
Qed.

Lemma sorted_perm (l : list point) : Permutation (sorted l) l.
Proof.
  induction l as [|p l IH]; simpl; [reflexivity|].
  rewrite insert_sorted_perm, IH. reflexivity.
Qed.

Lemma insert_sorted_Sorted (p : point) (l : list point) :
  Sorted (fun x y => point_leb x y = true) l ->
  Sorted (fun x y => point_leb x y = true) (insert_sorted p l).
Proof.
  induction l as [|q l IH]; intros Hs; simpl.
  - repeat constructor.
  - destruct (point_leb p q) eqn:Hpq.
    + constructor; [exact Hs|constructor; exact Hpq].
    + inversion Hs as [|? ? Hs' Hhd]; subst.
      constructor; [apply IH; exact Hs'|].
      destruct l as [|r l]; simpl.
      * constructor. apply point_leb_total, Hpq.
      * destruct (point_leb p r); constructor.
        -- apply point_leb_total, Hpq.
        -- inversion Hhd; assumption.
Qed.

Lemma sorted_Sorted (l : list point) :
  Sorted (fun x y => point_leb x y = true) (sorted l).
Proof.
  induction l as [|p l IH]; simpl; [constructor|].
  apply insert_sorted_Sorted, IH.
Qed.

(** C9, as the code has it.  The points prepared for the fit by
    [sorted(list(set(..)))] hold every accumulated (impact velocity, residual
    velocity) pair, each pair at most once, in the order of tuples; the
    duplicates removed are equal pairs, not equal impact velocities. *)
Theorem C9_points_deduplicated_by_pair (l : list point) :
  NoDupA same_point (prepare_points l)
  /\ Sorted (fun p q => point_leb p q = true) (prepare_points l)
  /\ (forall p, InA same_point p (prepare_points l) <-> InA same_point p l).
Proof.
  unfold prepare_points. split; [|split].
  - eapply PermutationA_preserves_NoDupA; [apply same_point_equiv| |apply dedup_NoDupA].
    apply Permutation_PermutationA; [apply same_point_equiv|].
    symmetry. apply sorted_perm.
  - apply sorted_Sorted.
  - intros p. transitivity (InA same_point p (dedup l)); [|apply dedup_InA].
    apply (PermutationA_equivlistA same_point_equiv).
    apply Permutation_PermutationA; [apply same_point_equiv|apply sorted_perm].
Qed.

(** Two accumulated points with one impact velocity and two residual
    velocities are both kept; and a solve gets there: [shot_twice] under
    [growing] returns a record whose points hold 375 m/s twice. *)
Lemma C9_two_points_share_impact_velocity :
  prepare_points [ (375, 10); (375, 12) ]%Q = [ (375, 10); (375, 12) ]%Q
  /\ let s := run growing (shot_twice (2, 2, 2, 2)%Q 1) (fun _ => FitRuntimeError) 14
               (init growing) in
     exists result p q,
       pc s = Done result
       /\ dict_get "points_used" result = Some (VPoints (penetration_points s))
       /\ nth_error (penetration_points s) 0 = Some p
       /\ nth_error (penetration_points s) 1 = Some q
       /\ (fst p == 375)%Q /\ (fst q == 375)%Q /\ ~ (snd p == snd q)%Q.
Proof.
  split; [reflexivity|].
  eexists. eexists. eexists.
  split; [vm_compute; reflexivity|].
  split; [vm_compute; reflexivity|].
  split; [vm_compute; reflexivity|].
  split; [vm_compute; reflexivity|].
  split; [reflexivity|]. split; [reflexivity|]. discriminate.
Qed.

(** ** The bounds handed to the fit *)

Lemma fold_min_le_init (l : list Q) (a : Q) : (fold_left Qmin l a <= a)%Q.
Proof.
  revert a. induction l as [|x l IH]; intros a; simpl; [apply Qle_refl|].
  eapply Qle_trans; [apply IH|apply Q.le_min_l].
Qed.

Lemma fold_min_le (l : list Q) (a v : Q) : In v l -> (fold_left Qmin l a <= v)%Q.
Proof.
  revert a. induction l as [|x l IH]; intros a Hin; simpl; [contradiction|].
  destruct Hin as [->|Hin]; [|apply IH, Hin].
  eapply Qle_trans; [apply fold_min_le_init|apply Q.le_min_r].
Qed.

Lemma fold_min_in (l : list Q) (a : Q) : InA Qeq (fold_left Qmin l a) (a :: l).
Proof.
  revert a. induction l as [|x l IH]; intros a; simpl; [left; reflexivity|].
  specialize (IH (Qmin a x)).
  inversion IH as [? ? Heq|? ? Hin]; subst; [|right; right; exact Hin].
  destruct (Q.min_spec a x) as [[_ Hm]|[_ Hm]].
  - left. rewrite Heq. exact Hm.
  - right. left. rewrite Heq. exact Hm.
Qed.

Lemma array_min_spec (l : list Q) :
  l <> [] ->
  exists m, array_min l = inr m
            /\ InA Qeq m l
            /\ (forall v, In v l -> (m <= v)%Q).
Proof.
  destruct l as [|x l]; [congruence|]. intros _.
  exists (fold_left Qmin l x). split; [reflexivity|]. split; [apply fold_min_in|].
  intros v [->|Hin]; [apply fold_min_le_init|apply fold_min_le, Hin].
Qed.

Lemma py_min_Qmin (a b : Q) : (py_min a b == Qmin a b)%Q.
Proof.
  unfold py_min. destruct (Qlt_le_dec b a) as [H|H].
  - symmetry. apply Q.min_r. apply Qlt_le_weak, H.
  - symmetry. apply Q.min_l. exact H.
Qed.

(** C8, as the code has it.  When the fit is called, the upper bound it is
    given for VBL is min(static upper bound, 0.99 x smallest impact velocity
    of the fitting points); when no impact velocity among the fitting points
    is negative, that bound is at most every one of them. *)
Theorem C8_vbl_upper_bound_safe (cfg : config) (fit : fit_call -> fit_outcome)
    (s : state) (filtered : list point) (minimum : Z) (fb : fit_bounds)
    (guess : Q * Q * Q) :
  filter_valid cfg (prepare_points (penetration_points s)) = inr filtered ->
  MIN_DATAPOINTS_FOR_FIT cfg = Some minimum ->
  minimum <= Z.of_nat (List.length filtered) ->
  FIT_BOUNDS cfg = Some fb ->
  INITIAL_GUESS cfg = Some guess ->
  filtered <> [] ->
  Forall (fun p => (0 <= fst p)%Q) filtered ->
  exists call vi_min,
    fit_phase cfg fit s
    = after_fit (fit call) (set_points (prepare_points (penetration_points s)) s)
    /\ Vi_data call = map fst filtered
    /\ array_min (Vi_data call) = inr vi_min
    /\ InA Qeq vi_min (Vi_data call)
    /\ (forall v, In v (Vi_data call) -> (vi_min <= v)%Q)
    /\ snd (upper_bounds call) = vbl_upper_bound (snd (bounds_VBL fb)) vi_min
    /\ (snd (upper_bounds call) == Qmin (snd (bounds_VBL fb)) ((99 # 100) * vi_min))%Q
    /\ (forall v, In v (Vi_data call) -> (snd (upper_bounds call) <= v)%Q).
Proof.
  intros Hfilter Hmin Hge Hfb Hguess Hne Hpos.
  destruct (array_min_spec (map fst filtered)) as (m & Hm & Hin & Hle).
  { destruct filtered; [congruence|discriminate]. }
  assert (H0 : (0 <= m)%Q).
  { apply InA_alt in Hin. destruct Hin as (v & Heq & Hv).
    apply in_map_iff in Hv. destruct Hv as (pt & <- & Hpt).
    rewrite Forall_forall in Hpos. rewrite Heq. apply Hpos, Hpt. }
  eexists. exists m.
  split.
  { unfold fit_phase. cbn [penetration_points set_points].
    rewrite Hfilter, Hmin, Hfb, Hguess. simpl attr. cbv iota.
    apply Z.ltb_ge in Hge. rewrite Hge, Hm. reflexivity. }
  cbn [Vi_data upper_bounds snd].
  split; [reflexivity|]. split; [exact Hm|]. split; [exact Hin|].
  split; [exact Hle|]. split; [reflexivity|].
  split.
  - unfold vbl_upper_bound. rewrite py_min_Qmin.
    apply Q.min_compat; [reflexivity|apply Qmult_comm].
  - intros v Hv. specialize (Hle v Hv).
    unfold vbl_upper_bound. rewrite py_min_Qmin.
    eapply Qle_trans; [apply Q.le_min_r|]. Lqa.lra.
Qed.

Lemma C8_vbl_upper_bound_witness :
  Forall (fun p => (0 <= fst p)%Q)
    [ (350, 20); (360, 40); (370, 60); (380, 70); (390, 80) ]%Q
  /\ exists call vi_min,
       fit_phase completed not_converging
         (set_points [ (370, 60); (380, 70); (350, 20); (390, 80); (360, 40); (350, 20) ]%Q
            narrow_bracket)
       = after_fit (not_converging call)
           (set_points [ (350, 20); (360, 40); (370, 60); (380, 70); (390, 80) ]%Q
              narrow_bracket)
       /\ Vi_data call = [ 350; 360; 370; 380; 390 ]%Q
       /\ array_min (Vi_data call) = inr vi_min
       /\ InA Qeq vi_min (Vi_data call)
       /\ (forall v, In v (Vi_data call) -> (vi_min <= v)%Q)
       /\ snd (upper_bounds call) = vbl_upper_bound 800 vi_min
       /\ (snd (upper_bounds call) == Qmin 800 ((99 # 100) * vi_min))%Q
       /\ (forall v, In v (Vi_data call) -> (snd (upper_bounds call) <= v)%Q).
Proof.
  split; [repeat constructor; discriminate|].
  apply (C8_vbl_upper_bound_safe completed not_converging
           (set_points [ (370, 60); (380, 70); (350, 20); (390, 80); (360, 40); (350, 20) ]%Q
              narrow_bracket)
           [ (350, 20); (360, 40); (370, 60); (380, 70); (390, 80) ]%Q 5
           {| bounds_a := (1 # 10, 2)%Q; bounds_p := (11 # 10, 5)%Q;
              bounds_VBL := (50, 800)%Q |}
           (1, 2, 400)%Q);
    [reflexivity | reflexivity | vm_compute; discriminate | reflexivity | reflexivity
    | discriminate | repeat constructor; discriminate].
Defined.

(** With a negative impact velocity the bound lies above it: for the one
    fitting point (-100, 50) and the static bound 800 the bound is
    min(800, 0.99 x -100) = -99, which is not at most -100. *)
Lemma C8_bound_above_negative_velocity :
  array_min [ - (100) ]%Q = inr (- (100))%Q
  /\ (vbl_upper_bound 800 (- (100)) == - (99))%Q
  /\ ~ (vbl_upper_bound 800 (- (100)) <= - (100))%Q.
Proof.
  split; [reflexivity|]. split; [reflexivity|]. vm_compute. auto.
Qed.

(** ** The sampling loop *)

Section Sampling.

Variable cfg : config.
Variable obs : Z -> Obs.
Variable fit : fit_call -> fit_outcome.
Variable max_total_runs : Z.
Hypothesis max_defined : MAX_TOTAL_RUNS cfg = Some max_total_runs.

(** Lines 125-128: the rejected downward candidate adds 2 to the toggle and
    nothing else changes, so the next turn is the same turn. *)
Lemma blocked_step (s : state) :
  sampling_blocked max_total_runs s ->
  step cfg obs fit s
  = set_samp (set_toggle (direction_toggle (samp s) + 1 + 1) (samp s)) s.
Proof.
  intros (Hpc & Hlt & Hruns & Heven & Hdown).
  unfold step. rewrite Hpc. unfold step_sampling.
  apply Z.ltb_lt in Hlt, Hruns. rewrite Hlt, max_defined. simpl attr. cbv iota.
  rewrite Hruns, Heven. cbn [Z.eqb].
  apply Qle_bool_iff in Hdown. rewrite Hdown. reflexivity.
Qed.

Lemma blocked_stays (s : state) :
  sampling_blocked max_total_runs s ->
  sampling_blocked max_total_runs (step cfg obs fit s).
Proof.
  intros H. rewrite (blocked_step s H).
  destruct H as (Hpc & Hlt & Hruns & Heven & Hdown).
  unfold sampling_blocked. cbn.
  repeat split; try assumption.
  replace (direction_toggle (samp s) + 1 + 1) with (direction_toggle (samp s) + 1 * 2) by lia.
  rewrite Z.mod_add by lia. exact Heven.
Qed.

Lemma blocked_forever (n : nat) (s : state) :
  sampling_blocked max_total_runs s ->
  sampling_blocked max_total_runs (run cfg obs fit n s).
Proof.
  revert s. induction n as [|n IH]; intros s H; simpl; [exact H|].
  apply IH, blocked_stays, H.
Qed.

Lemma final_run_later (n m : nat) (s : state) :
  final (run cfg obs fit n s) = true ->
  run cfg obs fit (n + m) s = run cfg obs fit n s.
Proof. intros H. rewrite run_add. apply run_final, H. Qed.

Lemma blocked_never_returns (k : nat) (s : state) :
  sampling_blocked max_total_runs (run cfg obs fit k s) ->
  forall n, final (run cfg obs fit n s) = false.
Proof.
  intros Hk n.
  destruct (final (run cfg obs fit n s)) eqn:Hfin; [|reflexivity].
  pose proof (blocked_forever n _ Hk) as Hb.
  rewrite <- run_add, Nat.add_comm, (final_run_later n k s Hfin) in Hb.
  destruct Hb as (Hpc & _). unfold final in Hfin. rewrite Hpc in Hfin. discriminate.
Qed.

End Sampling.

(** C4, on the code.  With the completed configuration (30 runs allowed,
    three samples asked for) and the target [steep], the tenth run leaves the
    sampling loop with one valid point, the downward candidate 300 m/s equal
    to [v_low], and the downward direction's turn: every later turn rejects
    the candidate and changes nothing but the toggle, which stays even.  The
    call never returns, whatever the fuel. *)
Theorem C4_sampling_never_returns
    (fit : fit_call -> fit_outcome) (thickness_config : thickness) (config_index : Z) :
  let s := run completed (steep thickness_config config_index) fit 10 (init completed) in
  sampling_blocked 30 s
  /\ run_count s = 10
  /\ samples_collected (samp s) = 1 /\ target_samples (samp s) = 3
  /\ (down_v (samp s) == 300)%Q /\ (v_low s == 300)%Q
  /\ (forall n, pc (run completed (steep thickness_config config_index) fit n s) = Sampling)
  /\ (forall fuel,
        find_v50_for_config completed steep fit thickness_config config_index fuel = None).
Proof.
  intros s.
  assert (Hb : sampling_blocked 30 s).
  { subst s. unfold sampling_blocked. vm_compute. repeat split; discriminate. }
  split; [exact Hb|].
  split; [reflexivity|]. split; [reflexivity|]. split; [reflexivity|].
  split; [reflexivity|]. split; [reflexivity|].
  split.
  - intros n. apply (blocked_forever completed _ fit 30 eq_refl n s Hb).
  - intros fuel. unfold find_v50_for_config.
    pose proof (blocked_never_returns completed (steep thickness_config config_index)
                  fit 30 eq_refl 10 (init completed) Hb fuel) as Hfin.
    unfold final in Hfin.
    destruct (pc (run completed (steep thickness_config config_index) fit fuel
                    (init completed))); try reflexivity; discriminate.
Qed.

(** ** The bisection loop *)

Lemma after_fit_final (o : fit_outcome) (s : state) :
  final (after_fit o s) = true /\ bisection_iter (after_fit o s) = bisection_iter s.
Proof. destruct o; split; reflexivity. Qed.

Lemma fit_phase_final (cfg : config) (fit : fit_call -> fit_outcome) (s : state) :
  final (fit_phase cfg fit s) = true
  /\ bisection_iter (fit_phase cfg fit s) = bisection_iter s
  /\ v_low (fit_phase cfg fit s) = v_low s
  /\ v_high (fit_phase cfg fit s) = v_high s.
Proof.
  unfold fit_phase, after_fit. repeat break_match; repeat split; reflexivity.
Qed.

Lemma half_low (low high : Q) : ((low + high) / 2 - low == (high - low) * (1 # 2))%Q.
Proof. field. Qed.

Lemma half_high (low high : Q) : (high - (low + high) / 2 == (high - low) * (1 # 2))%Q.
Proof. field. Qed.

Section Bisection.

Variable cfg : config.
Variable obs : Z -> Obs.
Variable fit : fit_call -> fit_outcome.
Variables (max_bisection max_total_runs : Z) (tolerance : Q).
Hypothesis max_bisection_defined : MAX_BISECTION_ITERATIONS cfg = Some max_bisection.
Hypothesis max_total_defined : MAX_TOTAL_RUNS cfg = Some max_total_runs.
Hypothesis tolerance_defined : CONVERGENCE_TOLERANCE cfg = Some tolerance.

(** What one turn of the bisection loop does: it leaves the loop (through
    the fit or an exception), or it has run one experiment and the bracket is
    half as wide, whatever the experiment answered. *)
Lemma bisecting_turn (s : state) (high : Q) :
  pc s = Bisecting ->
  v_high s = Some high ->
  let s' := step cfg obs fit s in
  (final s' = true
   /\ (bisection_iter s' = bisection_iter s
       \/ (bisection_iter s' = bisection_iter s + 1
           /\ bisection_iter s < max_bisection
           /\ (tolerance <= high - v_low s)%Q)))
  \/ (pc s' = Bisecting
      /\ (tolerance <= high - v_low s)%Q
      /\ bisection_iter s < max_bisection
      /\ bisection_iter s' = bisection_iter s + 1
      /\ run_count s' = run_count s + 1
      /\ exists high',
           v_high s' = Some high'
           /\ (high' - v_low s' == (high - v_low s) * (1 # 2))%Q).
Proof.
  intros Hpc Hhigh s'. subst s'.
  unfold step. rewrite Hpc. unfold step_bisecting.
  rewrite max_bisection_defined, max_total_defined, tolerance_defined, Hhigh.
  simpl attr. cbv iota.
  destruct (bisection_iter s <? max_bisection) eqn:Hb;
    [|left; split; [apply fit_phase_final|left; apply fit_phase_final]].
  destruct (run_count s <? max_total_runs) eqn:Hr;
    [|left; split; [apply fit_phase_final|left; apply fit_phase_final]].
  destruct (Qlt_le_dec (high - v_low s) tolerance) as [Hw|Hw];
    [left; split; [apply fit_phase_final|left; apply fit_phase_final]|].
  apply Z.ltb_lt in Hb.
  cbn [v_low set_run_count set_bisection_iter run_count].
  repeat (break_match; cbn);
    first [ left; split; [reflexivity|right; repeat split; assumption]
          | right; repeat split; try assumption;
            eexists; (split; [first [reflexivity|exact Hhigh]|]);
            first [apply half_low|apply half_high] ].
Qed.

(** The counter of the loop never passes MAX_BISECTION_ITERATIONS. *)
Lemma bisection_iter_capped (n : nat) (s : state) (high : Q) :
  pc s = Bisecting ->
  v_high s = Some high ->
  bisection_iter (run cfg obs fit n s) <= Z.max (bisection_iter s) max_bisection.
Proof.
  revert s high. induction n as [|n IH]; intros s high Hpc Hhigh; simpl; [lia|].
  destruct (bisecting_turn s high Hpc Hhigh) as [(Hfin & Hit)|(Hpc' & _ & Hlt & Hit & _ & high' & Hh' & _)].
  - rewrite run_final by exact Hfin. lia.
  - specialize (IH _ _ Hpc' Hh'). lia.
Qed.

(** A bracket narrower than [tolerance * 2^m] is left after at most [m]
    experiments. *)
Lemma bisection_ends (m : nat) (s : state) (high : Q) :
  pc s = Bisecting ->
  v_high s = Some high ->
  (high - v_low s < tolerance * inject_Z (2 ^ Z.of_nat m))%Q ->
  exists n,
    final (run cfg obs fit n s) = true
    /\ bisection_iter (run cfg obs fit n s) <= bisection_iter s + Z.of_nat m.
Proof.
  revert s high. induction m as [|m IH]; intros s high Hpc Hhigh Hw.
  - exists 1%nat. simpl run.
    destruct (bisecting_turn s high Hpc Hhigh)
      as [(Hfin & [Hit|(_ & _ & Hge)])|(_ & Hge & _)].
    + split; [exact Hfin|lia].
    + exfalso. change (inject_Z (2 ^ Z.of_nat 0)) with 1%Q in Hw. Lqa.lra.
    + exfalso. change (inject_Z (2 ^ Z.of_nat 0)) with 1%Q in Hw. Lqa.lra.
  - destruct (bisecting_turn s high Hpc Hhigh)
      as [(Hfin & Hit)|(Hpc' & _ & _ & Hit & _ & high' & Hh' & Hhalf)].
    + exists 1%nat. simpl run. split; [exact Hfin|lia].
    + destruct (IH (step cfg obs fit s) high' Hpc' Hh') as (n & Hfin & Hn).
      * rewrite Hhalf.
        rewrite Nat2Z.inj_succ, Z.pow_succ_r, inject_Z_mult in Hw by lia.
        change (inject_Z 2) with 2%Q in Hw. Lqa.lra.
      * exists (S n). simpl run. split; [exact Hfin|lia].
Qed.

Hypothesis template_defined : TEMPLATE_FILE cfg <> None.
Hypothesis ls_dyna_defined : LS_DYNA_PATH cfg <> None.
Hypothesis part_id_defined : PROJECTILE_PART_ID cfg <> None.
Hypothesis threshold_defined : VR_FILTER_THRESHOLD cfg <> None.

(** With every name of the loop defined, a bracket that is not yet narrow
    enough and budget left, the turn runs an experiment and stays in the
    loop. *)
Lemma bisecting_trial (s : state) (high : Q) :
  pc s = Bisecting ->
  v_high s = Some high ->
  (tolerance <= high - v_low s)%Q ->
  bisection_iter s < max_bisection ->
  run_count s < max_total_runs ->
  let s' := step cfg obs fit s in
  pc s' = Bisecting
  /\ bisection_iter s' = bisection_iter s + 1
  /\ run_count s' = run_count s + 1
  /\ exists high',
       v_high s' = Some high'
       /\ (high' - v_low s' == (high - v_low s) * (1 # 2))%Q.
Proof.
  intros Hpc Hhigh Hw Hb Hr s'. subst s'.
  unfold step. rewrite Hpc. unfold step_bisecting, vr_in_range.
  rewrite max_bisection_defined, max_total_defined, tolerance_defined, Hhigh.
  destruct (TEMPLATE_FILE cfg); [|congruence].
  destruct (LS_DYNA_PATH cfg); [|congruence].
  destruct (PROJECTILE_PART_ID cfg); [|congruence].
  destruct (VR_FILTER_THRESHOLD cfg); [|congruence].
  simpl attr. cbv iota.
  apply Z.ltb_lt in Hb, Hr. rewrite Hb, Hr.
  destruct (Qlt_le_dec (high - v_low s) tolerance) as [Hw'|_]; [exfalso; Lqa.lra|].
  cbn [v_low set_run_count set_bisection_iter run_count].
  repeat (break_match; cbn);
    try solve [ match goal with
                | H : (if ?c then _ else _) = inl _ |- _ => destruct c; discriminate H
                end ];
    repeat split; try assumption;
    eexists; (split; [first [reflexivity|exact Hhigh]|]);
    first [apply half_low|apply half_high].
Qed.

(** A bracket of width in [[tolerance * 2^k, tolerance * 2^(k+1))] takes
    exactly [k + 1] experiments when the budgets allow them, and ends
    narrower than the tolerance. *)
Lemma bisection_exact (m : nat) (s : state) (high : Q) :
  pc s = Bisecting ->
  v_high s = Some high ->
  match m with
  | O => (high - v_low s < tolerance)%Q
  | S k => (tolerance * inject_Z (2 ^ Z.of_nat k) <= high - v_low s
            /\ high - v_low s < tolerance * inject_Z (2 ^ Z.of_nat (S k)))%Q
  end ->
  (0 < tolerance)%Q ->
  bisection_iter s + Z.of_nat m <= max_bisection ->
  run_count s + Z.of_nat m <= max_total_runs ->
  exists n w,
    final (run cfg obs fit n s) = true
    /\ bisection_iter (run cfg obs fit n s) = bisection_iter s + Z.of_nat m
    /\ run_count (run cfg obs fit n s) = run_count s + Z.of_nat m
    /\ width (run cfg obs fit n s) = Some w /\ (w < tolerance)%Q.
Proof.
  revert s high. induction m as [|m IH]; intros s high Hpc Hhigh Hw Htol Hb Hr.
  - exists 1%nat, (high - v_low s)%Q. simpl run.
    unfold step. rewrite Hpc. unfold step_bisecting.
    rewrite max_bisection_defined, max_total_defined, tolerance_defined, Hhigh.
    simpl attr. cbv iota.
    assert (Hexit : forall s0 : state,
               (if bisection_iter s <? max_bisection
                then if run_count s <? max_total_runs
                     then if Qlt_le_dec (high - v_low s) tolerance
                          then fit_phase cfg fit s else s0
                     else fit_phase cfg fit s
                else fit_phase cfg fit s) = fit_phase cfg fit s).
    { intros s0. destruct (_ <? _); [|reflexivity].
      destruct (_ <? _); [|reflexivity].
      destruct (Qlt_le_dec _ _); [reflexivity|exfalso; Lqa.lra]. }
    rewrite Hexit.
    destruct (fit_phase_final cfg fit s) as (Hf & Hi & Hl & Hh).
    split; [exact Hf|]. split; [lia|].
    split; [unfold fit_phase, after_fit; repeat break_match; cbn; lia|].
    unfold width. rewrite Hh, Hl, Hhigh. split; [reflexivity|exact Hw].
  - destruct Hw as (Hge & Hlt).
    assert (H1 : (1 <= inject_Z (2 ^ Z.of_nat m))%Q).
    { change 1%Q with (inject_Z 1). rewrite <- Zle_Qle.
      pose proof (Z.pow_pos_nonneg 2 (Z.of_nat m)). lia. }
    assert (Htw : (tolerance <= high - v_low s)%Q).
    { eapply Qle_trans; [|exact Hge].
      rewrite <- (Qmult_1_r tolerance) at 1.
      apply Qmult_le_l; assumption. }
    destruct (bisecting_trial s high Hpc Hhigh Htw) as (Hpc' & Hi & Hru & high' & Hh' & Hhalf);
      [lia|lia|].
    destruct (IH (step cfg obs fit s) high' Hpc' Hh') as (n & w & Hfin & Hit & Hrc & Hwd & Hwt).
    + rewrite Nat2Z.inj_succ, Z.pow_succ_r, inject_Z_mult in Hlt by lia.
      change (inject_Z 2) with 2%Q in Hlt.
      destruct m as [|k].
      * rewrite Hhalf. change (inject_Z (2 ^ Z.of_nat 0)) with 1%Q in Hlt. Lqa.lra.
      * rewrite Hhalf.
        rewrite Nat2Z.inj_succ, Z.pow_succ_r, inject_Z_mult in Hge by lia.
        change (inject_Z 2) with 2%Q in Hge. split; Lqa.lra.
    + exact Htol.
    + lia.
    + lia.
    + exists (S n), w. simpl run. repeat split; try assumption; lia.
Qed.

End Bisection.

Lemma halvings_spec (w tolerance : Q) :
  (0 < tolerance)%Q -> (tolerance <= w)%Q ->
  let k := Z.log2 (Qfloor (w / tolerance)) in
  0 <= k
  /\ halvings w tolerance = k + 1
  /\ (tolerance * inject_Z (2 ^ k) <= w)%Q
  /\ (w < tolerance * inject_Z (2 ^ (k + 1)))%Q.
Proof.
  intros Htol Hw k.
  assert (Hq : (1 <= w / tolerance)%Q).
  { apply Qle_shift_div_l; [exact Htol|]. Lqa.lra. }
  assert (Ha : 1 <= Qfloor (w / tolerance)).
  { change 1 with (Qfloor 1). apply Qfloor_resp_le, Hq. }
  pose proof (Z.log2_spec (Qfloor (w / tolerance))) as (Hlo & Hhi); [lia|].
  fold k in Hlo, Hhi.
  assert (Hweq : (w == w / tolerance * tolerance)%Q) by (field; Lqa.lra).
  split; [apply Z.log2_nonneg|].
  split.
  { unfold halvings. destruct (Qlt_le_dec w tolerance); [exfalso; Lqa.lra|reflexivity]. }
  split.
  - assert (A : (inject_Z (2 ^ k) * tolerance <= w / tolerance * tolerance)%Q).
    { apply Qmult_le_compat_r; [|Lqa.lra].
      eapply Qle_trans; [|apply Qfloor_le]. rewrite <- Zle_Qle. exact Hlo. }
    rewrite <- Hweq in A. rewrite Qmult_comm. exact A.
  - assert (A : (w / tolerance * tolerance < inject_Z (2 ^ (k + 1)) * tolerance)%Q).
    { apply Qmult_lt_compat_r; [exact Htol|].
      eapply Qlt_le_trans; [apply Qlt_floor|]. rewrite <- Zle_Qle.
      replace (k + 1) with (Z.succ k) by lia. lia. }
    rewrite <- Hweq in A. rewrite Qmult_comm. exact A.
Qed.

(** floor(log2 r) + 1 is ceil(log2 r) or one more. *)
Lemma halvings_ceil_log2 (w tolerance : Q) :
  (0 < tolerance)%Q -> (tolerance <= w)%Q ->
  ceil_log2 (w / tolerance) <= halvings w tolerance <= ceil_log2 (w / tolerance) + 1.
Proof.
  intros Htol Hw.
  destruct (halvings_spec w tolerance Htol Hw) as (_ & Hh & _ & _). rewrite Hh.
  assert (Hq : (1 <= w / tolerance)%Q).
  { apply Qle_shift_div_l; [exact Htol|]. Lqa.lra. }
  unfold ceil_log2.
  assert (Hb : Qle_bool 1 (w / tolerance) = true) by (apply Qle_bool_iff; exact Hq).
  rewrite Hb.
  set (x := (w / tolerance)%Q) in *.
  assert (Ha : 1 <= Qfloor x).
  { change 1 with (Qfloor 1). apply Qfloor_resp_le, Hq. }
  assert (Hac : Qfloor x <= Qceiling x).
  { rewrite Zle_Qle. eapply Qle_trans; [apply Qfloor_le|apply Qle_ceiling]. }
  assert (Hca : Qceiling x <= Qfloor x + 1).
  { rewrite <- (Qceiling_Z (Qfloor x + 1)). apply Qceiling_resp_le.
    apply Qlt_le_weak, Qlt_floor. }
  pose proof (Z.log2_up_le_mono _ _ Hca) as H1.
  rewrite (Z.log2_up_eqn (Qfloor x + 1)) in H1 by lia.
  replace (Z.pred (Qfloor x + 1)) with (Qfloor x) in H1 by lia.
  pose proof (Z.log2_up_le_mono _ _ Hac) as H2.
  pose proof (Z.le_log2_log2_up (Qfloor x)) as H3.
  lia.
Qed.

(** At a power of two it is one more. *)
Lemma halvings_power_of_two (w tolerance : Q) (k : Z) :
  (0 < tolerance)%Q -> 0 <= k ->
  (w / tolerance == inject_Z (2 ^ k))%Q ->
  ceil_log2 (w / tolerance) = k /\ halvings w tolerance = k + 1.
Proof.
  intros Htol Hk Hx.
  assert (Hp : 1 <= 2 ^ k) by (pose proof (Z.pow_pos_nonneg 2 k); lia).
  assert (Hq : (1 <= w / tolerance)%Q).
  { rewrite Hx. change 1%Q with (inject_Z 1). rewrite <- Zle_Qle. exact Hp. }
  assert (Hw : (tolerance <= w)%Q).
  { assert (Hweq : (w == w / tolerance * tolerance)%Q) by (field; Lqa.lra).
    rewrite Hweq. rewrite <- (Qmult_1_l tolerance) at 1.
    apply Qmult_le_compat_r; [exact Hq|Lqa.lra]. }
  split.
  - unfold ceil_log2.
    assert (Hb : Qle_bool 1 (w / tolerance) = true) by (apply Qle_bool_iff; exact Hq).
    rewrite Hb, (Qceiling_comp _ _ Hx), Qceiling_Z. apply Z.log2_up_pow2, Hk.
  - destruct (halvings_spec w tolerance Htol Hw) as (_ & Hh & _ & _). rewrite Hh.
    rewrite (Qfloor_comp _ _ Hx), Qfloor_Z, Z.log2_pow2 by exact Hk. reflexivity.
Qed.

(** The loop is left after at most [halvings] experiments, and after exactly
    that many when nothing stops it earlier. *)
Lemma bisection_trials (cfg : config) (obs : Z -> Obs)
    (fit : fit_call -> fit_outcome) (max_bisection max_total_runs : Z)
    (tolerance : Q) (s : state) (high : Q) :
  MAX_BISECTION_ITERATIONS cfg = Some max_bisection ->
  MAX_TOTAL_RUNS cfg = Some max_total_runs ->
  CONVERGENCE_TOLERANCE cfg = Some tolerance ->
  pc s = Bisecting ->
  bisection_iter s = 0 ->
  v_high s = Some high ->
  (v_low s < high)%Q ->
  (0 < tolerance)%Q ->
  (exists n,
      final (run cfg obs fit n s) = true
      /\ bisection_iter (run cfg obs fit n s) <= halvings (high - v_low s) tolerance
      /\ bisection_iter (run cfg obs fit n s) <= Z.max 0 max_bisection)
  /\ (TEMPLATE_FILE cfg <> None ->
      LS_DYNA_PATH cfg <> None ->
      PROJECTILE_PART_ID cfg <> None ->
      VR_FILTER_THRESHOLD cfg <> None ->
      halvings (high - v_low s) tolerance <= max_bisection ->
      run_count s + halvings (high - v_low s) tolerance <= max_total_runs ->
      exists n w,
        final (run cfg obs fit n s) = true
        /\ bisection_iter (run cfg obs fit n s) = halvings (high - v_low s) tolerance
        /\ run_count (run cfg obs fit n s)
           = run_count s + halvings (high - v_low s) tolerance
        /\ width (run cfg obs fit n s) = Some w
        /\ (w < tolerance)%Q).
Proof.
  intros Hmb Hmr Htd Hpc Hit Hhigh Hlt Htol.
  destruct (Qlt_le_dec (high - v_low s) tolerance) as [Hnarrow|Hwide].
  - assert (Hh : halvings (high - v_low s) tolerance = 0).
    { unfold halvings. destruct (Qlt_le_dec _ _); [reflexivity|exfalso; Lqa.lra]. }
    rewrite Hh. split.
    + destruct (bisection_ends cfg obs fit _ _ _ Hmb Hmr Htd 0%nat s high Hpc Hhigh)
        as (n & Hfin & Hn).
      { change (inject_Z (2 ^ Z.of_nat 0)) with 1%Q. Lqa.lra. }
      exists n. split; [exact Hfin|]. split; [simpl in Hn; lia|].
      pose proof (bisection_iter_capped cfg obs fit _ _ _ Hmb Hmr Htd n s high Hpc Hhigh).
      lia.
    + intros Ht Hl Hp Hv Hb Hr.
      destruct (bisection_exact cfg obs fit _ _ _ Hmb Hmr Htd Ht Hl Hp Hv 0%nat s high
                  Hpc Hhigh Hnarrow Htol) as (n & w & Hfin & Hi & Hrc & Hw & Hwt);
        [simpl; lia|simpl; lia|].
      exists n, w. simpl in Hi, Hrc. repeat split; try assumption; lia.
  - destruct (halvings_spec (high - v_low s) tolerance Htol Hwide)
      as (Hk & Hh & Hlo & Hhi).
    set (k := Z.log2 (Qfloor ((high - v_low s) / tolerance))) in *.
    rewrite Hh. split.
    + destruct (bisection_ends cfg obs fit _ _ _ Hmb Hmr Htd (Z.to_nat (k + 1)) s high
                  Hpc Hhigh) as (n & Hfin & Hn).
      { rewrite Z2Nat.id by lia. exact Hhi. }
      exists n. split; [exact Hfin|]. split; [rewrite Z2Nat.id in Hn by lia; lia|].
      pose proof (bisection_iter_capped cfg obs fit _ _ _ Hmb Hmr Htd n s high Hpc Hhigh).
      lia.
    + intros Ht Hl Hp Hv Hb Hr.
      destruct (bisection_exact cfg obs fit _ _ _ Hmb Hmr Htd Ht Hl Hp Hv
                  (S (Z.to_nat k)) s high Hpc Hhigh) as (n & w & Hfin & Hi & Hrc & Hw & Hwt).
      { rewrite Nat2Z.inj_succ, !Z2Nat.id by lia.
        replace (Z.succ k) with (k + 1) by lia. split; assumption. }
      { exact Htol. }
      { rewrite Nat2Z.inj_succ, Z2Nat.id by lia. lia. }
      { rewrite Nat2Z.inj_succ, Z2Nat.id by lia. lia. }
      exists n, w. rewrite Nat2Z.inj_succ, Z2Nat.id in Hi, Hrc by lia.
      repeat split; try assumption; lia.
Qed.

(** C5, as the code has it.  From a bracket [v_low < v_high] and a tolerance
    [t > 0] the bisection loop is left after at most
    floor(log2((v_high - v_low) / t)) + 1 experiments (none when the bracket
    is already narrower than [t]), whatever the experiments answer, failed
    simulations included, and after at most MAX_BISECTION_ITERATIONS.  When
    every name the loop reads is defined and both budgets allow that many
    experiments, it runs exactly that many and ends with a bracket narrower
    than [t].  For [v_high - v_low >= t] that number is
    ceil(log2((v_high - v_low) / t)) or one more. *)
Theorem C5_bisection_trial_bound (cfg : config) (obs : Z -> Obs)
    (fit : fit_call -> fit_outcome) (max_bisection max_total_runs : Z)
    (tolerance : Q) (s : state) (high : Q) :
  MAX_BISECTION_ITERATIONS cfg = Some max_bisection ->
  MAX_TOTAL_RUNS cfg = Some max_total_runs ->
  CONVERGENCE_TOLERANCE cfg = Some tolerance ->
  pc s = Bisecting ->
  bisection_iter s = 0 ->
  v_high s = Some high ->
  (v_low s < high)%Q ->
  (0 < tolerance)%Q ->
  (exists n,
      final (run cfg obs fit n s) = true
      /\ bisection_iter (run cfg obs fit n s) <= halvings (high - v_low s) tolerance
      /\ bisection_iter (run cfg obs fit n s) <= Z.max 0 max_bisection)
  /\ (TEMPLATE_FILE cfg <> None ->
      LS_DYNA_PATH cfg <> None ->
      PROJECTILE_PART_ID cfg <> None ->
      VR_FILTER_THRESHOLD cfg <> None ->
      halvings (high - v_low s) tolerance <= max_bisection ->
      run_count s + halvings (high - v_low s) tolerance <= max_total_runs ->
      exists n w,
        final (run cfg obs fit n s) = true
        /\ bisection_iter (run cfg obs fit n s) = halvings (high - v_low s) tolerance
        /\ run_count (run cfg obs fit n s)
           = run_count s + halvings (high - v_low s) tolerance
        /\ width (run cfg obs fit n s) = Some w
        /\ (w < tolerance)%Q)
  /\ ((tolerance <= high - v_low s)%Q ->
      ceil_log2 ((high - v_low s) / tolerance)
      <= halvings (high - v_low s) tolerance
      <= ceil_log2 ((high - v_low s) / tolerance) + 1).
Proof.
  intros Hmb Hmr Htd Hpc Hit Hhigh Hlt Htol.
  destruct (bisection_trials cfg obs fit max_bisection max_total_runs tolerance s high
              Hmb Hmr Htd Hpc Hit Hhigh Hlt Htol) as (Hbound & Hexact).
  split; [exact Hbound|]. split; [exact Hexact|].
  intros Hwide. apply halvings_ceil_log2; assumption.
Qed.

(** Scenario C: bracket [900, 1000], tolerance 5, under the completed
    configuration: five experiments, whatever they answer. *)
Lemma C5_bisection_trial_bound_witness :
  (v_low (bracket 900 1000) < 1000)%Q
  /\ (0 < 5)%Q
  /\ halvings (1000 - 900) 5 = 5
  /\ forall (obs : Z -> Obs) (fit : fit_call -> fit_outcome),
       (exists n,
           final (run completed obs fit n (bracket 900 1000)) = true
           /\ bisection_iter (run completed obs fit n (bracket 900 1000))
              <= halvings (1000 - v_low (bracket 900 1000)) 5
           /\ bisection_iter (run completed obs fit n (bracket 900 1000)) <= Z.max 0 20)
       /\ (TEMPLATE_FILE completed <> None ->
           LS_DYNA_PATH completed <> None ->
           PROJECTILE_PART_ID completed <> None ->
           VR_FILTER_THRESHOLD completed <> None ->
           halvings (1000 - v_low (bracket 900 1000)) 5 <= 20 ->
           run_count (bracket 900 1000) + halvings (1000 - v_low (bracket 900 1000)) 5 <= 30 ->
           exists n w,
             final (run completed obs fit n (bracket 900 1000)) = true
             /\ bisection_iter (run completed obs fit n (bracket 900 1000))
                = halvings (1000 - v_low (bracket 900 1000)) 5
             /\ run_count (run completed obs fit n (bracket 900 1000))
                = run_count (bracket 900 1000)
                  + halvings (1000 - v_low (bracket 900 1000)) 5
             /\ width (run completed obs fit n (bracket 900 1000)) = Some w
             /\ (w < 5)%Q)
       /\ ((5 <= 1000 - v_low (bracket 900 1000))%Q ->
           ceil_log2 ((1000 - v_low (bracket 900 1000)) / 5)
           <= halvings (1000 - v_low (bracket 900 1000)) 5
           <= ceil_log2 ((1000 - v_low (bracket 900 1000)) / 5) + 1).
Proof.
  split; [reflexivity|]. split; [reflexivity|]. split; [reflexivity|].
  intros obs fit.
  apply (C5_bisection_trial_bound completed obs fit 20 30 5 (bracket 900 1000) 1000);
    reflexivity.
Defined.

(** The bound of the claim, ceil(log2((v_high - v_low) / t)), is one short
    when the ratio is a power of two: from the bracket [300, 340] with
    tolerance 5 and no failed simulation, the third midpoint leaves a bracket
    of width exactly 5, which is not under the tolerance, and a fourth
    experiment is run. *)
Lemma C5_power_of_two_needs_one_more :
  ceil_log2 ((340 - 300) / 5) = 3
  /\ forall fit : fit_call -> fit_outcome,
       let after n := run completed (fun _ => not_penetrated) fit n (bracket 300 340) in
       pc (after 3%nat) = Bisecting
       /\ bisection_iter (after 3%nat) = 3
       /\ (exists w, width (after 3%nat) = Some w /\ (w == 5)%Q)
       /\ final (after 5%nat) = true
       /\ bisection_iter (after 5%nat) = 4
       /\ failures_logged (after 5%nat) = 0
       /\ ~ bisection_iter (after 5%nat) <= ceil_log2 ((340 - 300) / 5).
Proof.
  split; [reflexivity|]. intros fit after. subst after. cbv beta.
  split; [vm_compute; reflexivity|]. split; [vm_compute; reflexivity|].
  split; [eexists; split; [vm_compute; reflexivity|reflexivity]|].
  split; [vm_compute; reflexivity|]. split; [vm_compute; reflexivity|].
  split; [vm_compute; reflexivity|]. vm_compute. auto.
Qed.

(** ** The bracket *)

Lemma mid_between (low high : Q) :
  (low < high)%Q -> (low < (low + high) / 2)%Q /\ ((low + high) / 2 < high)%Q.
Proof.
  intros H.
  assert (E : ((low + high) / 2 == (low + high) * (1 # 2))%Q) by field.
  rewrite E. split; Lqa.lra.
Qed.

Lemma grow_lt (v m : Q) : (0 < v)%Q -> (1 < m)%Q -> (v < v * m)%Q /\ (0 < v * m)%Q.
Proof. intros Hv Hm. split; Lqa.nra. Qed.

Lemma inv_of_final (s : state) :
  final s = true ->
  bracket_ok s ->
  (forall m, multiplier s = Some m -> (1 < m)%Q) ->
  search_inv s.
Proof.
  unfold final, search_inv. intros Hf Hb Hm.
  destruct (pc s); try discriminate Hf;
    (split; [exact Hb|]; split; [exact Hm|]; split; [discriminate|]);
    intros [H|H]; discriminate H.
Qed.

Section Bracket.

Variable cfg : config.
Variable obs : Z -> Obs.
Variable fit : fit_call -> fit_outcome.
Hypothesis cfg_forward : forward cfg.

Lemma init_inv : search_inv (init cfg).
Proof.
  destruct cfg_forward as (Hv & _).
  unfold init.
  destruct (BASE_WORKDIR cfg); cbn;
    [|apply inv_of_final; [reflexivity|exact I|discriminate]].
  destruct (INITIAL_VELOCITY cfg) as [v|] eqn:Hiv; cbn;
    [|apply inv_of_final; [reflexivity|exact I|discriminate]].
  specialize (Hv v eq_refl).
  unfold search_inv, bracket_ok. cbn.
  split; [exact I|]. split; [|split].
  - intros m. destruct (Qlt_le_dec 1 (getattr (GROWTH_FACTOR cfg) 1%Q)) as [Hg|Hg];
      [|discriminate].
    intros Hm. rewrite Hm in Hg. exact Hg.
  - intros _. repeat split. exact Hv. exact Hv.
  - intros [H|H]; discriminate.
Qed.

Lemma after_expansion_inv (s : state) :
  bracket_ok s ->
  (forall m, multiplier s = Some m -> (1 < m)%Q) ->
  search_inv (after_expansion s) /\ never_widens obs s (after_expansion s).
Proof.
  intros Hb Hm. unfold after_expansion.
  destruct (v_high s) as [high|] eqn:Hh.
  - split.
    + unfold search_inv, bracket_ok in *. cbn. rewrite Hh in *.
      repeat split; try assumption; try discriminate.
    + unfold never_widens, high_le. cbn. rewrite Hh.
      repeat split; try apply Qle_refl; intros; lia.
  - split.
    + apply inv_of_final; [reflexivity| |exact Hm].
      unfold bracket_ok. cbn. rewrite Hh. exact I.
    + unfold never_widens, high_le. cbn. rewrite Hh.
      repeat split; try apply Qle_refl; intros; lia.
Qed.


Lemma after_expansion_fields (s : state) :
  v_low (after_expansion s) = v_low s
  /\ v_high (after_expansion s) = v_high s
  /\ run_count (after_expansion s) = run_count s.
Proof.
  unfold after_expansion. destruct (v_high s) eqn:E; cbn; rewrite ?E; repeat split.
Qed.

Lemma fit_phase_fields (s : state) :
  v_low (fit_phase cfg fit s) = v_low s
  /\ v_high (fit_phase cfg fit s) = v_high s
  /\ run_count (fit_phase cfg fit s) = run_count s
  /\ multiplier (fit_phase cfg fit s) = multiplier s.
Proof. unfold fit_phase, after_fit. repeat break_match; repeat split. Qed.


Ltac outcome_cases :=
  unfold outcome_of in *;
  repeat match goal with
         | H : context [sim_success ?o] |- _ => destruct (sim_success o)
         | H : context [is_penetrated ?o] |- _ => destruct (is_penetrated o)
         end.

Ltac close_turn :=
  repeat split; intros;
  try solve [ assumption | discriminate | congruence | lia | Lqa.lra
            | apply Qle_refl
            | outcome_cases; cbn in *; first [discriminate | congruence]
            | eauto
            | match goal with
              | Hq : forall m, _ = Some m -> _ |- _ => apply Hq; congruence
              end
            | match goal with H : _ \/ _ |- _ => destruct H as [H|H]; congruence end ].

Lemma attr_inr {A : Type} (name : string) (value : option A) (x : A) :
  attr name value = inr x -> value = Some x.
Proof. destruct value; simpl; congruence. Qed.

Lemma expanding_turn (s : state) :
  search_inv s ->
  pc s = Expanding ->
  search_inv (step_expanding cfg obs s)
  /\ never_widens obs s (step_expanding cfg obs s).
Proof.
  intros (Hb & Hm & He & _) Hpc.
  destruct (He Hpc) as (Hh & Hlt & Hpos). clear He.
  destruct cfg_forward as (_ & Hstep).
  unfold step_expanding, vr_in_range.
  repeat (break_match; cbn - [after_expansion]);
    cbn in *;
    try match goal with
        | H : attr "EXPONENTIAL_STEP" _ = inr _ |- _ => pose proof (Hstep _ (attr_inr _ _ _ H))
        end;
    try match goal with
        | Hq : forall m, Some ?q = Some m -> (1 < m)%Q |- _ =>
            pose proof (grow_lt (current_v s) q Hpos (Hq q eq_refl)) as (? & ?)
        end;
    try match goal with
        | |- context [after_expansion ?x] =>
            destruct (after_expansion_fields x) as (Ea & Eb & Ec);
            destruct (after_expansion_inv x) as (Ia & _);
            [ unfold bracket_ok; cbn; rewrite Hh; exact I
            | cbn; exact Hm
            | split; [exact Ia|];
              unfold never_widens, high_le; rewrite Ea, Eb, Ec; cbn; rewrite Hh ]
        end;
    try (split; [apply inv_of_final; [reflexivity| |cbn; exact Hm]|]);
    unfold search_inv, never_widens, bracket_ok, high_le; cbn; rewrite ?Hh;
    close_turn.
Qed.

Lemma sampling_turn (s : state) :
  search_inv s ->
  pc s = Sampling ->
  search_inv (step_sampling cfg obs s)
  /\ never_widens obs s (step_sampling cfg obs s).
Proof.
  intros (Hb & Hm & _ & Hs) Hpc.
  assert (Hh : v_high s <> None) by (apply Hs; left; exact Hpc). clear Hs.
  unfold step_sampling, vr_in_range.
  repeat (break_match; cbn - [after_expansion]);
    try match goal with
        | |- context [after_expansion ?x] =>
            destruct (after_expansion_fields x) as (Ea & Eb & Ec);
            destruct (after_expansion_inv x) as (Ia & _);
            [ exact Hb
            | exact Hm
            | split; [exact Ia|];
              unfold never_widens, high_le; rewrite Ea, Eb, Ec; cbn ]
        end;
    try (split; [apply inv_of_final; [reflexivity|exact Hb|exact Hm]|]);
    unfold search_inv, never_widens, bracket_ok, high_le in *; cbn;
    destruct (v_high s) eqn:Hhigh; try congruence;
    close_turn.
Qed.

Lemma bisecting_turn_inv (s : state) :
  search_inv s ->
  pc s = Bisecting ->
  search_inv (step_bisecting cfg obs fit s)
  /\ never_widens obs s (step_bisecting cfg obs fit s).
Proof.
  intros (Hb & Hm & _ & Hs) Hpc.
  assert (Hh : v_high s <> None) by (apply Hs; right; exact Hpc). clear Hs.
  unfold bracket_ok in Hb.
  destruct (v_high s) as [high|] eqn:Hhigh; [|congruence].
  destruct (mid_between (v_low s) high Hb) as (Hlo & Hhi).
  unfold step_bisecting, vr_in_range. rewrite Hhigh.
  repeat (break_match; cbn - [fit_phase]);
    try match goal with
        | |- context [fit_phase cfg fit ?x] =>
            destruct (fit_phase_fields x) as (Ea & Eb & Ec & Ed);
            destruct (fit_phase_final cfg fit x) as (Ef & _);
            split;
            [ apply inv_of_final;
              [exact Ef|unfold bracket_ok; rewrite Ea, Eb, Hhigh; exact Hb|rewrite Ed; exact Hm]
            | unfold never_widens, high_le; rewrite Ea, Eb, Ec, Hhigh ]
        end;
    try (split; [apply inv_of_final; [reflexivity| |cbn; exact Hm]|]);
    unfold search_inv, never_widens, bracket_ok, high_le in *; cbn; rewrite ?Hhigh;
    close_turn.
Qed.

Lemma step_inv (s : state) :
  search_inv s ->
  search_inv (step cfg obs fit s) /\ never_widens obs s (step cfg obs fit s).
Proof.
  intros Hinv. unfold step.
  destruct (pc s) eqn:Hpc.
  - apply expanding_turn; assumption.
  - apply sampling_turn; assumption.
  - apply bisecting_turn_inv; assumption.
  - split; [exact Hinv|]. unfold never_widens, high_le.
    destruct (v_high s); repeat split; intros; try apply Qle_refl; lia.
  - split; [exact Hinv|]. unfold never_widens, high_le.
    destruct (v_high s); repeat split; intros; try apply Qle_refl; lia.
Qed.

Lemma run_inv (n : nat) : search_inv (run cfg obs fit n (init cfg)).
Proof.
  induction n as [|n IH]; [apply init_inv|].
  rewrite run_S. apply step_inv, IH.
Qed.

End Bracket.

(** C2, as the code has it.  Under a configuration whose initial velocity
    and linear step are positive, for every sequence of observations and at every point of the
    solve: once [v_high] is finite (a penetration has been seen),
    [v_low < v_high]; and no loop turn, in expansion, sampling or bisection,
    widens the bracket: [v_low] never goes down, [v_high] never goes up, a
    turn whose experiment is answered NotPenetrated leaves [v_high] as it
    is, one answered Penetrated leaves [v_low] as it is; the turn of a failed
    simulation is among them. *)
Theorem C2_bracket_invariant (cfg : config) (obs : Z -> Obs)
    (fit : fit_call -> fit_outcome) (n : nat) :
  forward cfg ->
  let s := run cfg obs fit n (init cfg) in
  let s' := step cfg obs fit s in
  bracket_ok s
  /\ (pc s = Sampling \/ pc s = Bisecting ->
      exists high, v_high s = Some high /\ (v_low s < high)%Q)
  /\ (v_low s <= v_low s')%Q
  /\ high_le (v_high s') (v_high s)
  /\ (run_count s' = run_count s + 1 ->
      outcome_of (obs (run_count s')) = NotPenetrated ->
      v_high s' = v_high s /\ (v_low s <= v_low s')%Q)
  /\ (run_count s' = run_count s + 1 ->
      forall residual, outcome_of (obs (run_count s')) = Penetrated residual ->
      v_low s' = v_low s /\ high_le (v_high s') (v_high s))
  /\ (run_count s' = run_count s + 1 ->
      outcome_of (obs (run_count s')) = ExperimentFailed ->
      (v_low s <= v_low s')%Q /\ high_le (v_high s') (v_high s)).
Proof.
  intros Hfwd s s'.
  pose proof (run_inv cfg obs fit Hfwd n) as Hinv. fold s in Hinv.
  destruct (step_inv cfg obs fit Hfwd s Hinv) as (_ & Hlow & Hhigh & Hnot & Hpen).
  fold s' in Hlow, Hhigh, Hnot, Hpen.
  destruct Hinv as (Hb & _ & _ & Hs).
  split; [exact Hb|]. split.
  { intros Hpc. specialize (Hs Hpc). unfold bracket_ok in Hb.
    destruct (v_high s) as [high|]; [|congruence]. exists high. split; [reflexivity|exact Hb]. }
  split; [exact Hlow|]. split; [exact Hhigh|].
  split; [intros Hr Ho; split; [apply Hnot; assumption|exact Hlow]|].
  split; [intros Hr r Ho; split; [apply (Hpen Hr r Ho)|exact Hhigh]|].
  intros _ _. split; assumption.
Qed.

Lemma C2_bracket_invariant_witness :
  forward completed
  /\ let s := run completed (three_hits (2, 2, 2, 2)%Q 1) (fun _ => FitRuntimeError) 9
               (init completed) in
     let s' := step completed (three_hits (2, 2, 2, 2)%Q 1) (fun _ => FitRuntimeError) s in
     bracket_ok s
     /\ (pc s = Sampling \/ pc s = Bisecting ->
         exists high, v_high s = Some high /\ (v_low s < high)%Q)
     /\ (v_low s <= v_low s')%Q
     /\ high_le (v_high s') (v_high s)
     /\ (run_count s' = run_count s + 1 ->
         outcome_of (three_hits (2, 2, 2, 2)%Q 1 (run_count s')) = NotPenetrated ->
         v_high s' = v_high s /\ (v_low s <= v_low s')%Q)
     /\ (run_count s' = run_count s + 1 ->
         forall residual,
           outcome_of (three_hits (2, 2, 2, 2)%Q 1 (run_count s')) = Penetrated residual ->
           v_low s' = v_low s /\ high_le (v_high s') (v_high s))
     /\ (run_count s' = run_count s + 1 ->
         outcome_of (three_hits (2, 2, 2, 2)%Q 1 (run_count s')) = ExperimentFailed ->
         (v_low s <= v_low s')%Q /\ high_le (v_high s') (v_high s)).
Proof.
  assert (Hfwd : forward completed).
  { split; intros v Hv; inversion Hv; reflexivity. }
  split; [exact Hfwd|].
  exact (C2_bracket_invariant completed (three_hits (2, 2, 2, 2)%Q 1)
           (fun _ => FitRuntimeError) 9 Hfwd).
Defined.

(** Without a positive initial velocity the invariant fails: the search
    of [backwards] starts at -100 m/s, its first shot penetrates, and the
    bracket is entered with [v_low = 0] above [v_high = -100]. *)
Lemma C2_negative_start_breaks_bracket :
  let s := run backwards (fun _ => penetrated 50) (fun _ => FitRuntimeError) 1
             (init backwards) in
  outcome_of (penetrated 50) = Penetrated 50
  /\ pc s = Sampling
  /\ (v_low s == 0)%Q
  /\ v_high s = Some (- (100))%Q
  /\ ~ bracket_ok s.
Proof.
  split; [reflexivity|]. split; [reflexivity|]. split; [reflexivity|].
  split; [reflexivity|]. vm_compute. discriminate.
Qed.

(** ** The Lambert-Jonas law *)

Section Law.

Local Open Scope R_scope.

Import Lambert_jonas.

Lemma power_positive (x : R) (p : posreal) : 0 < x -> power x p = Some (Rpower x p).
Proof.
  intros Hx. unfold power.
  destruct (total_order_T 0 x) as [[H|H]|H]; [reflexivity|Lra.lra|Lra.lra].
Qed.

Lemma power_zero (p : posreal) : power 0 p = Some 0.
Proof.
  unfold power.
  destruct (total_order_T 0 0) as [[H|H]|H]; [Lra.lra|reflexivity|Lra.lra].
Qed.

Lemma Rpower_positive (x y : R) : 0 < Rpower x y.
Proof. unfold Rpower. apply exp_pos. Qed.

Lemma inverse_exponent (p : posreal) : 0 < 1 / p.
Proof. apply Rdiv_lt_0_compat; [Lra.lra|apply cond_pos]. Qed.

(** C3, as the code has it.  For [a > 0], [p > 0], [VBL > 0] the function
    returns [a * (Vi^p - VBL^p)^(1/p)] whenever [Vi^p > VBL^p], returns 0
    (and raises nothing) for every [Vi] with [0 <= Vi <= VBL], and is
    strictly increasing in [Vi] above [VBL]. *)
Theorem C3_lambert_jonas_law (a VBL : R) (p : posreal) :
  0 < a ->
  0 < VBL ->
  (forall Vi x y,
      power Vi p = Some x -> power VBL p = Some y -> y < x ->
      lambert_jonas_func Vi a p VBL = a * Rpower (x - y) (1 / p))
  /\ (forall Vi, 0 <= Vi <= VBL -> lambert_jonas_func Vi a p VBL = 0)
  /\ (forall Vi,
        VBL < Vi ->
        lambert_jonas_func Vi a p VBL
        = a * Rpower (Rpower Vi p - Rpower VBL p) (1 / p))
  /\ (forall Vi1 Vi2,
        VBL < Vi1 -> Vi1 < Vi2 ->
        lambert_jonas_func Vi1 a p VBL < lambert_jonas_func Vi2 a p VBL).
Proof.
  intros Ha HVBL.
  pose proof (cond_pos p) as Hp.
  assert (Hvalue : forall Vi, VBL < Vi ->
             Rpower VBL p < Rpower Vi p
             /\ lambert_jonas_func Vi a p VBL
                = a * Rpower (Rpower Vi p - Rpower VBL p) (1 / p)).
  { intros Vi HVi.
    assert (Hlt : Rpower VBL p < Rpower Vi p) by (apply Rlt_Rpower_l; Lra.lra).
    split; [exact Hlt|].
    unfold lambert_jonas_func.
    rewrite (power_positive Vi p), (power_positive VBL p) by Lra.lra.
    cbv zeta. destruct (Rlt_dec 0 (Rpower Vi p - Rpower VBL p)); [reflexivity|Lra.lra]. }
  split; [|split; [|split]].
  - intros Vi x y Hx Hy Hlt. unfold lambert_jonas_func. rewrite Hx, Hy.
    cbv zeta. destruct (Rlt_dec 0 (x - y)); [reflexivity|Lra.lra].
  - intros Vi [H0 Hle]. unfold lambert_jonas_func.
    rewrite (power_positive VBL p HVBL).
    pose proof (Rpower_positive VBL p) as Hy.
    destruct H0 as [H0|H0].
    + rewrite (power_positive Vi p H0). cbv zeta.
      assert (Rpower Vi p <= Rpower VBL p) by (apply Rle_Rpower_l; Lra.lra).
      destruct (Rlt_dec 0 (Rpower Vi p - Rpower VBL p)); [Lra.lra|reflexivity].
    + subst Vi. rewrite power_zero. cbv zeta.
      destruct (Rlt_dec 0 (0 - Rpower VBL p)); [Lra.lra|reflexivity].
  - intros Vi HVi. apply Hvalue, HVi.
  - intros Vi1 Vi2 H1 H2.
    destruct (Hvalue Vi1 H1) as (Hlt1 & ->).
    destruct (Hvalue Vi2 (Rlt_trans _ _ _ H1 H2)) as (_ & ->).
    assert (Rpower Vi1 p < Rpower Vi2 p) by (apply Rlt_Rpower_l; Lra.lra).
    apply Rmult_lt_compat_l; [exact Ha|].
    apply Rlt_Rpower_l; [apply inverse_exponent|Lra.lra].
Qed.

Lemma C3_lambert_jonas_law_witness :
  0 < 1 /\ 0 < 500
  /\ (forall Vi x y,
        power Vi two = Some x -> power 500 two = Some y -> y < x ->
        lambert_jonas_func Vi 1 two 500 = 1 * Rpower (x - y) (1 / two))
  /\ (forall Vi, 0 <= Vi <= 500 -> lambert_jonas_func Vi 1 two 500 = 0)
  /\ (forall Vi,
        500 < Vi ->
        lambert_jonas_func Vi 1 two 500
        = 1 * Rpower (Rpower Vi two - Rpower 500 two) (1 / two))
  /\ (forall Vi1 Vi2,
        500 < Vi1 -> Vi1 < Vi2 ->
        lambert_jonas_func Vi1 1 two 500 < lambert_jonas_func Vi2 1 two 500).
Proof.
  split; [Lra.lra|]. split; [Lra.lra|].
  apply (C3_lambert_jonas_law 1 500 two); Lra.lra.
Defined.

Lemma Int_part_two : Int_part 2 = 2%Z.
Proof. symmetry. apply Int_part_spec. simpl. Lra.lra. Qed.

(** Below zero the law is not 0 everywhere: with the even exponent 2, the
    impact velocity -1000 lies under VBL = 500 and numpy computes
    [(-1000)**2 = 10^6 > 500**2], so the function returns
    [(10^6 - 250000)^(1/2)], which is positive. *)
Lemma C3_negative_velocity_even_exponent :
  0 < 1 /\ 0 < two /\ 0 < 500 /\ -1000 <= 500
  /\ power (-1000) two = Some (Rpower 1000 2)
  /\ lambert_jonas_func (-1000) 1 two 500 <> 0.
Proof.
  assert (Hpow : power (-1000) two = Some (Rpower 1000 2)).
  { unfold power.
    destruct (total_order_T 0 (-1000)) as [[H|H]|H]; [Lra.lra|Lra.lra|].
    destruct (is_integer two) as [_|Hn].
    - simpl pos. rewrite Int_part_two. simpl Z.even. cbv iota.
      replace (- -1000) with 1000 by Lra.lra. reflexivity.
    - exfalso. apply Hn. simpl pos. rewrite Int_part_two. reflexivity. }
  split; [Lra.lra|]. split; [simpl; Lra.lra|]. split; [Lra.lra|]. split; [Lra.lra|].
  split; [exact Hpow|].
  unfold lambert_jonas_func. rewrite Hpow, (power_positive 500 two) by Lra.lra.
  cbv zeta. simpl pos.
  assert (H1 : Rpower 1000 2 = 1000000).
  { change 2 with (INR 2). rewrite Rpower_pow by Lra.lra. simpl. Lra.lra. }
  assert (H2 : Rpower 500 2 = 250000).
  { change 2 with (INR 2). rewrite Rpower_pow by Lra.lra. simpl. Lra.lra. }
  rewrite H1, H2.
  destruct (Rlt_dec 0 (1000000 - 250000)) as [_|Hn]; [|Lra.lra].
  pose proof (Rpower_positive (1000000 - 250000) (1 / 2)). Lra.lra.
Qed.

End Law.

(** * Further properties *)

Import Scenarios.

(** ** Budgets *)

Ltac ltb_facts :=
  repeat match goal with
         | H : (_ <? _) = true |- _ => apply Z.ltb_lt in H
         | H : (_ <? _) = false |- _ => apply Z.ltb_ge in H
         | H : (_ =? _) = true |- _ => apply Z.eqb_eq in H
         | H : (_ =? _) = false |- _ => apply Z.eqb_neq in H
         end.

Lemma after_expansion_counters (s : state) :
  run_count (after_expansion s) = run_count s
  /\ (bisection_iter (after_expansion s) = 0
      \/ bisection_iter (after_expansion s) = bisection_iter s).
Proof.
  unfold after_expansion. destruct (v_high s); cbn; split; auto.
Qed.

Lemma fit_phase_counters (cfg : config) (fit : fit_call -> fit_outcome) (s : state) :
  run_count (fit_phase cfg fit s) = run_count s
  /\ bisection_iter (fit_phase cfg fit s) = bisection_iter s.
Proof. unfold fit_phase, after_fit. repeat break_match; split; reflexivity. Qed.

Section Budgets.

Variable cfg : config.
Variable obs : Z -> Obs.
Variable fit : fit_call -> fit_outcome.

Lemma step_within_budgets (s : state) :
  within_budgets cfg s ->
  within_budgets cfg (step cfg obs fit s)
  /\ run_count s <= run_count (step cfg obs fit s) <= run_count s + 1.
Proof.
  unfold within_budgets. intros (Hr & Hb).
  unfold step, step_expanding, step_sampling, step_bisecting, vr_in_range.
  destruct (MAX_TOTAL_RUNS cfg) as [max|]; destruct (MAX_BISECTION_ITERATIONS cfg) as [maxb|];
    cbn [attr getattr] in *.
  all: repeat (break_match; cbn - [after_expansion fit_phase Z.max]);
    ltb_facts;
    try match goal with
        | |- context [after_expansion ?x] =>
            destruct (after_expansion_counters x) as (Ea & [Eb|Eb]); rewrite Ea, Eb; cbn
        end;
    try match goal with
        | |- context [fit_phase cfg fit ?x] =>
            destruct (fit_phase_counters cfg fit x) as (Ea & Eb); rewrite Ea, Eb; cbn
        end;
    lia.
Qed.

Lemma run_within_budgets (n : nat) : within_budgets cfg (run cfg obs fit n (init cfg)).
Proof.
  induction n as [|n IH].
  - unfold within_budgets, init. repeat break_match; cbn; lia.
  - rewrite run_S. apply step_within_budgets, IH.
Qed.

End Budgets.

(** ** The recorded points *)

Lemma dedup_subset (l : list point) (p : point) : In p (dedup l) -> In p l.
Proof.
  induction l as [|q l IH]; simpl; [auto|].
  destruct (existsb (point_eqb q) l); simpl; intuition.
Qed.

Lemma prepare_points_subset (l : list point) (p : point) :
  In p (prepare_points l) -> In p l.
Proof.
  unfold prepare_points. intros H. apply dedup_subset.
  eapply Permutation_in; [apply sorted_perm|exact H].
Qed.

Lemma Forall_prepare_points (P : point -> Prop) (l : list point) :
  Forall P l -> Forall P (prepare_points l).
Proof.
  rewrite !Forall_forall. intros H p Hp. apply H, prepare_points_subset, Hp.
Qed.

Lemma filter_valid_all (cfg : config) (l : list point) :
  Forall (point_valid cfg) l -> filter_valid cfg l = inr l.
Proof.
  induction 1 as [|p l Hp _ IH]; simpl; [reflexivity|].
  unfold point_valid in Hp. rewrite Hp, IH. reflexivity.
Qed.

Lemma filter_valid_sound (cfg : config) (l kept : list point) :
  filter_valid cfg l = inr kept -> Forall (point_valid cfg) kept.
Proof.
  revert kept. induction l as [|p l IH]; simpl; intros kept H.
  - inversion H. constructor.
  - destruct (vr_in_range cfg (snd p)) as [e|keep] eqn:Hp; [discriminate|].
    destruct (filter_valid cfg l) as [e|rest]; [discriminate|].
    inversion H; subst. destruct keep; [constructor; [exact Hp|]|]; apply IH; reflexivity.
Qed.

Section Points.

Variable cfg : config.
Variable obs : Z -> Obs.
Variable fit : fit_call -> fit_outcome.

Lemma after_expansion_points (s : state) :
  penetration_points (after_expansion s) = penetration_points s.
Proof. unfold after_expansion. destruct (v_high s); reflexivity. Qed.

Lemma fit_phase_points (s : state) :
  penetration_points (fit_phase cfg fit s) = prepare_points (penetration_points s).
Proof. unfold fit_phase, after_fit. repeat break_match; reflexivity. Qed.

Lemma step_points_valid (s : state) :
  Forall (point_valid cfg) (penetration_points s) ->
  Forall (point_valid cfg) (penetration_points (step cfg obs fit s)).
Proof.
  intros H.
  unfold step, step_expanding, step_sampling, step_bisecting.
  repeat (break_match; cbn - [after_expansion fit_phase vr_in_range]);
    rewrite ?after_expansion_points, ?fit_phase_points; cbn - [vr_in_range];
    try apply Forall_prepare_points;
    try (apply Forall_app; split; [|constructor; [assumption|constructor]]);
    exact H.
Qed.

Lemma run_points_valid (n : nat) :
  Forall (point_valid cfg) (penetration_points (run cfg obs fit n (init cfg))).
Proof.
  induction n as [|n IH].
  - unfold init. repeat break_match; constructor.
  - rewrite run_S. apply step_points_valid, IH.
Qed.

End Points.

(** ** Signs *)

Lemma py_max_one_positive (x : Q) : (0 < py_max 1 x)%Q.
Proof. unfold py_max. destruct (Qlt_le_dec 1 x); Lqa.lra. Qed.

Lemma Qle_bool_false (x y : Q) : Qle_bool x y = false -> (y < x)%Q.
Proof.
  intros H. apply Qnot_le_lt. intros Hle. apply Qle_bool_iff in Hle. congruence.
Qed.

Lemma after_expansion_pc (s : state) :
  pc (after_expansion s) <> Expanding /\ pc (after_expansion s) <> Sampling.
Proof. unfold after_expansion. destruct (v_high s); split; discriminate. Qed.

Lemma fit_phase_pc (cfg : config) (fit : fit_call -> fit_outcome) (s : state) :
  pc (fit_phase cfg fit s) <> Expanding
  /\ pc (fit_phase cfg fit s) <> Sampling
  /\ pc (fit_phase cfg fit s) <> Bisecting.
Proof. unfold fit_phase, after_fit. repeat break_match; repeat split; discriminate. Qed.

Ltac close_positive :=
  repeat split; intros;
  try solve [ discriminate | assumption | congruence | Lqa.lra
            | match goal with
              | H : pc (after_expansion ?x) = Sampling |- _ =>
                  destruct (after_expansion_pc x) as (_ & Hn); contradiction
              | H : pc (fit_phase ?c ?f ?x) = Sampling |- _ =>
                  destruct (fit_phase_pc c f x) as (_ & Hn & _); contradiction
              end
            | match goal with
              | |- context [py_max 1 ?x] => pose proof (py_max_one_positive x); Lqa.lra
              end ].

Section Positive.

Variable cfg : config.
Variable obs : Z -> Obs.
Variable fit : fit_call -> fit_outcome.

Lemma step_positive (s : state) :
  search_inv s ->
  positive_search s ->
  positive_search (step cfg obs fit s).
Proof.
  intros (Hb & _ & He & Hfin) (Hlow & Hpts & Hs).
  unfold step.
  destruct (pc s) eqn:Hpc.
  - destruct (He eq_refl) as (_ & _ & Hcur). clear He Hs.
    unfold step_expanding, positive_search.
    repeat (break_match; cbn - [after_expansion vr_in_range py_max]);
      rewrite ?after_expansion_points; cbn - [vr_in_range py_max];
      try match goal with
          | |- context [v_low (after_expansion ?x)] =>
              destruct (after_expansion_fields x) as (Ea & _); rewrite Ea; cbn
          end;
      close_positive;
      try (apply Forall_app; split; [assumption|constructor; [exact Hcur|constructor]]).
  - destruct (Hs eq_refl) as (Hstep & Hup). clear He Hs.
    unfold step_sampling, positive_search.
    repeat (break_match; cbn - [after_expansion vr_in_range py_max]);
      rewrite ?after_expansion_points; cbn - [vr_in_range py_max];
      try match goal with
          | |- context [v_low (after_expansion ?x)] =>
              destruct (after_expansion_fields x) as (Ea & _); rewrite Ea; cbn
          end;
      close_positive;
      (apply Forall_app; split; [assumption|constructor; [cbn|constructor]]);
      try match goal with
          | H : true && Qle_bool _ _ = false |- _ =>
              cbn [andb] in H; apply Qle_bool_false in H
          end;
      Lqa.lra.
  - clear He Hs.
    assert (Hh : v_high s <> None) by (apply Hfin; right; reflexivity).
    unfold bracket_ok in Hb.
    destruct (v_high s) as [high|] eqn:Hhigh; [|congruence].
    destruct (mid_between (v_low s) high Hb) as (Hlo & Hhi).
    unfold step_bisecting, positive_search. rewrite Hhigh.
    repeat (break_match; cbn - [fit_phase vr_in_range]);
      rewrite ?fit_phase_points; cbn - [fit_phase vr_in_range];
      try match goal with
          | |- context [v_low (fit_phase cfg fit ?x)] =>
              destruct (fit_phase_final cfg fit x) as (_ & _ & Ea & _); rewrite Ea; cbn
          end;
      close_positive;
      try (apply Forall_prepare_points; assumption);
      (apply Forall_app; split; [assumption|constructor; [cbn; Lqa.lra|constructor]]).
  - split; [exact Hlow|]. split; [exact Hpts|]. intros H. congruence.
  - split; [exact Hlow|]. split; [exact Hpts|]. intros H. congruence.
Qed.

Hypothesis cfg_forward : forward cfg.

Lemma run_positive (n : nat) :
  search_inv (run cfg obs fit n (init cfg))
  /\ positive_search (run cfg obs fit n (init cfg)).
Proof.
  induction n as [|n (IH1 & IH2)].
  - split; [apply init_inv, cfg_forward|].
    unfold init, positive_search.
    repeat break_match; cbn; repeat split; try discriminate; try constructor;
      try Lqa.lra.
  - rewrite run_S. split.
    + apply step_inv; assumption.
    + apply step_positive; assumption.
Qed.

End Positive.

(** X1.  The run counter never passes MAX_TOTAL_RUNS and the bisection
    counter never passes MAX_BISECTION_ITERATIONS (0 where the name is
    missing or negative), at every point of every solve; a loop turn runs at
    most one experiment. *)
Theorem budgets_respected (cfg : config) (obs : Z -> Obs)
    (fit : fit_call -> fit_outcome) (n : nat) :
  let s := run cfg obs fit n (init cfg) in
  let s' := step cfg obs fit s in
  0 <= run_count s <= Z.max 0 (getattr (MAX_TOTAL_RUNS cfg) 0)
  /\ 0 <= bisection_iter s <= Z.max 0 (getattr (MAX_BISECTION_ITERATIONS cfg) 0)
  /\ run_count s <= run_count s' <= run_count s + 1.
Proof.
  intros s s'.
  pose proof (run_within_budgets cfg obs fit n) as H. fold s in H.
  destruct (step_within_budgets cfg obs fit s H) as (_ & Hstep).
  destruct H as (Hr & Hb). split; [exact Hr|]. split; [exact Hb|exact Hstep].
Qed.

(** X2.  Every point the search holds has passed the filter
    [0 < Vr <= VR_FILTER_THRESHOLD] when it was recorded, so the filter of
    line 231 removes nothing: the points counted against
    MIN_DATAPOINTS_FOR_FIT and given to the fit are all the prepared
    points. *)
Theorem second_filter_keeps_every_point (cfg : config) (obs : Z -> Obs)
    (fit : fit_call -> fit_outcome) (n : nat) :
  let s := run cfg obs fit n (init cfg) in
  Forall (fun p => vr_in_range cfg (snd p) = inr true) (penetration_points s)
  /\ filter_valid cfg (penetration_points s) = inr (penetration_points s)
  /\ filter_valid cfg (prepare_points (penetration_points s))
     = inr (prepare_points (penetration_points s)).
Proof.
  intros s. pose proof (run_points_valid cfg obs fit n) as H. fold s in H.
  split; [exact H|]. split; apply filter_valid_all; [exact H|].
  apply Forall_prepare_points, H.
Qed.

(** X3.  When the search starts at a positive velocity with a positive
    step, [v_low] is never negative and every recorded impact velocity is
    positive. *)
Theorem recorded_velocities_positive (cfg : config) (obs : Z -> Obs)
    (fit : fit_call -> fit_outcome) (n : nat) :
  forward cfg ->
  let s := run cfg obs fit n (init cfg) in
  (0 <= v_low s)%Q
  /\ Forall (fun p : point => (0 < fst p)%Q) (penetration_points s).
Proof.
  intros Hfwd s.
  destruct (run_positive cfg obs fit Hfwd n) as (_ & Hlow & Hpts & _).
  split; assumption.
Qed.

Lemma recorded_velocities_positive_witness :
  forward completed
  /\ let s := run completed (three_hits (2, 2, 2, 2)%Q 1) (fun _ => FitRuntimeError) 12
               (init completed) in
     (0 <= v_low s)%Q
     /\ Forall (fun p : point => (0 < fst p)%Q) (penetration_points s).
Proof.
  assert (Hfwd : forward completed).
  { split; intros v Hv; inversion Hv; reflexivity. }
  split; [exact Hfwd|].
  exact (recorded_velocities_positive completed (three_hits (2, 2, 2, 2)%Q 1)
           (fun _ => FitRuntimeError) 12 Hfwd).
Defined.

(** X4.  In a solve that starts at a positive velocity with a positive
    step, whenever the fit is called the upper bound it is given for VBL is
    strictly below every impact velocity of the points it is given. *)
Theorem fit_bound_below_search_points (cfg : config) (obs : Z -> Obs)
    (fit : fit_call -> fit_outcome) (n : nat) (minimum : Z) (fb : fit_bounds)
    (guess : Q * Q * Q) :
  forward cfg ->
  let s := run cfg obs fit n (init cfg) in
  let prepared := prepare_points (penetration_points s) in
  prepared <> [] ->
  MIN_DATAPOINTS_FOR_FIT cfg = Some minimum ->
  minimum <= Z.of_nat (List.length prepared) ->
  FIT_BOUNDS cfg = Some fb ->
  INITIAL_GUESS cfg = Some guess ->
  exists call,
    fit_phase cfg fit s = after_fit (fit call) (set_points prepared s)
    /\ Vi_data call = map fst prepared
    /\ Vr_data call = map snd prepared
    /\ p0 call = guess
    /\ (forall v, In v (Vi_data call) -> (snd (upper_bounds call) < v)%Q)
    /\ (snd (upper_bounds call) <= snd (bounds_VBL fb))%Q.
Proof.
  intros Hfwd s prepared Hne Hmin Hge Hfb Hguess.
  destruct (run_positive cfg obs fit Hfwd n) as (_ & _ & Hpts & _). fold s in Hpts.
  pose proof (run_points_valid cfg obs fit n) as Hvalid. fold s in Hvalid.
  assert (Hfilter : filter_valid cfg prepared = inr prepared)
    by (apply filter_valid_all, Forall_prepare_points, Hvalid).
  assert (Hpos : Forall (fun p : point => (0 < fst p)%Q) prepared)
    by (apply Forall_prepare_points, Hpts).
  destruct (array_min_spec (map fst prepared)) as (m & Hm & Hin & Hle).
  { destruct prepared; [congruence|discriminate]. }
  assert (H0 : (0 < m)%Q).
  { apply InA_alt in Hin. destruct Hin as (v & Heq & Hv).
    apply in_map_iff in Hv. destruct Hv as (pt & <- & Hpt).
    rewrite Forall_forall in Hpos. rewrite Heq. apply Hpos, Hpt. }
  eexists. split.
  { unfold fit_phase. cbn [penetration_points set_points]. fold prepared.
    rewrite Hfilter, Hmin, Hfb, Hguess. simpl attr. cbv iota.
    apply Z.ltb_ge in Hge. rewrite Hge, Hm. reflexivity. }
  cbn [Vi_data Vr_data p0 upper_bounds snd].
  split; [reflexivity|]. split; [reflexivity|]. split; [reflexivity|].
  split.
  - intros v Hv. specialize (Hle v Hv).
    unfold vbl_upper_bound. rewrite py_min_Qmin.
    eapply Qle_lt_trans; [apply Q.le_min_r|]. Lqa.lra.
  - unfold vbl_upper_bound. rewrite py_min_Qmin. apply Q.le_min_l.
Qed.

Lemma fit_bound_below_search_points_witness :
  let s := run growing (shot_twice (2, 2, 2, 2)%Q 1) not_converging 8 (init growing) in
  exists call,
    Vi_data call = map fst (prepare_points (penetration_points s))
    /\ (forall v, In v (Vi_data call) -> (snd (upper_bounds call) < v)%Q)
    /\ (snd (upper_bounds call) <= 800)%Q.
Proof.
  assert (Hfwd : forward growing).
  { split; intros v Hv; inversion Hv; reflexivity. }
  destruct (fit_bound_below_search_points growing (shot_twice (2, 2, 2, 2)%Q 1)
              not_converging 8 5
              {| bounds_a := (1 # 10, 2)%Q; bounds_p := (11 # 10, 5)%Q;
                 bounds_VBL := (50, 800)%Q |}
              (1, 2, 400)%Q Hfwd)
    as (call & _ & Hvi & _ & _ & Hlt & Hle).
  - vm_compute. discriminate.
  - reflexivity.
  - vm_compute. discriminate.
  - reflexivity.
  - reflexivity.
  - exists call. split; [exact Hvi|]. split; [exact Hlt|exact Hle].
Defined.

(** ** The returned records *)

Section Shapes.

Variable cfg : config.
Variable obs : Z -> Obs.
Variable fit : fit_call -> fit_outcome.

Lemma step_record_shape (s : state) :
  (forall r, pc s = Done r -> record_shape r) ->
  forall r, pc (step cfg obs fit s) = Done r -> record_shape r.
Proof.
  intros IH r.
  unfold step, step_expanding, step_sampling, step_bisecting, after_expansion,
    fit_phase, after_fit.
  repeat (break_match; cbn);
    intros H; try discriminate H; try (apply IH; congruence);
    inversion H; subst; unfold record_shape; cbn; auto.
Qed.

Lemma run_record_shape (n : nat) (r : pydict) :
  pc (run cfg obs fit n (init cfg)) = Done r -> record_shape r.
Proof.
  revert r. induction n as [|n IH]; intros r.
  - unfold init. repeat break_match; cbn; discriminate.
  - rewrite run_S. apply step_record_shape, IH.
Qed.

End Shapes.

(** X5.  Whatever the configuration, the observations and the fit, a record
    [find_v50_for_config] returns has one of three shapes: failed with reason
    and runs only (no penetration found); failed with reason, v_low, v_high,
    runs and points_used; or success with V50, param_a, param_p, rmse,
    v_low, v_high, runs and points_used. *)
Theorem returned_record_shapes (cfg : config) (source : observation_source)
    (fit : fit_call -> fit_outcome) (thickness_config : thickness)
    (config_index : Z) (fuel : nat) (result : pydict) :
  find_v50_for_config cfg source fit thickness_config config_index fuel
  = Some (Returns result) ->
  record_shape result.
Proof.
  unfold find_v50_for_config. intros H.
  apply (run_record_shape cfg (source thickness_config config_index) fit fuel).
  destruct (pc (run cfg (source thickness_config config_index) fit fuel (init cfg)));
    try discriminate H; congruence.
Qed.

Lemma returned_record_shapes_witness :
  record_shape [ ("status", VStr "failed");
                 ("reason", VStr "No penetration found in exponential search");
                 ("runs", VInt 30) ].
Proof.
  apply (returned_record_shapes completed impenetrable not_converging (2, 2, 2, 2)%Q 1 31).
  vm_compute. reflexivity.
Defined.

(** ** Termination *)


Section Termination.

Variable cfg : config.
Variable obs : Z -> Obs.
Variable fit : fit_call -> fit_outcome.

Lemma final_stays (n m : nat) (s : state) :
  final (run cfg obs fit n s) = true -> final (run cfg obs fit (n + m) s) = true.
Proof. intros H. rewrite run_add, run_final; exact H. Qed.

Lemma expanding_progress (s : state) :
  pc s = Expanding ->
  pc (step cfg obs fit s) <> Expanding
  \/ (pc (step cfg obs fit s) = Expanding
      /\ run_count (step cfg obs fit s) = run_count s + 1
      /\ run_count s < getattr (MAX_TOTAL_RUNS cfg) 0).
Proof.
  intros Hpc. unfold step. rewrite Hpc. unfold step_expanding.
  destruct (MAX_TOTAL_RUNS cfg) as [max|]; cbn [attr getattr]; [|left; discriminate].
  repeat (break_match; cbn - [after_expansion]); ltb_facts;
    try (left; first [discriminate | apply after_expansion_pc]);
    right; repeat split; assumption.
Qed.

Lemma not_expanding_stays (s : state) :
  pc s <> Expanding -> pc (step cfg obs fit s) <> Expanding.
Proof.
  intros Hpc. unfold step.
  destruct (pc s) eqn:E; [congruence| | |rewrite E; discriminate|rewrite E; discriminate].
  - unfold step_sampling.
    repeat (break_match; cbn - [after_expansion]);
      first [rewrite E; discriminate | discriminate | apply after_expansion_pc].
  - unfold step_bisecting.
    repeat (break_match; cbn - [fit_phase]);
      first [rewrite E; discriminate | discriminate | apply fit_phase_pc].
Qed.

Lemma not_expanding_later (n : nat) (s : state) :
  pc s <> Expanding -> pc (run cfg obs fit n s) <> Expanding.
Proof.
  revert s. induction n as [|n IH]; intros s H; simpl; [exact H|].
  apply IH, not_expanding_stays, H.
Qed.

Lemma expanding_leaves (k : nat) (s : state) :
  getattr (MAX_TOTAL_RUNS cfg) 0 - run_count s <= Z.of_nat k ->
  exists n, (n <= S k)%nat /\ pc (run cfg obs fit n s) <> Expanding.
Proof.
  revert s. induction k as [|k IH]; intros s Hk.
  - destruct (pc s) eqn:Hpc; try (exists 0%nat; split; [lia|simpl; congruence]).
    exists 1%nat. split; [lia|]. simpl.
    destruct (expanding_progress s Hpc) as [H|(_ & _ & H)]; [exact H|lia].
  - destruct (pc s) eqn:Hpc; try (exists 0%nat; split; [lia|simpl; congruence]).
    destruct (expanding_progress s Hpc) as [H|(Hpc' & Hr & Hlt)].
    + exists 1%nat. split; [lia|exact H].
    + destruct (IH (step cfg obs fit s)) as (n & Hn & Hleft); [lia|].
      exists (S n). split; [lia|exact Hleft].
Qed.

Lemma bisecting_progress (s : state) :
  pc s = Bisecting ->
  final (step cfg obs fit s) = true
  \/ (pc (step cfg obs fit s) = Bisecting
      /\ bisection_iter (step cfg obs fit s) = bisection_iter s + 1
      /\ bisection_iter s < getattr (MAX_BISECTION_ITERATIONS cfg) 0).
Proof.
  intros Hpc. unfold step. rewrite Hpc. unfold step_bisecting.
  destruct (MAX_BISECTION_ITERATIONS cfg) as [max|]; cbn [attr getattr]; [|left; reflexivity].
  repeat (break_match; cbn - [fit_phase]); ltb_facts;
    try (left; first [reflexivity | apply fit_phase_final]);
    right; repeat split; assumption.
Qed.

Lemma bisecting_leaves (k : nat) (s : state) :
  pc s = Bisecting ->
  getattr (MAX_BISECTION_ITERATIONS cfg) 0 - bisection_iter s <= Z.of_nat k ->
  final (run cfg obs fit (S k) s) = true.
Proof.
  revert s. induction k as [|k IH]; intros s Hpc Hk.
  - simpl. destruct (bisecting_progress s Hpc) as [H|(_ & _ & H)]; [exact H|lia].
  - destruct (bisecting_progress s Hpc) as [H|(Hpc' & Hi & Hlt)].
    + change (S (S k)) with (1 + S k)%nat. apply final_stays. exact H.
    + change (run cfg obs fit (S (S k)) s)
        with (run cfg obs fit (S k) (step cfg obs fit s)).
      apply IH; [exact Hpc'|lia].
Qed.

Lemma sampling_entry_counts (s : state) :
  (pc s = Sampling ->
   target_samples (samp s) = getattr (EXTRA_PENETRATION_SAMPLES cfg) 3
   /\ 0 <= samples_collected (samp s)) ->
  pc (step cfg obs fit s) = Sampling ->
  target_samples (samp (step cfg obs fit s)) = getattr (EXTRA_PENETRATION_SAMPLES cfg) 3
  /\ 0 <= samples_collected (samp (step cfg obs fit s)).
Proof.
  intros IH. unfold step.
  destruct (pc s) eqn:Hpc.
  - clear IH. unfold step_expanding.
    repeat (break_match; cbn - [after_expansion]);
      intros H; try discriminate H; try congruence;
      try solve [ match goal with
                  | H : pc (after_expansion ?x) = Sampling |- _ =>
                      destruct (after_expansion_pc x) as (_ & Hn); contradiction
                  end ];
      split; [reflexivity|lia].
  - destruct (IH eq_refl) as (Ht & Hc). clear IH. unfold step_sampling.
    repeat (break_match; cbn - [after_expansion]);
      intros H; try discriminate H;
      try solve [ match goal with
                  | H : pc (after_expansion ?x) = Sampling |- _ =>
                      destruct (after_expansion_pc x) as (_ & Hn); contradiction
                  end ];
      split; first [assumption|lia].
  - clear IH. unfold step_bisecting.
    repeat (break_match; cbn - [fit_phase]);
      intros H; try discriminate H; try congruence;
      match goal with
      | H : pc (fit_phase cfg fit ?x) = Sampling |- _ =>
          destruct (fit_phase_pc cfg fit x) as (_ & Hn & _); contradiction
      end.
  - intros H. rewrite Hpc in H. discriminate H.
  - intros H. rewrite Hpc in H. discriminate H.
Qed.

Lemma run_sampling_counts (n : nat) :
  pc (run cfg obs fit n (init cfg)) = Sampling ->
  target_samples (samp (run cfg obs fit n (init cfg)))
  = getattr (EXTRA_PENETRATION_SAMPLES cfg) 3
  /\ 0 <= samples_collected (samp (run cfg obs fit n (init cfg))).
Proof.
  induction n as [|n IH].
  - unfold init. repeat break_match; cbn; discriminate.
  - rewrite run_S. apply sampling_entry_counts, IH.
Qed.

Lemma sampling_skipped (s : state) :
  pc s = Sampling ->
  target_samples (samp s) <= samples_collected (samp s) ->
  pc (step cfg obs fit s) = Bisecting \/ final (step cfg obs fit s) = true.
Proof.
  intros Hpc Hge. unfold step. rewrite Hpc. unfold step_sampling.
  apply Z.ltb_ge in Hge. rewrite Hge.
  unfold after_expansion. destruct (v_high s); [left|right]; reflexivity.
Qed.

Lemma expanding_left (n : nat) :
  (Z.to_nat (getattr (MAX_TOTAL_RUNS cfg) 0%Z) + 1 <= n)%nat ->
  pc (run cfg obs fit n (init cfg)) <> Expanding.
Proof.
  intros Hn.
  destruct (expanding_leaves (Z.to_nat (getattr (MAX_TOTAL_RUNS cfg) 0%Z)) (init cfg))
    as (k & Hk & Hleft).
  { assert (run_count (init cfg) = 0) by (unfold init; repeat break_match; reflexivity).
    lia. }
  replace n with (k + (n - k))%nat by lia.
  rewrite run_add. apply not_expanding_later, Hleft.
Qed.

Lemma bisecting_returns (n : nat) :
  pc (run cfg obs fit n (init cfg)) = Bisecting ->
  final (run cfg obs fit
           (n + (Z.to_nat (getattr (MAX_BISECTION_ITERATIONS cfg) 0%Z) + 1)) (init cfg))
  = true.
Proof.
  intros Hpc. rewrite run_add, Nat.add_1_r.
  apply bisecting_leaves; [exact Hpc|].
  destruct (run_within_budgets cfg obs fit n) as (_ & Hb). lia.
Qed.

Lemma after_expansion_high (s : state) :
  pc (after_expansion s) = Sampling \/ pc (after_expansion s) = Bisecting ->
  v_high (after_expansion s) <> None.
Proof.
  unfold after_expansion. destruct (v_high s) eqn:Hh; cbn; rewrite ?Hh;
    intros [H|H]; discriminate.
Qed.

Lemma step_high_seen (s : state) :
  (pc s = Sampling \/ pc s = Bisecting -> v_high s <> None) ->
  pc (step cfg obs fit s) = Sampling \/ pc (step cfg obs fit s) = Bisecting ->
  v_high (step cfg obs fit s) <> None.
Proof.
  intros IH. unfold step.
  destruct (pc s) eqn:Hpc.
  - unfold step_expanding.
    repeat (break_match; cbn - [after_expansion]);
      try (apply after_expansion_high);
      intros [H|H]; try discriminate H; try discriminate; congruence.
  - assert (Hh : v_high s <> None) by (apply IH; left; reflexivity).
    unfold step_sampling.
    repeat (break_match; cbn - [after_expansion]);
      try (apply after_expansion_high);
      intros [H|H]; try discriminate H; assumption.
  - assert (Hh : v_high s <> None) by (apply IH; right; reflexivity).
    unfold step_bisecting.
    repeat (break_match; cbn - [fit_phase]);
      intros [H|H]; try discriminate H; try discriminate; try assumption;
      try congruence;
      match goal with
      | H : pc (fit_phase cfg fit ?x) = _ |- _ =>
          destruct (fit_phase_pc cfg fit x) as (_ & Hn1 & Hn2); contradiction
      end.
  - intros [H|H]; rewrite Hpc in H; discriminate H.
  - intros [H|H]; rewrite Hpc in H; discriminate H.
Qed.

Lemma run_high_seen (n : nat) :
  pc (run cfg obs fit n (init cfg)) = Sampling
  \/ pc (run cfg obs fit n (init cfg)) = Bisecting ->
  v_high (run cfg obs fit n (init cfg)) <> None.
Proof.
  induction n as [|n IH].
  - unfold init. repeat break_match; cbn; intros [H|H]; discriminate H.
  - rewrite run_S. apply step_high_seen, IH.
Qed.

End Termination.

(** X6.  The search for a first penetrating shot always ends: after
    MAX_TOTAL_RUNS + 1 loop turns (one turn when the name is missing or not
    positive) a solve has either come back, with a record or an exception, or
    it has seen a penetrating shot, [v_high] is finite, and it is in the
    sampling loop nested in the expansion loop or in the bisection.  The
    expansion loop fires no further shot of its own after that; the nested
    sampling loop may still not end. *)
Theorem first_penetration_search_ends (cfg : config) (obs : Z -> Obs)
    (fit : fit_call -> fit_outcome) (n : nat) :
  (Z.to_nat (getattr (MAX_TOTAL_RUNS cfg) 0%Z) + 1 <= n)%nat ->
  let s := run cfg obs fit n (init cfg) in
  final s = true
  \/ ((pc s = Sampling \/ pc s = Bisecting) /\ exists high, v_high s = Some high).
Proof.
  intros Hn s.
  assert (Hleft : pc s <> Expanding).
  { destruct (expanding_leaves cfg obs fit (Z.to_nat (getattr (MAX_TOTAL_RUNS cfg) 0%Z))
                (init cfg)) as (k & Hk & Hleft).
    { assert (run_count (init cfg) = 0)
        by (unfold init; repeat break_match; reflexivity).
      lia. }
    subst s. replace n with (k + (n - k))%nat by lia.
    rewrite run_add. apply not_expanding_later, Hleft. }
  pose proof (run_high_seen cfg obs fit n) as Hhigh. fold s in Hhigh.
  unfold final.
  destruct (pc s) eqn:Hpc; [congruence| | |left; reflexivity|left; reflexivity].
  - right. split; [left; reflexivity|].
    destruct (v_high s) as [high|]; [exists high; reflexivity|].
    exfalso. apply Hhigh; [left|]; reflexivity.
  - right. split; [right; reflexivity|].
    destruct (v_high s) as [high|]; [exists high; reflexivity|].
    exfalso. apply Hhigh; [right|]; reflexivity.
Qed.

Lemma first_penetration_search_ends_witness :
  (Z.to_nat (getattr (MAX_TOTAL_RUNS completed) 0%Z) + 1 <= 31)%nat
  /\ let s := run completed (steep (2, 2, 2, 2)%Q 1) (fun _ => FitRuntimeError) 31
               (init completed) in
     final s = true
     \/ ((pc s = Sampling \/ pc s = Bisecting) /\ exists high, v_high s = Some high).
Proof.
  split; [vm_compute; lia|].
  apply (first_penetration_search_ends completed (steep (2, 2, 2, 2)%Q 1)
           (fun _ => FitRuntimeError) 31).
  vm_compute. lia.
Defined.

(** X7.  The bisection loop is always left: a solve that is in the
    bisection loop has returned or raised MAX_BISECTION_ITERATIONS + 1 loop
    turns later, whatever the experiments answer and whatever the
    tolerance. *)
Theorem bisection_always_ends (cfg : config) (obs : Z -> Obs)
    (fit : fit_call -> fit_outcome) (n : nat) :
  pc (run cfg obs fit n (init cfg)) = Bisecting ->
  final (run cfg obs fit
           (n + (Z.to_nat (getattr (MAX_BISECTION_ITERATIONS cfg) 0%Z) + 1)) (init cfg))
  = true.
Proof.
  intros Hpc. rewrite run_add, Nat.add_1_r.
  apply bisecting_leaves; [exact Hpc|].
  destruct (run_within_budgets cfg obs fit n) as (_ & Hb). lia.
Qed.

Lemma bisection_always_ends_witness :
  pc (run completed (three_hits (2, 2, 2, 2)%Q 1) (fun _ => FitRuntimeError) 8
        (init completed)) = Bisecting
  /\ final (run completed (three_hits (2, 2, 2, 2)%Q 1) (fun _ => FitRuntimeError)
              (8 + (Z.to_nat (getattr (MAX_BISECTION_ITERATIONS completed) 0%Z) + 1))
              (init completed)) = true.
Proof.
  split; [vm_compute; reflexivity|].
  apply (bisection_always_ends completed (three_hits (2, 2, 2, 2)%Q 1)
           (fun _ => FitRuntimeError) 8).
  vm_compute. reflexivity.
Defined.

(** X8.  When no extra sample is asked for (EXTRA_PENETRATION_SAMPLES <= 0)
    every solve comes back, with a record or an exception, within
    MAX_TOTAL_RUNS + MAX_BISECTION_ITERATIONS + 3 loop turns, whatever the
    experiments answer. *)
Theorem solve_returns_without_sampling (cfg : config) (source : observation_source)
    (fit : fit_call -> fit_outcome) (thickness_config : thickness)
    (config_index : Z) (fuel : nat) :
  getattr (EXTRA_PENETRATION_SAMPLES cfg) 3 <= 0 ->
  (Z.to_nat (getattr (MAX_TOTAL_RUNS cfg) 0%Z)
   + Z.to_nat (getattr (MAX_BISECTION_ITERATIONS cfg) 0%Z) + 3 <= fuel)%nat ->
  find_v50_for_config cfg source fit thickness_config config_index fuel <> None.
Proof.
  intros Hextra Hfuel. unfold find_v50_for_config.
  set (obs := source thickness_config config_index).
  set (E := (Z.to_nat (getattr (MAX_TOTAL_RUNS cfg) 0%Z) + 1)%nat).
  set (B := (Z.to_nat (getattr (MAX_BISECTION_ITERATIONS cfg) 0%Z) + 1)%nat).
  assert (Hfin : final (run cfg obs fit (S E + B) (init cfg)) = true).
  { pose proof (expanding_left cfg obs fit E (Nat.le_refl _)) as HE.
    destruct (pc (run cfg obs fit E (init cfg))) eqn:Hpc; [congruence| | | |].
    - destruct (run_sampling_counts cfg obs fit E Hpc) as (Ht & Hc).
      destruct (sampling_skipped cfg obs fit _ Hpc) as [Hb|Hf]; [lia| |].
      + rewrite <- run_S in Hb. apply bisecting_returns, Hb.
      + rewrite <- run_S in Hf. apply final_stays, Hf.
    - replace (S E + B)%nat with (E + B + 1)%nat by lia.
      apply final_stays. apply bisecting_returns, Hpc.
    - replace (S E + B)%nat with (E + (1 + B))%nat by lia.
      apply final_stays. unfold final. rewrite Hpc. reflexivity.
    - replace (S E + B)%nat with (E + (1 + B))%nat by lia.
      apply final_stays. unfold final. rewrite Hpc. reflexivity. }
  replace fuel with ((S E + B) + (fuel - (S E + B)))%nat by (subst E B; lia).
  apply (final_stays cfg obs fit _ (fuel - (S E + B))) in Hfin.
  unfold final in Hfin.
  destruct (pc (run cfg obs fit (S E + B + (fuel - (S E + B))) (init cfg)));
    discriminate.
Qed.

Lemma solve_returns_without_sampling_witness :
  getattr (EXTRA_PENETRATION_SAMPLES no_extra_samples) 3 <= 0
  /\ (Z.to_nat (getattr (MAX_TOTAL_RUNS no_extra_samples) 0%Z)
      + Z.to_nat (getattr (MAX_BISECTION_ITERATIONS no_extra_samples) 0%Z) + 3 <= 53)%nat
  /\ find_v50_for_config no_extra_samples three_hits (fun _ => FitRuntimeError)
       (2, 2, 2, 2)%Q 1 53 <> None.
Proof.
  split; [vm_compute; discriminate|]. split; [vm_compute; lia|].
  apply (solve_returns_without_sampling no_extra_samples three_hits
           (fun _ => FitRuntimeError) (2, 2, 2, 2)%Q 1 53);
    [vm_compute; discriminate|vm_compute; lia].
Defined.

(** ** The expansion loop *)

Lemma not_penetrated_obs (o : Obs) :
  outcome_of o = NotPenetrated -> sim_success o = true /\ is_penetrated o = false.
Proof.
  unfold outcome_of. destruct (sim_success o), (is_penetrated o); intros H;
    try discriminate H; split; reflexivity.
Qed.

Section Expansion.

Variable cfg : config.
Variable obs : Z -> Obs.
Variable fit : fit_call -> fit_outcome.
Variables (initial_velocity : Q) (max_total_runs : Z).
Hypothesis workdir_defined : BASE_WORKDIR cfg <> None.
Hypothesis initial_defined : INITIAL_VELOCITY cfg = Some initial_velocity.
Hypothesis max_defined : MAX_TOTAL_RUNS cfg = Some max_total_runs.
Hypothesis template_defined : TEMPLATE_FILE cfg <> None.
Hypothesis ls_dyna_defined : LS_DYNA_PATH cfg <> None.

Lemma init_state :
  pc (init cfg) = Expanding
  /\ run_count (init cfg) = 0
  /\ expansion_iter (init cfg) = 0
  /\ current_v (init cfg) = initial_velocity
  /\ v_high (init cfg) = None
  /\ (v_low (init cfg) == 0)%Q
  /\ penetration_points (init cfg) = []
  /\ failures_logged (init cfg) = 0
  /\ multiplier (init cfg)
     = (if Qlt_le_dec 1 (getattr (GROWTH_FACTOR cfg) 1%Q) then GROWTH_FACTOR cfg else None).
Proof.
  unfold init. rewrite initial_defined.
  destruct (BASE_WORKDIR cfg); [|congruence].
  cbn. repeat split; reflexivity.
Qed.

(** A turn of the expansion loop whose experiment does not penetrate. *)
Lemma expanding_not_penetrated (s : state) :
  PROJECTILE_PART_ID cfg <> None ->
  pc s = Expanding ->
  run_count s < max_total_runs ->
  0 <= expansion_iter s ->
  outcome_of (obs (run_count s + 1)) = NotPenetrated ->
  let s' := step cfg obs fit s in
  run_count s' = run_count s + 1
  /\ expansion_iter s' = expansion_iter s + 1
  /\ v_low s' = current_v s
  /\ v_high s' = v_high s
  /\ multiplier s' = multiplier s
  /\ penetration_points s' = penetration_points s
  /\ failures_logged s' = failures_logged s
  /\ match multiplier s with
     | Some m =>
         if Qeq_bool m 0 then
           match EXPONENTIAL_STEP cfg with
           | Some d => pc s' = Expanding /\ current_v s' = (current_v s + d)%Q
           | None => pc s' = Raised (AttributeError "EXPONENTIAL_STEP")
           end
         else pc s' = Expanding /\ current_v s' = (current_v s * m)%Q
     | None =>
         match EXPONENTIAL_STEP cfg with
         | Some d => pc s' = Expanding /\ current_v s' = (current_v s + d)%Q
         | None => pc s' = Raised (AttributeError "EXPONENTIAL_STEP")
         end
     end.
Proof.
  intros Hpart Hpc Hr Hi Ho s'. subst s'.
  destruct (not_penetrated_obs _ Ho) as (Hsim & Hpen).
  unfold step. rewrite Hpc. unfold step_expanding.
  rewrite max_defined. simpl attr. cbv iota.
  apply Z.ltb_lt in Hr. rewrite Hr.
  destruct (TEMPLATE_FILE cfg); [|congruence].
  destruct (LS_DYNA_PATH cfg); [|congruence].
  destruct (PROJECTILE_PART_ID cfg); [|congruence].
  cbn [attr set_run_count set_expansion_iter run_count].
  rewrite Hsim, Hpen. cbn.
  assert (Hpos : (0 <? expansion_iter s + 1) = true) by (apply Z.ltb_lt; lia).
  rewrite Hpos.
  destruct (multiplier s) as [m|] eqn:Hm;
    [destruct (Qeq_bool m 0)|]; cbn;
    destruct (EXPONENTIAL_STEP cfg); cbn; rewrite ?Hpc, ?Hm; repeat split; auto.
Qed.

Hypothesis part_id_defined : PROJECTILE_PART_ID cfg <> None.

Lemma geometric_run (m : Q) (k : nat) :
  GROWTH_FACTOR cfg = Some m ->
  (1 < m)%Q ->
  Z.of_nat k <= max_total_runs ->
  (forall j, 1 <= j <= Z.of_nat k -> outcome_of (obs j) = NotPenetrated) ->
  let s := run cfg obs fit k (init cfg) in
  pc s = Expanding
  /\ run_count s = Z.of_nat k
  /\ expansion_iter s = Z.of_nat k
  /\ multiplier s = Some m
  /\ v_high s = None
  /\ penetration_points s = []
  /\ (current_v s == initial_velocity * m ^ Z.of_nat k)%Q
  /\ (forall k', k = S k' -> (v_low s == initial_velocity * m ^ Z.of_nat k')%Q).
Proof.
  intros Hg Hm. induction k as [|k IH]; intros Hk Hobs s; subst s.
  - destruct init_state as (Hpc & Hr & Hi & Hc & Hh & _ & Hp & _ & Hmul).
    rewrite Hg in Hmul. cbn [getattr] in Hmul.
    destruct (Qlt_le_dec 1 m) as [_|Hle]; [|exfalso; Lqa.lra].
    simpl run. rewrite Hc. repeat split; try assumption; try discriminate.
    change (m ^ Z.of_nat 0)%Q with 1%Q. ring.
  - destruct IH as (Hpc & Hr & Hi & Hmul & Hh & Hp & Hc & _);
      [lia|intros j Hj; apply Hobs; lia|].
    rewrite run_S.
    destruct (expanding_not_penetrated _ part_id_defined Hpc)
      as (Hr' & Hi' & Hl' & Hh' & Hm' & Hp' & _ & Hnext); [lia|lia| |].
    { rewrite Hr. apply Hobs. lia. }
    rewrite Hmul in Hnext.
    assert (Hz : Qeq_bool m 0 = false).
    { destruct (Qeq_bool m 0) eqn:E; [|reflexivity].
      apply Qeq_bool_iff in E. exfalso. Lqa.lra. }
    rewrite Hz in Hnext. destruct Hnext as (Hpc' & Hc').
    split; [exact Hpc'|]. split; [lia|]. split; [lia|]. split; [congruence|].
    split; [congruence|]. split; [congruence|]. split.
    + rewrite Hc', Hc, Nat2Z.inj_succ.
      unfold Z.succ. rewrite Qpower_plus by (intros E; Lqa.lra).
      change (m ^ 1)%Q with m. ring.
    + intros k' Hk'. inversion Hk'; subst k'. rewrite Hl'. exact Hc.
Qed.

Lemma linear_run (d : Q) (k : nat) :
  multiplier (init cfg) = None ->
  EXPONENTIAL_STEP cfg = Some d ->
  Z.of_nat k <= max_total_runs ->
  (forall j, 1 <= j <= Z.of_nat k -> outcome_of (obs j) = NotPenetrated) ->
  let s := run cfg obs fit k (init cfg) in
  pc s = Expanding
  /\ run_count s = Z.of_nat k
  /\ expansion_iter s = Z.of_nat k
  /\ multiplier s = None
  /\ v_high s = None
  /\ penetration_points s = []
  /\ (current_v s == initial_velocity + inject_Z (Z.of_nat k) * d)%Q
  /\ (forall k', k = S k' ->
      (v_low s == initial_velocity + inject_Z (Z.of_nat k') * d)%Q).
Proof.
  intros Hmul0 Hd. induction k as [|k IH]; intros Hk Hobs s; subst s.
  - destruct init_state as (Hpc & Hr & Hi & Hc & Hh & _ & Hp & _ & _).
    simpl run. rewrite Hc. repeat split; try assumption; try discriminate.
    change (inject_Z (Z.of_nat 0)) with 0%Q. ring.
  - destruct IH as (Hpc & Hr & Hi & Hmul & Hh & Hp & Hc & _);
      [lia|intros j Hj; apply Hobs; lia|].
    rewrite run_S.
    destruct (expanding_not_penetrated _ part_id_defined Hpc)
      as (Hr' & Hi' & Hl' & Hh' & Hm' & Hp' & _ & Hnext); [lia|lia| |].
    { rewrite Hr. apply Hobs. lia. }
    rewrite Hmul, Hd in Hnext. destruct Hnext as (Hpc' & Hc').
    split; [exact Hpc'|]. split; [lia|]. split; [lia|]. split; [congruence|].
    split; [congruence|]. split; [congruence|]. split.
    + rewrite Hc', Hc, Nat2Z.inj_succ. unfold Z.succ. rewrite inject_Z_plus.
      change (inject_Z 1) with 1%Q. ring.
    + intros k' Hk'. inversion Hk'; subst k'. rewrite Hl'. exact Hc.
Qed.

End Expansion.

(** X9.  When every simulation fails, the solve gives up after two runs:
    the first failure is retried one linear step higher, the second ends the
    expansion, and the record says that no penetration was found, with
    runs = 2, whatever MAX_TOTAL_RUNS >= 2 allows. *)
Theorem all_simulations_fail (cfg : config) (source : observation_source)
    (fit : fit_call -> fit_outcome) (thickness_config : thickness) (config_index : Z)
    (initial_velocity d : Q) (max_total_runs : Z) (fuel : nat) :
  BASE_WORKDIR cfg <> None ->
  INITIAL_VELOCITY cfg = Some initial_velocity ->
  MAX_TOTAL_RUNS cfg = Some max_total_runs ->
  2 <= max_total_runs ->
  TEMPLATE_FILE cfg <> None ->
  LS_DYNA_PATH cfg <> None ->
  EXPONENTIAL_STEP cfg = Some d ->
  (forall n, sim_success (source thickness_config config_index n) = false) ->
  (2 <= fuel)%nat ->
  let obs := source thickness_config config_index in
  current_v (run cfg obs fit 1 (init cfg)) = (initial_velocity + d)%Q
  /\ failures_logged (run cfg obs fit fuel (init cfg)) = 2
  /\ find_v50_for_config cfg source fit thickness_config config_index fuel
     = Some (Returns [ ("status", VStr "failed");
                       ("reason", VStr "No penetration found in exponential search");
                       ("runs", VInt 2) ]).
Proof.
  intros Hw Hiv Hmax Hge Ht Hl Hd Hfail Hfuel obs.
  assert (Hfail' : forall n, sim_success (obs n) = false) by exact Hfail.
  assert (H0 : (0 <? max_total_runs) = true) by (apply Z.ltb_lt; lia).
  assert (H1 : (1 <? max_total_runs) = true) by (apply Z.ltb_lt; lia).
  set (s1 := set_current_v (initial_velocity + d)%Q
                (log_failure (set_run_count 1 (set_expansion_iter 1 (init cfg))))).
  destruct (init_state cfg initial_velocity Hw Hiv)
    as (Hpc & Hr & He & Hc & Hh & _ & _ & Hf & _).
  assert (Hone : step cfg obs fit (init cfg) = s1).
  { subst s1. unfold step. rewrite Hpc. unfold step_expanding. rewrite Hmax, Hd.
    destruct (TEMPLATE_FILE cfg); [|congruence].
    destruct (LS_DYNA_PATH cfg); [|congruence].
    cbn. rewrite Hr, He, Hc, H0, Hfail'. cbn. reflexivity. }
  assert (Htwo : step cfg obs fit s1
                 = after_expansion
                     (log_failure (set_run_count 2 (set_expansion_iter 2 s1)))).
  { unfold step. subst s1. cbn [pc set_current_v log_failure set_run_count
                                  set_expansion_iter].
    rewrite Hpc. unfold step_expanding. rewrite Hmax.
    destruct (TEMPLATE_FILE cfg); [|congruence].
    destruct (LS_DYNA_PATH cfg); [|congruence].
    cbn. rewrite H1, Hfail'. cbn. reflexivity. }
  assert (Hfin : run cfg obs fit fuel (init cfg)
                 = after_expansion
                     (log_failure (set_run_count 2 (set_expansion_iter 2 s1)))).
  { replace fuel with (2 + (fuel - 2))%nat by lia.
    rewrite final_run_later; simpl run; rewrite Hone, Htwo; [reflexivity|].
    unfold after_expansion. subst s1. cbn. rewrite Hh. reflexivity. }
  split; [simpl run; rewrite Hone; reflexivity|].
  unfold find_v50_for_config. fold obs. rewrite Hfin.
  unfold after_expansion. subst s1. cbn. rewrite Hh. cbn. rewrite Hf.
  split; reflexivity.
Qed.

Lemma all_simulations_fail_witness :
  current_v (run completed (crashing (2, 2, 2, 2)%Q 1) not_converging 1 (init completed))
  = (300 + 50)%Q
  /\ failures_logged
       (run completed (crashing (2, 2, 2, 2)%Q 1) not_converging 2 (init completed)) = 2
  /\ find_v50_for_config completed crashing not_converging (2, 2, 2, 2)%Q 1 2
     = Some (Returns [ ("status", VStr "failed");
                       ("reason", VStr "No penetration found in exponential search");
                       ("runs", VInt 2) ]).
Proof.
  apply (all_simulations_fail completed crashing not_converging (2, 2, 2, 2)%Q 1
           300%Q 50%Q 30 2).
  - discriminate.
  - reflexivity.
  - reflexivity.
  - lia.
  - discriminate.
  - discriminate.
  - reflexivity.
  - intros n. reflexivity.
  - lia.
Defined.

(** X10.  While no shot penetrates, the expansion loop fires a geometric
    sequence when GROWTH_FACTOR > 1 is configured (the k-th next velocity is
    INITIAL_VELOCITY * GROWTH_FACTOR^k) and an arithmetic one otherwise
    (INITIAL_VELOCITY + k * EXPONENTIAL_STEP); [v_low] is the velocity fired
    last. *)
Theorem expansion_velocity_schedule (cfg : config) (obs : Z -> Obs)
    (fit : fit_call -> fit_outcome) (initial_velocity : Q) (max_total_runs : Z)
    (k : nat) :
  BASE_WORKDIR cfg <> None ->
  INITIAL_VELOCITY cfg = Some initial_velocity ->
  MAX_TOTAL_RUNS cfg = Some max_total_runs ->
  TEMPLATE_FILE cfg <> None ->
  LS_DYNA_PATH cfg <> None ->
  PROJECTILE_PART_ID cfg <> None ->
  Z.of_nat k <= max_total_runs ->
  (forall j, 1 <= j <= Z.of_nat k -> outcome_of (obs j) = NotPenetrated) ->
  let s := run cfg obs fit k (init cfg) in
  (forall m,
      GROWTH_FACTOR cfg = Some m -> (1 < m)%Q ->
      pc s = Expanding /\ run_count s = Z.of_nat k /\ v_high s = None
      /\ (current_v s == initial_velocity * m ^ Z.of_nat k)%Q
      /\ (forall k', k = S k' -> (v_low s == initial_velocity * m ^ Z.of_nat k')%Q))
  /\ (forall d,
        (forall m, GROWTH_FACTOR cfg = Some m -> (m <= 1)%Q) ->
        EXPONENTIAL_STEP cfg = Some d ->
        pc s = Expanding /\ run_count s = Z.of_nat k /\ v_high s = None
        /\ (current_v s == initial_velocity + inject_Z (Z.of_nat k) * d)%Q
        /\ (forall k', k = S k' ->
            (v_low s == initial_velocity + inject_Z (Z.of_nat k') * d)%Q)).
Proof.
  intros Hw Hiv Hmax Ht Hl Hp Hk Hobs s. split.
  - intros m Hg Hm.
    destruct (geometric_run cfg obs fit initial_velocity max_total_runs Hw Hiv Hmax Ht Hl Hp
                m k Hg Hm Hk Hobs) as (H1 & H2 & _ & _ & H5 & _ & H7 & H8).
    repeat split; assumption.
  - intros d Hg Hd.
    assert (Hmul : multiplier (init cfg) = None).
    { destruct (init_state cfg initial_velocity Hw Hiv) as (_ & _ & _ & _ & _ & _ & _ & _ & E).
      rewrite E. destruct (GROWTH_FACTOR cfg) as [m|] eqn:Hgf; cbn [getattr].
      - specialize (Hg m eq_refl).
        destruct (Qlt_le_dec 1 m); [exfalso; Lqa.lra|reflexivity].
      - destruct (Qlt_le_dec 1 1); reflexivity. }
    destruct (linear_run cfg obs fit initial_velocity max_total_runs Hw Hiv Hmax Ht Hl Hp
                d k Hmul Hd Hk Hobs) as (H1 & H2 & _ & _ & H5 & _ & H7 & H8).
    repeat split; assumption.
Qed.

Lemma expansion_velocity_schedule_witness :
  let s := run growing (impenetrable (2, 2, 2, 2)%Q 1) not_converging 3 (init growing) in
  pc s = Expanding /\ run_count s = 3
  /\ (current_v s == 300 * (3 # 2) ^ 3)%Q
  /\ (v_low s == 300 * (3 # 2) ^ 2)%Q.
Proof.
  destruct (expansion_velocity_schedule growing (impenetrable (2, 2, 2, 2)%Q 1)
              not_converging 300%Q 30 3) as (Hgeometric & _).
  - discriminate.
  - reflexivity.
  - reflexivity.
  - discriminate.
  - discriminate.
  - discriminate.
  - cbn. lia.
  - intros j _. reflexivity.
  - destruct (Hgeometric (3 # 2)%Q eq_refl) as (H1 & H2 & _ & H4 & H5);
      [reflexivity|].
    split; [exact H1|]. split; [exact H2|]. split; [exact H4|].
    exact (H5 2%nat eq_refl).
Defined.

(** X11.  A target that no shot of the run budget gets through uses the
    whole budget: the solve comes back with the no-penetration record and
    runs = MAX_TOTAL_RUNS. *)
Theorem no_penetration_exhausts_budget (cfg : config) (source : observation_source)
    (fit : fit_call -> fit_outcome) (thickness_config : thickness) (config_index : Z)
    (initial_velocity : Q) (max_total_runs : Z) (fuel : nat) :
  BASE_WORKDIR cfg <> None ->
  INITIAL_VELOCITY cfg = Some initial_velocity ->
  MAX_TOTAL_RUNS cfg = Some max_total_runs ->
  0 <= max_total_runs ->
  TEMPLATE_FILE cfg <> None ->
  LS_DYNA_PATH cfg <> None ->
  PROJECTILE_PART_ID cfg <> None ->
  (exists m, GROWTH_FACTOR cfg = Some m /\ (1 < m)%Q) \/ EXPONENTIAL_STEP cfg <> None ->
  (forall n, 1 <= n <= max_total_runs ->
             outcome_of (source thickness_config config_index n) = NotPenetrated) ->
  (Z.to_nat max_total_runs + 1 <= fuel)%nat ->
  find_v50_for_config cfg source fit thickness_config config_index fuel
  = Some (Returns [ ("status", VStr "failed");
                    ("reason", VStr "No penetration found in exponential search");
                    ("runs", VInt max_total_runs) ]).
Proof.
  intros Hw Hiv Hmax Hge Ht Hl Hp Hnext Hobs Hfuel.
  set (obs := source thickness_config config_index).
  set (k := Z.to_nat max_total_runs).
  assert (Hk : Z.of_nat k <= max_total_runs) by (subst k; lia).
  assert (Hobs' : forall j, 1 <= j <= Z.of_nat k -> outcome_of (obs j) = NotPenetrated).
  { intros j Hj. apply Hobs. lia. }
  assert (Hend : pc (run cfg obs fit k (init cfg)) = Expanding
                 /\ run_count (run cfg obs fit k (init cfg)) = Z.of_nat k
                 /\ v_high (run cfg obs fit k (init cfg)) = None).
  { destruct (init_state cfg initial_velocity Hw Hiv)
      as (_ & _ & _ & _ & _ & _ & _ & _ & Hmul).
    destruct (Qlt_le_dec 1 (getattr (GROWTH_FACTOR cfg) 1%Q)) as [Hgt|Hle].
    - destruct (GROWTH_FACTOR cfg) as [m|] eqn:Hg; cbn [getattr] in Hgt;
        [|exfalso; Lqa.lra].
      destruct (geometric_run cfg obs fit initial_velocity max_total_runs
                  Hw Hiv Hmax Ht Hl Hp m k Hg Hgt Hk Hobs')
        as (H1 & H2 & _ & _ & H5 & _).
      repeat split; assumption.
    - destruct Hnext as [(m & Hg & Hm)|Hstep].
      { rewrite Hg in Hle. cbn [getattr] in Hle. exfalso. Lqa.lra. }
      destruct (EXPONENTIAL_STEP cfg) as [d|] eqn:Hd; [|congruence].
      destruct (linear_run cfg obs fit initial_velocity max_total_runs
                  Hw Hiv Hmax Ht Hl Hp d k Hmul Hd Hk Hobs')
        as (H1 & H2 & _ & _ & H5 & _).
      repeat split; assumption. }
  destruct Hend as (Hpc & Hr & Hh).
  assert (Hstep : step cfg obs fit (run cfg obs fit k (init cfg))
                  = after_expansion (run cfg obs fit k (init cfg))).
  { unfold step. rewrite Hpc. unfold step_expanding. rewrite Hmax. cbn [attr].
    rewrite Hr.
    assert (E : (Z.of_nat k <? max_total_runs) = false) by (apply Z.ltb_ge; subst k; lia).
    rewrite E. reflexivity. }
  unfold find_v50_for_config. fold obs.
  replace fuel with (S k + (fuel - S k))%nat by (subst k; lia).
  rewrite final_run_later; rewrite run_S, Hstep; unfold after_expansion; rewrite Hh.
  - cbn. rewrite Hr. subst k. rewrite Z2Nat.id by lia. reflexivity.
  - reflexivity.
Qed.

Lemma no_penetration_exhausts_budget_witness :
  find_v50_for_config completed impenetrable not_converging (2, 2, 2, 2)%Q 1 31
  = Some (Returns [ ("status", VStr "failed");
                    ("reason", VStr "No penetration found in exponential search");
                    ("runs", VInt 30) ]).
Proof.
  apply (no_penetration_exhausts_budget completed impenetrable not_converging
           (2, 2, 2, 2)%Q 1 300%Q 30 31).
  - discriminate.
  - reflexivity.
  - reflexivity.
  - lia.
  - discriminate.
  - discriminate.
  - discriminate.
  - right. discriminate.
  - intros n _. reflexivity.
  - vm_compute. lia.
Defined.

(** X12.  A simulation that fails during the bisection is treated like a
    shot that did not penetrate: the lower end of the bracket moves up to
    the midpoint, the upper end and the recorded points stay, and one
    warning is logged.  The branch that would lower [v_high] is never
    taken. *)
Theorem failed_bisection_run_raises_v_low (cfg : config) (obs : Z -> Obs)
    (fit : fit_call -> fit_outcome) (s : state) :
  pc s = Bisecting ->
  run_count (step cfg obs fit s) = run_count s + 1 ->
  sim_success (obs (run_count s + 1)) = false ->
  final (step cfg obs fit s) = false ->
  exists high,
    v_high s = Some high
    /\ v_low (step cfg obs fit s) = ((v_low s + high) / 2)%Q
    /\ v_high (step cfg obs fit s) = Some high
    /\ penetration_points (step cfg obs fit s) = penetration_points s
    /\ failures_logged (step cfg obs fit s) = failures_logged s + 1
    /\ bisection_iter (step cfg obs fit s) = bisection_iter s + 1.
Proof.
  intros Hpc Hrun Hfail Hfinal.
  unfold step in *. rewrite Hpc in *. unfold step_bisecting in *.
  destruct (attr "MAX_BISECTION_ITERATIONS" (MAX_BISECTION_ITERATIONS cfg)) as [e|mb];
    [discriminate Hfinal|].
  destruct (bisection_iter s <? mb);
    [|rewrite (proj1 (fit_phase_final cfg fit s)) in Hfinal; discriminate Hfinal].
  destruct (attr "MAX_TOTAL_RUNS" (MAX_TOTAL_RUNS cfg)) as [e|mx];
    [discriminate Hfinal|].
  destruct (run_count s <? mx);
    [|rewrite (proj1 (fit_phase_final cfg fit s)) in Hfinal; discriminate Hfinal].
  destruct (attr "CONVERGENCE_TOLERANCE" (CONVERGENCE_TOLERANCE cfg)) as [e|tol];
    [discriminate Hfinal|].
  destruct (v_high s) as [high|] eqn:Hh; [|discriminate Hfinal].
  destruct (Qlt_le_dec (high - v_low s) tol);
    [rewrite (proj1 (fit_phase_final cfg fit s)) in Hfinal; discriminate Hfinal|].
  destruct (attr "TEMPLATE_FILE" (TEMPLATE_FILE cfg)) as [e|tf];
    [discriminate Hfinal|].
  destruct (attr "LS_DYNA_PATH" (LS_DYNA_PATH cfg)) as [e|lp];
    [discriminate Hfinal|].
  cbn [run_count set_run_count set_bisection_iter] in *.
  rewrite Hfail in *. cbn [negb] in *.
  cbn [v_low log_failure set_run_count set_bisection_iter] in *.
  exists high. split; [reflexivity|].
  destruct (Qlt_le_dec ((v_low s + high) / 2) ((v_low s + high) / 2)) as [Hlt|_].
  - exfalso. revert Hlt. apply Qlt_irrefl.
  - cbn. rewrite Hh. repeat split; reflexivity.
Qed.

Lemma failed_bisection_run_raises_v_low_witness :
  exists high,
    v_high (bracket 300 350) = Some high
    /\ v_low (step completed (crashing (2, 2, 2, 2)%Q 1) not_converging (bracket 300 350))
       = ((v_low (bracket 300 350) + high) / 2)%Q.
Proof.
  destruct (failed_bisection_run_raises_v_low completed
              (crashing (2, 2, 2, 2)%Q 1)
              not_converging (bracket 300 350))
    as (high & H1 & H2 & _); try reflexivity.
  exists high. split; assumption.
Defined.

(** ** The keys of the sampling loop *)

Lemma after_expansion_samp (s : state) :
  samp (after_expansion s) = samp s /\ pc (after_expansion s) <> Expanding
  /\ pc (after_expansion s) <> Sampling.
Proof.
  unfold after_expansion. destruct (v_high s); cbn; repeat split; discriminate.
Qed.

Lemma fit_phase_samp (cfg : config) (fit : fit_call -> fit_outcome) (s : state) :
  samp (fit_phase cfg fit s) = samp s /\ pc (fit_phase cfg fit s) <> Expanding
  /\ pc (fit_phase cfg fit s) <> Sampling.
Proof.
  unfold fit_phase, after_fit. repeat break_match; cbn; repeat split; discriminate.
Qed.

Lemma existsb_Qeq_bool (key : Q) (l : list Q) :
  existsb (Qeq_bool key) l = false -> ~ InA Qeq key l.
Proof.
  intros H Hin. apply InA_alt in Hin. destruct Hin as (y & Heq & Hy).
  assert (E : existsb (Qeq_bool key) l = true).
  { apply existsb_exists. exists y. split; [exact Hy|]. apply Qeq_bool_iff, Heq. }
  congruence.
Qed.

Section Tried.

Variable cfg : config.
Variable obs : Z -> Obs.
Variable fit : fit_call -> fit_outcome.

Lemma step_tried_inv (s : state) : tried_inv s -> tried_inv (step cfg obs fit s).
Proof.
  unfold tried_inv. intros (Hnd & Hexp & Hsamp).
  unfold step, step_expanding, step_sampling, step_bisecting.
  repeat (break_match; cbn - [after_expansion fit_phase vr_in_range filter_valid]);
    try match goal with
        | |- context [after_expansion ?x] =>
            destruct (after_expansion_samp x) as (Ea & Eb & Ec); rewrite Ea
        end;
    try match goal with
        | |- context [fit_phase cfg fit ?x] =>
            destruct (fit_phase_samp cfg fit x) as (Ea & Eb & Ec); rewrite Ea
        end;
    cbn - [after_expansion fit_phase vr_in_range filter_valid];
    (split; [|split; intros Hp; try discriminate Hp; try congruence]);
    try assumption;
    try (constructor; [|assumption]; apply existsb_Qeq_bool; assumption);
    try (constructor; [intros Hin; inversion Hin|constructor]);
    try (specialize (Hexp eq_refl)); try (specialize (Hsamp eq_refl));
    try lia.
Qed.

Lemma run_tried_inv (n : nat) : tried_inv (run cfg obs fit n (init cfg)).
Proof.
  induction n as [|n IH].
  - unfold tried_inv, init.
    repeat break_match; cbn; repeat split; try constructor; intros; try discriminate;
      reflexivity.
  - rewrite run_S. apply step_tried_inv, IH.
Qed.

Lemma sampling_entered (s : state) :
  pc s = Expanding ->
  pc (step cfg obs fit s) = Sampling ->
  tried (samp (step cfg obs fit s)) = [ round6 (current_v s) ].
Proof.
  intros Hpc. unfold step. rewrite Hpc. unfold step_expanding.
  repeat (break_match; cbn - [after_expansion vr_in_range filter_valid]);
    intros H; try discriminate H; try congruence;
    try reflexivity;
    match goal with
    | H : pc (after_expansion ?x) = Sampling |- _ =>
        destruct (after_expansion_pc x) as (_ & Hn); contradiction
    end.
Qed.

Lemma sampling_fires (s : state) :
  pc s = Sampling ->
  run_count (step cfg obs fit s) = run_count s + 1 ->
  let sample_v :=
    if direction_toggle (samp s) mod 2 =? 0 then down_v (samp s) else up_v (samp s) in
  existsb (Qeq_bool (round6 sample_v)) (tried (samp s)) = false
  /\ tried (samp (step cfg obs fit s)) = round6 sample_v :: tried (samp s).
Proof.
  intros Hpc. unfold step. rewrite Hpc. unfold step_sampling.
  repeat (break_match; cbn - [after_expansion vr_in_range]);
    try match goal with
        | |- context [after_expansion ?x] =>
            destruct (after_expansion_counters x) as (Ea & _); rewrite Ea
        end;
    cbn - [after_expansion vr_in_range];
    intros H; try lia; split; first [assumption | reflexivity].
Qed.

End Tried.

(** X13.  The keys of the sampling loop.  [tried] starts as the one key of
    the penetrating shot that opened the loop; every simulation the loop
    starts is fired at a velocity whose rounding to six decimals is not yet
    in [tried], and adds it; so the keys stay pairwise different, one for the
    opening shot and one for every simulation of the loop: two samples of one
    loop never share a rounded velocity, and none has that of the opening
    shot.  The velocities the expansion loop fired at before are not in
    [tried]. *)
Theorem sampling_keys_distinct (cfg : config) (obs : Z -> Obs)
    (fit : fit_call -> fit_outcome) (n : nat) :
  let s := run cfg obs fit n (init cfg) in
  let s' := step cfg obs fit s in
  NoDupA Qeq (tried (samp s))
  /\ (pc s = Sampling ->
      run_count s - expansion_iter s = Z.of_nat (List.length (tried (samp s))) - 1)
  /\ (pc s = Expanding -> pc s' = Sampling ->
      tried (samp s') = [ round6 (current_v s) ])
  /\ (pc s = Sampling -> run_count s' = run_count s + 1 ->
      let sample_v :=
        if direction_toggle (samp s) mod 2 =? 0 then down_v (samp s)
        else up_v (samp s) in
      ~ InA Qeq (round6 sample_v) (tried (samp s))
      /\ tried (samp s') = round6 sample_v :: tried (samp s)).
Proof.
  intros s s'. destruct (run_tried_inv cfg obs fit n) as (Hnd & _ & Hs). fold s in Hs.
  split; [exact Hnd|]. split; [intros Hpc; specialize (Hs Hpc); lia|].
  split; [apply sampling_entered|].
  intros Hpc Hrun sample_v.
  destruct (sampling_fires cfg obs fit s Hpc Hrun) as (Hnew & Hadd).
  split; [apply existsb_Qeq_bool, Hnew|exact Hadd].
Qed.

(** ** The batch *)

Lemma keys_cons (r : pydict) (k : string) (ks : list string) :
  keys r = k :: ks -> exists v r', r = (k, v) :: r' /\ keys r' = ks.
Proof.
  destruct r as [|[k' v] r']; [discriminate|]. cbn. intros H. inversion H; subst.
  exists v, r'. split; reflexivity.
Qed.

Lemma keys_nil (r : pydict) : keys r = [] -> r = [].
Proof. destruct r; [reflexivity|discriminate]. Qed.

Ltac explode_keys :=
  repeat match goal with
         | H : keys ?r = _ :: _ |- _ =>
             let v := fresh "v" in
             let r' := fresh "r" in
             let E := fresh "E" in
             destruct (keys_cons _ _ _ H) as (v & r' & E & ?); clear H; subst r
         | H : keys ?r = [] |- _ => apply keys_nil in H; subst r
         end.

Lemma row_of_record (i : Z) (t : thickness) (result : pydict) :
  record_shape result -> row_ok i t (dict_update (row_head i t) result).
Proof.
  destruct t as [[[t1 t2] t3] t4].
  intros [(Hs & Hk)|[(Hs & Hk)|(Hs & Hk)]]; explode_keys;
    cbn in Hs; inversion Hs; subst; cbn; repeat split; auto.
Qed.

Lemma row_of_exception (i : Z) (t : thickness) (e : exn) :
  row_ok i t (row_head i t ++ [ ("status", VStr "critical_failure");
                                ("reason", VStr (str_of_exn e)) ])%list.
Proof.
  destruct t as [[[t1 t2] t3] t4]. cbn. repeat split. right. right.
  split; reflexivity.
Qed.

Lemma rows_ok_app (configs1 configs2 : list thickness) :
  forall (i : Z) (rows1 rows2 : list pydict),
    rows_ok i configs1 rows1 ->
    rows_ok (i + Z.of_nat (List.length configs1)) configs2 rows2 ->
    rows_ok i (configs1 ++ configs2) (rows1 ++ rows2).
Proof.
  induction configs1 as [|t configs1 IH]; intros i rows1 rows2 H1 H2.
  - destruct rows1; [|destruct H1]. cbn in H2. rewrite Z.add_0_r in H2. exact H2.
  - destruct rows1 as [|row rows1]; [destruct H1|]. destruct H1 as (Hrow & H1).
    cbn. split; [exact Hrow|]. apply IH; [exact H1|].
    replace (i + 1 + Z.of_nat (List.length configs1))
      with (i + Z.of_nat (List.length (t :: configs1))); [exact H2|].
    cbn [List.length]. lia.
Qed.

Lemma process_rows (cfg : config) (source : observation_source)
    (fit : fit_call -> fit_outcome) (fuel : nat) (configs : list thickness) :
  forall (done : list thickness) (results_list rows : list pydict),
    rows_ok 0 done results_list ->
    process cfg source fit fuel (Z.of_nat (List.length done)) configs results_list
    = Some (inr rows) ->
    rows_ok 0 (done ++ configs) rows.
Proof.
  induction configs as [|t configs IH]; intros done results_list rows Hdone H.
  - cbn in H. inversion H; subst. rewrite app_nil_r. exact Hdone.
  - cbn [process] in H.
    destruct (find_v50_for_config cfg source fit t (Z.of_nat (List.length done) + 1) fuel)
      as [r|] eqn:Hsolve; [|discriminate].
    destruct (attr "RESULTS_CSV_FILE" (RESULTS_CSV_FILE cfg)); [discriminate|].
    replace (Z.of_nat (List.length done) + 1)
      with (Z.of_nat (List.length (done ++ [t]))) in H
      by (rewrite length_app; cbn; lia).
    apply IH in H.
    + rewrite <- app_assoc in H. exact H.
    + apply rows_ok_app; [exact Hdone|]. cbn. split; [|exact I].
      destruct r as [result|e].
      * apply row_of_record.
        apply (run_record_shape cfg (source t (Z.of_nat (List.length done) + 1)) fit fuel).
        unfold find_v50_for_config in Hsolve.
        destruct (pc (run cfg (source t (Z.of_nat (List.length done) + 1)) fit fuel
                        (init cfg))); try discriminate Hsolve; congruence.
      * apply row_of_exception.
Qed.

(** X14.  When [main] ends, [results_list] holds one row for every
    thickness configuration, in order: the row of the k-th configuration
    carries config_index = k (counted from 1), its four thicknesses, and the status success, failed or
    critical_failure, the last with a reason.  No key of a solver record
    overwrites the index or a thickness. *)
Theorem main_one_row_per_configuration (cfg : config) (source : observation_source)
    (fit : fit_call -> fit_outcome) (fuel : nat) (configs : list thickness)
    (rows : list pydict) :
  THICKNESS_CONFIGS cfg = Some configs ->
  (forall path, LS_DYNA_PATH cfg = Some path -> contains "path/to/your" path = false) ->
  main cfg source fit fuel = Some (inr rows) ->
  rows_ok 0 configs rows.
Proof.
  intros Hconfigs Hpath. unfold main.
  destruct (attr "BASE_WORKDIR" (BASE_WORKDIR cfg)); [discriminate|].
  destruct (LS_DYNA_PATH cfg) as [path|]; [|discriminate]. cbn [attr].
  rewrite (Hpath path eq_refl), Hconfigs. cbn [attr].
  intros H. apply (process_rows cfg source fit fuel configs [] [] rows I H).
Qed.

Lemma main_one_row_per_configuration_witness :
  rows_ok 0
    [ (2, 2, 2, 2); (5 # 2, 5 # 2, 5 # 2, 5 # 2); (3, 3, 3, 3);
      (7 # 2, 7 # 2, 7 # 2, 7 # 2); (4, 4, 4, 4) ]%Q
    (match main completed impenetrable not_converging 31 with
     | Some (inr rows) => rows
     | _ => []
     end).
Proof.
  apply (main_one_row_per_configuration completed impenetrable not_converging 31).
  - reflexivity.
  - intros path H. inversion H. vm_compute. reflexivity.
  - vm_compute. reflexivity.
Defined.

(** ** The LS-DYNA runner *)

(** X15.  [run_simulation] reports success exactly when the executable
    exists, the process exits with code 0, [messag], [rbdout] and [d3hsp] are
    there and not empty, and [messag] says NORMAL TERMINATION; [matsum] plays
    no part.  Every other result carries a reason, and every result a
    duration. *)
Theorem run_simulation_success_characterised (w : Lsdyna_runner.world) :
  let ok :=
    (Lsdyna_runner.executable_exists w
     && match Lsdyna_runner.proc w with
        | Lsdyna_runner.Exited return_code _ _ d =>
            (return_code =? 0)
            && Lsdyna_runner.has_messag d && Lsdyna_runner.has_rbdout d
            && Lsdyna_runner.has_d3hsp d && Lsdyna_runner.normal_termination d
        | _ => false
        end)%bool in
  dict_get "success" (Lsdyna_runner.run_simulation w) = Some (VBool ok)
  /\ has_key "reason" (Lsdyna_runner.run_simulation w) = negb ok
  /\ has_key "duration" (Lsdyna_runner.run_simulation w) = true.
Proof.
  destruct w as [exists_ p]. unfold Lsdyna_runner.run_simulation.
  cbn [Lsdyna_runner.executable_exists Lsdyna_runner.proc].
  destruct exists_; [|repeat split; reflexivity].
  destruct p as [msg|elapsed|return_code stderr elapsed d];
    try (repeat split; reflexivity).
  cbn [negb andb]. destruct (return_code =? 0); [|repeat split; reflexivity].
  destruct d as [[] [] [] [] []]; repeat split; reflexivity.
Qed.

(** X16.  [check_output_files] sorts the three files a run must leave into
    [files] and [missing], each into exactly one of them; [matsum] is never
    reported missing; and [complete] holds exactly when nothing is missing
    and the run terminated normally, so a run can be incomplete with an
    empty [missing] list. *)
Theorem check_output_files_partition (d : Lsdyna_runner.run_dir) :
  exists files missing,
    dict_get "files" (Lsdyna_runner.check_output_files d) = Some (VList (map VStr files))
    /\ dict_get "missing" (Lsdyna_runner.check_output_files d)
       = Some (VList (map VStr missing))
    /\ (forall name, In name [ "messag"; "rbdout"; "d3hsp" ] ->
                     (In name files <-> ~ In name missing))
    /\ (forall name, In name missing -> In name [ "messag"; "rbdout"; "d3hsp" ])
    /\ (forall name, In name files ->
                     In name [ "messag"; "rbdout"; "d3hsp"; "matsum" ])
    /\ (In "matsum" files <-> Lsdyna_runner.has_matsum d = true)
    /\ (dict_get "complete" (Lsdyna_runner.check_output_files d) = Some (VBool true)
        <-> missing = [] /\ Lsdyna_runner.normal_termination d = true).
Proof.
  unfold Lsdyna_runner.check_output_files.
  do 2 eexists. split; [reflexivity|]. split; [reflexivity|].
  destruct d as [[] [] [] [] []];
    cbn [Lsdyna_runner.has_messag Lsdyna_runner.has_rbdout Lsdyna_runner.has_d3hsp
         Lsdyna_runner.has_matsum Lsdyna_runner.normal_termination
         Lsdyna_runner.present Lsdyna_runner.absent app dict_get String.eqb
         Ascii.eqb Bool.eqb List.length Nat.eqb andb];
    (split; [intros name [<-|[<-|[<-|[]]]]; cbn [In];
             intuition (try discriminate; try congruence)|]);
    (split; [cbn [In]; intros name; intuition (try discriminate; try congruence)|]);
    (split; [cbn [In]; intros name; intuition (try discriminate; try congruence)|]);
    (split; [cbn [In]; intuition (try discriminate; try congruence)|]);
    intuition (try discriminate; try congruence).
Qed.

(** ** Bounds of the Lambert-Jonas law *)

Section Bounds.

Local Open Scope R_scope.

Import Lambert_jonas.

Lemma root_of_power (x : R) (p : posreal) : 0 < x -> Rpower (Rpower x p) (1 / p) = x.
Proof.
  intros Hx. pose proof (cond_pos p) as Hp.
  rewrite Rpower_mult. replace (p * (1 / p)) with 1 by (field; Lra.lra).
  apply Rpower_1, Hx.
Qed.

(** X17.  Over the reals and for an exponent [p > 0]: with [a >= 0] the law
    never gives a negative residual velocity, whatever the signs of [Vi] and
    [VBL]; and for velocities that are not negative the residual velocity is
    at most [a * Vi]. *)
Theorem lambert_jonas_bounds (a p : R) (exponent_positive : 0 < p) :
  0 <= a ->
  (forall Vi VBL, 0 <= lambert_jonas_func Vi a (mkposreal p exponent_positive) VBL)
  /\ (forall Vi VBL,
        0 <= Vi -> 0 <= VBL ->
        lambert_jonas_func Vi a (mkposreal p exponent_positive) VBL <= a * Vi).
Proof.
  intros Ha. set (q := mkposreal p exponent_positive).
  pose proof (cond_pos q) as Hp. split.
  - intros Vi VBL. unfold lambert_jonas_func.
    destruct (power Vi q) as [x|]; [|Lra.lra].
    destruct (power VBL q) as [y|]; [|Lra.lra].
    cbv zeta. destruct (Rlt_dec 0 (x - y)); [|Lra.lra].
    pose proof (Rpower_positive (x - y) (1 / q)).
    apply Rmult_le_pos; Lra.lra.
  - intros Vi VBL HVi HVBL. unfold lambert_jonas_func.
    assert (Hy : exists y, power VBL q = Some y /\ 0 <= y).
    { destruct HVBL as [H|H].
      - exists (Rpower VBL q). split; [apply power_positive, H|].
        left. apply Rpower_positive.
      - subst VBL. exists 0. split; [apply power_zero|Lra.lra]. }
    destruct Hy as (y & -> & Hy).
    destruct HVi as [H|H].
    + rewrite (power_positive Vi q H). cbv zeta.
      destruct (Rlt_dec 0 (Rpower Vi q - y)) as [Hterm|_].
      * apply Rmult_le_compat_l; [exact Ha|].
        rewrite <- (root_of_power Vi q H) at 2.
        apply Rle_Rpower_l; [left; apply inverse_exponent|Lra.lra].
      * apply Rmult_le_pos; Lra.lra.
    + subst Vi. rewrite power_zero. cbv zeta.
      destruct (Rlt_dec 0 (0 - y)); [Lra.lra|Lra.lra].
Qed.

Lemma lambert_jonas_bounds_witness :
  0 < 2 /\ 0 <= 1
  /\ (forall Vi VBL, 0 <= lambert_jonas_func Vi 1 two VBL)
  /\ (forall Vi VBL, 0 <= Vi -> 0 <= VBL -> lambert_jonas_func Vi 1 two VBL <= 1 * Vi).
Proof.
  split; [exact Rlt_0_2|]. split; [Lra.lra|].
  apply (lambert_jonas_bounds 1 2 Rlt_0_2). Lra.lra.
Defined.

End Bounds.

(** ** The residual-velocity extractor *)

Import Result_parser.

Section Extraction.

Variable np_sqrt : Q -> Q.
Variable np_mean : list Q -> Q.
Variable parse_int : string -> option Z.
Variable parse_float : string -> option Q.
Variable cfg : settings.
Variable w : world.

Lemma run_lsprepost_batch_fails : _run_lsprepost_batch cfg w = false.
Proof.
  unfold _run_lsprepost_batch.
  destruct (LSPREPOST_PATH cfg); [|reflexivity].
  destruct (chdir_ok w); [|reflexivity].
  destruct (config_item cfg "timeout" timeout); reflexivity.
Qed.

Lemma batch_is_failure :
  exists reason,
    extract_residual_velocity_batch np_sqrt np_mean parse_int parse_float cfg w = failure reason
    /\ (reason = "no_d3plot_file" \/ reason = "lsprepost_batch_failed"
        \/ exists msg, command_file_error w = Some msg
                       /\ reason = "batch_error: " ++ msg).
Proof.
  unfold extract_residual_velocity_batch. rewrite run_lsprepost_batch_fails.
  destruct (d3plot_exists w); cbn [negb andb].
  - destruct (command_file_error w) as [msg|].
    + eexists. split; [reflexivity|]. right. right. exists msg. split; reflexivity.
    + eexists. split; [reflexivity|]. right. left. reflexivity.
  - eexists. split; [reflexivity|]. left. reflexivity.
Qed.

Lemma node_velocities_length (interface : lsprepost) (nodes : list Z) :
  (List.length (node_velocities np_sqrt interface nodes) <= List.length nodes)%nat.
Proof.
  induction nodes as [|n nodes IH]; cbn; [lia|].
  destruct (get_node_velocity interface n) as [[|x [|y [|z rest]]]|]; cbn; lia.
Qed.

Lemma python_interface_success (interface : lsprepost) (r : pydict) :
  python_interface np_sqrt np_mean cfg interface = Some r -> python_success cfg interface r.
Proof.
  unfold python_interface.
  destruct (open_database interface) as [ret_code|] eqn:Hopen; [|discriminate].
  destruct (ret_code =? 0) eqn:Hret; cbn [negb]; [|discriminate].
  apply Z.eqb_eq in Hret. subst ret_code.
  destruct (get_time_array interface) as [time_steps|]; [|discriminate].
  destruct (rev time_steps) as [|last_time rest]; [discriminate|].
  destruct (set_current_time interface last_time); cbn [negb]; [|discriminate].
  destruct (nonempty (_get_projectile_nodes cfg interface)); cbn [negb]; [|discriminate].
  destruct (close_database interface) eqn:Hclose; cbn [negb]; [|discriminate].
  destruct (node_velocities np_sqrt interface (_get_projectile_nodes cfg interface))
    as [|v vs] eqn:Hv; cbn [nonempty negb]; [discriminate|].
  destruct (config_item cfg "velocity_threshold" velocity_threshold)
    as [e|threshold] eqn:Hthr; [discriminate|].
  intros H. inversion H; subst r; clear H.
  exists (np_mean (map (@v_magnitude) (v :: vs))),
    (maximum (map (@v_magnitude) (v :: vs))), threshold, (map velocity_dict (v :: vs)).
  rewrite length_map.
  split; [reflexivity|]. split; [exact Hthr|].
  split; [|split; [exact Hopen|exact Hclose]].
  split; [cbn; lia|].
  rewrite <- Hv. apply node_velocities_length.
Qed.

Lemma python_or_failure (lspp : option lsprepost) :
  let r := extract_residual_velocity_python np_sqrt np_mean parse_int parse_float cfg w lspp in
  (exists reason, r = failure reason)
  \/ (exists interface,
        lspp = Some interface /\ d3plot_exists w = true /\ python_success cfg interface r).
Proof.
  unfold extract_residual_velocity_python.
  destruct batch_is_failure as (reason & Hbatch & _).
  destruct lspp as [interface|]; [|left; exists reason; exact Hbatch].
  destruct (d3plot_exists w) eqn:Hd; cbn [negb]; [|left; eexists; reflexivity].
  destruct (python_interface np_sqrt np_mean cfg interface) as [r|] eqn:Hr.
  - right. exists interface. split; [reflexivity|]. split; [reflexivity|].
    apply python_interface_success, Hr.
  - left. exists reason. exact Hbatch.
Qed.

Lemma residual_velocity_cases (_extractor : option (option lsprepost)) (r : pydict) :
  fst (get_residual_velocity np_sqrt np_mean parse_int parse_float cfg w _extractor) = inr r ->
  (exists reason, r = failure reason)
  \/ (exists interface,
        (_extractor = Some (Some interface)
         \/ _extractor = None /\ importable w = Some interface)
        /\ config_item cfg "extract_method" extract_method = inr "python"
        /\ d3plot_exists w = true
        /\ python_success cfg interface r).
Proof.
  unfold get_residual_velocity.
  destruct batch_is_failure as (reason & Hbatch & _).
  assert (Hcases : forall lspp,
    (_extractor = Some lspp \/ _extractor = None /\ importable w = lspp) ->
    fst (match config_item cfg "extract_method" extract_method with
         | inl e => (inl e, Some lspp)
         | inr method =>
             if String.eqb method "python"
             then (inr (extract_residual_velocity_python np_sqrt np_mean parse_int parse_float
                          cfg w lspp), Some lspp)
             else (inr (extract_residual_velocity_batch np_sqrt np_mean parse_int parse_float
                          cfg w), Some lspp)
         end) = inr r ->
    (exists reason, r = failure reason)
    \/ (exists interface,
          (_extractor = Some (Some interface)
           \/ _extractor = None /\ importable w = Some interface)
          /\ config_item cfg "extract_method" extract_method = inr "python"
          /\ d3plot_exists w = true
          /\ python_success cfg interface r)).
  { intros lspp Hfrom.
    destruct (config_item cfg "extract_method" extract_method) as [e|method];
      [discriminate|].
    destruct (String.eqb method "python") eqn:Hm; cbn [fst]; intros H; inversion H.
    - apply String.eqb_eq in Hm. subst method.
      destruct (python_or_failure lspp) as [Hf|(interface & -> & Hd & Hs)];
        [left; exact Hf|].
      right. exists interface. split; [|split; [reflexivity|split; assumption]].
      destruct Hfrom as [Hfrom|(Hnone & Himp)]; [left; exact Hfrom|right].
      split; assumption.
    - left. exists reason. exact Hbatch. }
  destruct _extractor as [lspp|].
  - apply Hcases. left. reflexivity.
  - destruct (LSPREPOST_PYTHON_PATH cfg); [|discriminate].
    apply Hcases. right. split; reflexivity.
Qed.


End Extraction.

(** X18.  The batch fallback never succeeds: [subprocess.Popen] is called
    with a [timeout] keyword it does not have, the TypeError is answered with
    [False], and so [extract_residual_velocity_batch] gives a failure record
    whatever LS-PrePost would have written. *)
Theorem batch_extraction_never_succeeds (np_sqrt : Q -> Q) (np_mean : list Q -> Q)
    (parse_int : string -> option Z) (parse_float : string -> option Q)
    (cfg : settings) (w : world) :
  let r := extract_residual_velocity_batch np_sqrt np_mean parse_int parse_float cfg w in
  dict_get "success" r = Some (VBool false)
  /\ dict_get "residual_velocity" r = Some VNone
  /\ dict_get "is_penetration" r = Some VNone
  /\ exists reason,
       dict_get "reason" r = Some (VStr reason)
       /\ (reason = "no_d3plot_file" \/ reason = "lsprepost_batch_failed"
           \/ exists msg, command_file_error w = Some msg
                          /\ reason = "batch_error: " ++ msg).
Proof.
  intros r. subst r.
  destruct (batch_is_failure np_sqrt np_mean parse_int parse_float cfg w)
    as (reason & -> & Hreason).
  repeat split; try reflexivity. exists reason. split; [reflexivity|exact Hreason].
Qed.

(** X19.  What [get_residual_velocity] returns is either the four-key
    failure record, with no velocity and no verdict, or the record of the
    Python interface; the latter needs the interface imported, the method
    set to python and the d3plot file, its verdict is
    [residual_velocity > velocity_threshold], and it counts at least one
    node and at most the projectile nodes. *)
Theorem residual_velocity_record (np_sqrt : Q -> Q) (np_mean : list Q -> Q)
    (parse_int : string -> option Z) (parse_float : string -> option Q)
    (cfg : settings) (w : world) (_extractor : option (option lsprepost)) (r : pydict) :
  fst (get_residual_velocity np_sqrt np_mean parse_int parse_float cfg w _extractor) = inr r ->
  (exists reason,
      r = [ ("success", VBool false); ("reason", VStr reason);
            ("residual_velocity", VNone); ("is_penetration", VNone) ])
  \/ (exists interface avg mx threshold data,
        (_extractor = Some (Some interface)
         \/ _extractor = None /\ importable w = Some interface)
        /\ config_item cfg "extract_method" extract_method = inr "python"
        /\ config_item cfg "velocity_threshold" velocity_threshold = inr threshold
        /\ d3plot_exists w = true
        /\ r = [ ("success", VBool true);
                 ("residual_velocity", VFloat avg);
                 ("max_residual_velocity", VFloat mx);
                 ("is_penetration", VBool (negb (Qle_bool avg threshold)));
                 ("node_count", VInt (Z.of_nat (List.length data)));
                 ("velocity_data", VList data);
                 ("source", VStr "lsprepost_python") ]
        /\ (1 <= List.length data
            <= List.length (_get_projectile_nodes cfg interface))%nat).
Proof.
  intros H.
  destruct (residual_velocity_cases np_sqrt np_mean parse_int parse_float cfg w _extractor r H)
    as [Hf|(interface & Hfrom & Hmethod & Hd & Hs)]; [left; exact Hf|].
  destruct Hs as (avg & mx & threshold & data & Hr & Hthr & Hn & _ & _).
  right. exists interface, avg, mx, threshold, data.
  repeat split; try assumption; apply Hn.
Qed.

Lemma residual_velocity_record_witness :
  let r := extract_residual_velocity_python whole_sqrt exact_mean whole_int whole_float shipped_settings
             with_interface (Some two_nodes) in
  (exists reason,
      r = [ ("success", VBool false); ("reason", VStr reason);
            ("residual_velocity", VNone); ("is_penetration", VNone) ])
  \/ (exists interface avg mx threshold data,
        (@None (option lsprepost) = Some (Some interface)
         \/ @None (option lsprepost) = None /\ importable with_interface = Some interface)
        /\ config_item shipped_settings "extract_method" extract_method = inr "python"
        /\ config_item shipped_settings "velocity_threshold" velocity_threshold
           = inr threshold
        /\ d3plot_exists with_interface = true
        /\ r = [ ("success", VBool true);
                 ("residual_velocity", VFloat avg);
                 ("max_residual_velocity", VFloat mx);
                 ("is_penetration", VBool (negb (Qle_bool avg threshold)));
                 ("node_count", VInt (Z.of_nat (List.length data)));
                 ("velocity_data", VList data);
                 ("source", VStr "lsprepost_python") ]
        /\ (1 <= List.length data
            <= List.length (_get_projectile_nodes shipped_settings interface))%nat).
Proof.
  exact (residual_velocity_record whole_sqrt exact_mean whole_int whole_float shipped_settings
           with_interface None _ eq_refl).
Defined.

(** X20.  The solver reads the answer as a pair
    ([is_penetrated, vr = get_residual_velocity(..)]), but every answer is a
    dict of four or seven keys: the unpacking raises ValueError. *)
Theorem residual_velocity_is_no_pair (np_sqrt : Q -> Q) (np_mean : list Q -> Q)
    (parse_int : string -> option Z) (parse_float : string -> option Q)
    (cfg : settings) (w : world) (_extractor : option (option lsprepost)) (r : pydict) :
  fst (get_residual_velocity np_sqrt np_mean parse_int parse_float cfg w _extractor) = inr r ->
  (List.length (iterate r) = 4 \/ List.length (iterate r) = 7)%nat
  /\ exists msg, unpack_pair (iterate r) = inl (ValueError msg).
Proof.
  intros H.
  destruct (residual_velocity_cases np_sqrt np_mean parse_int parse_float cfg w _extractor r H)
    as [(reason & ->)|(interface & _ & _ & _ & Hs)].
  - split; [left; reflexivity|eexists; reflexivity].
  - destruct Hs as (avg & mx & threshold & data & -> & _).
    split; [right; reflexivity|eexists; reflexivity].
Qed.

Lemma residual_velocity_is_no_pair_witness :
  (List.length (iterate (failure "no_d3plot_file")) = 4
   \/ List.length (iterate (failure "no_d3plot_file")) = 7)%nat
  /\ exists msg,
       unpack_pair (iterate (failure "no_d3plot_file")) = inl (ValueError msg).
Proof.
  exact (residual_velocity_is_no_pair whole_sqrt exact_mean whole_int whole_float shipped_settings
           without_interface None (failure "no_d3plot_file") eq_refl).
Defined.


